(** * AITod: the segment pipeline and its provider gateway

    A shallow embedding of the Python services under [backend/app]:
    [utils/config.py], [utils/llm_client.py], [utils/file_handler.py],
    [services/transcriber.py], [services/context_builder.py],
    [services/translator.py] and [services/srt_generator.py].

    Conventions.
    - A Python [str] is a [string]; each [ascii] stands for one code point
      below 256.
    - A Python [float] is an IEEE-754 binary64 datum, a [spec_float] of the
      Standard Library at precision 53 and maximal exponent 1024; literals are
      written through [Prim2SF].
    - An [async def] is a computation in the monad [M]: it reads and updates a
      [World] (the requests sent to the providers so far, and the files on
      disk) and either returns a value or raises an exception. *)

From Stdlib Require Import String Ascii List ZArith Lia Bool Arith Floats.
From Stdlib Require Import DecimalString.
Import ListNotations.
Open Scope list_scope.
Open Scope string_scope.

(** ** Python strings *)

Module PyStr.

Definition chr (n : nat) : string := String (ascii_of_nat n) EmptyString.

(** The characters the source writes as escapes or inside f-strings. *)
Definition NL : string := chr 10.
Definition CR : string := chr 13.
Definition DQUOTE : string := chr 34.
Definition SQUOTE : string := chr 39.

(** [str.isspace] restricted to code points below 256. *)
Definition isspace (c : ascii) : bool :=
  let n := nat_of_ascii c in
  (((9 <=? n) && (n <=? 13)) || ((28 <=? n) && (n <=? 32))
   || (n =? 133) || (n =? 160))%nat.

Fixpoint lstrip (s : string) : string :=
  match s with
  | EmptyString => EmptyString
  | String c s' => if isspace c then lstrip s' else s
  end.

(** [rstrip] keeps a character when it is not a space or when something
    survives to its right. *)
Fixpoint rstrip (s : string) : string :=
  match s with
  | EmptyString => EmptyString
  | String c s' =>
      match rstrip s' with
      | EmptyString => if isspace c then EmptyString else String c EmptyString
      | r => String c r
      end
  end.

Definition strip (s : string) : string := rstrip (lstrip s).

(** [sep.join(items)] *)
Fixpoint join (sep : string) (items : list string) : string :=
  match items with
  | [] => EmptyString
  | [x] => x
  | x :: rest => x ++ sep ++ join sep rest
  end.

(** [s.split()]: the maximal runs of non-space characters, in order.
    [cur] is the run being read, reversed. *)
Fixpoint split_aux (s : string) (cur : list ascii) : list string :=
  let flush (k : list string) :=
    match cur with
    | [] => k
    | _ => string_of_list_ascii (List.rev cur) :: k
    end in
  match s with
  | EmptyString => flush []
  | String c s' =>
      if isspace c then flush (split_aux s' []) else split_aux s' (c :: cur)
  end.

Definition split (s : string) : list string := split_aux s [].

(** [s[:n]] *)
Fixpoint prefix (n : nat) (s : string) : string :=
  match n, s with
  | S n', String c s' => String c (prefix n' s')
  | _, _ => EmptyString
  end.

(** [str(n)] for a non-negative [int]. *)
Definition of_nat (n : nat) : string := NilEmpty.string_of_uint (Nat.to_uint n).

(** [x in xs] for a list of strings. *)
Definition mem (x : string) (xs : list string) : bool :=
  existsb (String.eqb x) xs.



End PyStr.

(** ** Exceptions, results and the world *)

(** The exception classes the services raise by name, and [OtherError] for
    every other subclass of [Exception] (errors of a provider SDK, of the
    runtime, of a library).  [str_exn] is [str(e)]. *)
Inductive exn : Type :=
| ValueError (msg : string)
| FileNotFoundError (msg : string)
| Exception (msg : string)
| OtherError (cls : string) (msg : string).

Definition str_exn (e : exn) : string :=
  match e with
  | ValueError m | FileNotFoundError m | Exception m | OtherError _ m => m
  end.

Inductive result (A : Type) : Type :=
| Ok (a : A)
| Err (e : exn).
Arguments Ok {A} a.
Arguments Err {A} e.

(** A timed unit of transcript text: the dictionary with keys ['start'],
    ['end'], ['text'] and, after translation, ['translated_text']. *)
Record Segment : Type := mkSegment {
  start : spec_float;
  end_ : spec_float;
  text : string;
  translated_text : option string
}.

(** What [openai_client.audio.transcriptions.create] answers with
    [response_format="verbose_json"]: [segments] is [None] when the attribute
    is missing or null. *)
Record TranscriptionSegment : Type := {
  seg_start : spec_float;
  seg_end : spec_float;
  seg_text : string
}.

Record TranscriptionVerbose : Type := {
  resp_segments : option (list TranscriptionSegment);
  resp_text : string
}.

(** The requests that leave the process. *)
Inductive Request : Type :=
| AudioTranscriptionsCreate (model file language : string)
| ChatCompletionsCreate (model system user : string)
| GenerateContentAudio (model prompt audio_data : string)
| GenerateContent (model contents : string).

(** The remote services, as seen through their SDKs: each answer may depend
    on the requests made before.  [chat_completions_create] stands for the call
    followed by [response.choices[0].message.content], and the two
    [generate_content] for the call followed by [response.text]. *)
Record ProviderSDK : Type := {
  audio_transcriptions_create :
    list Request -> string -> string -> string -> result TranscriptionVerbose;
  chat_completions_create :
    list Request -> string -> string -> string -> result string;
  generate_content_audio :
    list Request -> string -> string -> string -> result string;
  generate_content :
    list Request -> string -> string -> result string
}.

Record World : Type := {
  requests : list Request;            (* sent so far, oldest first *)
  files : string -> option string     (* regular files, by path *)
}.

Definition M (A : Type) : Type := World -> result A * World.

Definition ret {A} (a : A) : M A := fun w => (Ok a, w).

Definition raise {A} (e : exn) : M A := fun w => (Err e, w).

Definition bind {A B} (m : M A) (k : A -> M B) : M B :=
  fun w =>
    match m w with
    | (Ok a, w') => k a w'
    | (Err e, w') => (Err e, w')
    end.

(** [try: m except Exception as e: h e] *)
Definition try_except {A} (m : M A) (h : exn -> M A) : M A :=
  fun w =>
    match m w with
    | (Ok a, w') => (Ok a, w')
    | (Err e, w') => h e w'
    end.

Declare Scope py_scope.
Delimit Scope py_scope with py.
Notation "x <- m ;; k" := (bind m (fun x => k))
  (at level 100, m at next level, right associativity) : py_scope.
Notation "m ;;; k" := (bind m (fun _ => k))
  (at level 100, right associativity) : py_scope.
Open Scope py_scope.

Definition lift {A} (r : result A) : M A := fun w => (r, w).

(** Sending a request: the answer is computed from the history, and the
    request is appended to it. *)
Definition send {A} (rq : Request) (answer : list Request -> result A) : M A :=
  fun w =>
    (answer (requests w),
     {| requests := (requests w ++ [rq])%list; files := files w |}).

(** [x or y] on an optional string: [None] and the empty string are falsy. *)
Definition py_or (x : option string) (y : string) : string :=
  match x with
  | Some s => if String.eqb s EmptyString then y else s
  | None => y
  end.

(** ** utils/config.py *)

Record Settings : Type := {
  OPENAI_API_KEY : string;
  GEMINI_API_KEY : string;
  DEFAULT_LLM_PROVIDER : string;
  OPENAI_MODEL : string;
  GEMINI_MODEL : string;
  SUPPORTED_LANGUAGES : list string
}.

(** The values taken when the environment sets none of the variables. *)
Definition default_settings : Settings := {|
  OPENAI_API_KEY := EmptyString;
  GEMINI_API_KEY := EmptyString;
  DEFAULT_LLM_PROVIDER := "gemini";
  OPENAI_MODEL := "gpt-4o-audio-preview";
  GEMINI_MODEL := "gemini-2.0-flash-exp";
  SUPPORTED_LANGUAGES :=
    ["en"; "zh"; "hi"; "es"; "ar"; "fr"; "bn"; "pt"; "ru"; "ur";
     "id"; "de"; "ja"; "mr"; "te"; "tr"; "ta"; "vi"; "ko"; "sw"]
|}.

(** ** utils/file_handler.py *)

Module FileHandler.

(** [file_path.exists() and file_path.is_file()] *)
Definition file_exists (file_path : string) : M bool :=
  fun w => (Ok (match files w file_path with Some _ => true | None => false end), w).

End FileHandler.

(** ** utils/llm_client.py *)

Module LLMClient.
Section LLMClient.

Variable settings : Settings.
Variable sdk : ProviderSDK.

(** [json.loads], its value read as a list of segment dictionaries. *)
Variable json_loads : string -> result (list Segment).

(** [__init__]: a client exists when its API key is a non-empty string. *)
Definition openai_client : bool :=
  negb (String.eqb (OPENAI_API_KEY settings) EmptyString).

Definition gemini_client : bool :=
  negb (String.eqb (GEMINI_API_KEY settings) EmptyString).

(** [open(path, "rb")] followed by reading the file. *)
Definition open_rb (path : string) : M string :=
  fun w =>
    match files w path with
    | Some data => (Ok data, w)
    | None =>
        (Err (FileNotFoundError
                ("[Errno 2] No such file or directory: "
                 ++ PyStr.SQUOTE ++ path ++ PyStr.SQUOTE)), w)
    end.

Definition _transcribe_with_openai (audio_file_path language : string)
  : M (list Segment) :=
  if negb openai_client then
    raise (ValueError "OpenAI API key not configured")
  else
    try_except
      (audio_file <- open_rb audio_file_path ;;
       response <-
         send (AudioTranscriptionsCreate (OPENAI_MODEL settings) audio_file language)
              (fun h => audio_transcriptions_create sdk h
                          (OPENAI_MODEL settings) audio_file language) ;;
       ret (match resp_segments response with
            | Some (s :: l) =>
                map (fun segment =>
                       mkSegment (seg_start segment) (seg_end segment)
                                 (PyStr.strip (seg_text segment)) None)
                    (s :: l)
            | Some [] | None =>
                [mkSegment (S754_zero false) (S754_zero false)
                           (resp_text response) None]
            end))
      (fun e => raise (Exception ("OpenAI transcription failed: " ++ str_exn e))).

Definition transcription_prompt (language : string) : string :=
  "Transcribe this audio file in " ++ language ++ " language." ++ PyStr.NL
  ++ "            Provide the transcription with timestamps in this JSON format:"
  ++ PyStr.NL
  ++ "            [{" ++ PyStr.DQUOTE ++ "start" ++ PyStr.DQUOTE ++ ": 0.0, "
  ++ PyStr.DQUOTE ++ "end" ++ PyStr.DQUOTE ++ ": 2.5, "
  ++ PyStr.DQUOTE ++ "text" ++ PyStr.DQUOTE ++ ": "
  ++ PyStr.DQUOTE ++ "transcribed text" ++ PyStr.DQUOTE ++ "}, ...]"
  ++ PyStr.NL ++ PyStr.NL
  ++ "            Only return the JSON array, no additional text.".

Definition _transcribe_with_gemini (audio_file_path language : string)
  : M (list Segment) :=
  if negb gemini_client then
    raise (ValueError "Gemini API key not configured")
  else
    try_except
      (audio_data <- open_rb audio_file_path ;;
       let prompt := transcription_prompt language in
       response_text <-
         send (GenerateContentAudio (GEMINI_MODEL settings) prompt audio_data)
              (fun h => generate_content_audio sdk h
                          (GEMINI_MODEL settings) prompt audio_data) ;;
       segments <- lift (json_loads response_text) ;;
       ret segments)
      (fun e => raise (Exception ("Gemini transcription failed: " ++ str_exn e))).

Definition transcribe_audio (audio_file_path language : string)
           (provider : option string) : M (list Segment) :=
  let provider := py_or provider (DEFAULT_LLM_PROVIDER settings) in
  if String.eqb provider "openai" then
    _transcribe_with_openai audio_file_path language
  else if String.eqb provider "gemini" then
    _transcribe_with_gemini audio_file_path language
  else
    raise (ValueError ("Unknown provider: " ++ provider)).

Definition translation_prompt (text source_language target_language context : string)
  : string :=
  "You are a professional translator." ++ PyStr.NL ++ PyStr.NL
  ++ "Context about the full content: " ++ context ++ PyStr.NL ++ PyStr.NL
  ++ "Translate the following text from " ++ source_language
  ++ " to " ++ target_language ++ "." ++ PyStr.NL
  ++ "Maintain professional tone, cultural nuances, and technical accuracy."
  ++ PyStr.NL
  ++ "Only return the translated text, no explanations." ++ PyStr.NL ++ PyStr.NL
  ++ "Text to translate:" ++ PyStr.NL
  ++ PyStr.DQUOTE ++ text ++ PyStr.DQUOTE ++ PyStr.NL ++ PyStr.NL
  ++ "Translation:".

Definition _translate_with_openai
           (text source_language target_language context : string) : M string :=
  if negb openai_client then
    raise (ValueError "OpenAI API key not configured")
  else
    try_except
      (let prompt := translation_prompt text source_language target_language context in
       content <-
         send (ChatCompletionsCreate (OPENAI_MODEL settings)
                                     "You are a professional translator." prompt)
              (fun h => chat_completions_create sdk h (OPENAI_MODEL settings)
                          "You are a professional translator." prompt) ;;
       ret (PyStr.strip content))
      (fun e => raise (Exception ("OpenAI translation failed: " ++ str_exn e))).

Definition _translate_with_gemini
           (text source_language target_language context : string) : M string :=
  if negb gemini_client then
    raise (ValueError "Gemini API key not configured")
  else
    try_except
      (let prompt := translation_prompt text source_language target_language context in
       response_text <-
         send (GenerateContent (GEMINI_MODEL settings) prompt)
              (fun h => generate_content sdk h (GEMINI_MODEL settings) prompt) ;;
       ret (PyStr.strip response_text))
      (fun e => raise (Exception ("Gemini translation failed: " ++ str_exn e))).

Definition translate_with_context
           (text source_language target_language context : string)
           (provider : option string) : M string :=
  let provider := py_or provider (DEFAULT_LLM_PROVIDER settings) in
  if String.eqb provider "openai" then
    _translate_with_openai text source_language target_language context
  else if String.eqb provider "gemini" then
    _translate_with_gemini text source_language target_language context
  else
    raise (ValueError ("Unknown provider: " ++ provider)).

End LLMClient.
End LLMClient.

(** The error message shared by the language checks:
    [f"{side} '{code}' is not supported. Supported languages: {', '.join(...)}"]. *)
Definition unsupported_language_message (side code : string) (allowed : list string)
  : string :=
  side ++ " " ++ PyStr.SQUOTE ++ code ++ PyStr.SQUOTE ++ " is not supported. "
  ++ "Supported languages: " ++ PyStr.join ", " allowed.

(** ** services/translator.py

    The module reaches the gateway through the global [llm_client]; here the
    operation it calls is a variable of the section, so that every statement
    holds for the real client and for any substitute. *)

Module Translator.
Section Translator.

Variable settings : Settings.
Variable llm_client_translate_with_context :
  string -> string -> string -> string -> option string -> M string.

Definition translate_segment
           (text source_language target_language context : string)
           (provider : option string) : M string :=
  if negb (PyStr.mem source_language (SUPPORTED_LANGUAGES settings)) then
    raise (ValueError (unsupported_language_message
                         "Source language" source_language
                         (SUPPORTED_LANGUAGES settings)))
  else if negb (PyStr.mem target_language (SUPPORTED_LANGUAGES settings)) then
    raise (ValueError (unsupported_language_message
                         "Target language" target_language
                         (SUPPORTED_LANGUAGES settings)))
  else
    translated_text <-
      llm_client_translate_with_context
        text source_language target_language context provider ;;
    ret translated_text.

(** The body of [for segment in segments]: [translated_segments] is the list
    built so far. *)
Fixpoint translate_loop (segments translated_segments : list Segment)
         (source_language target_language context : string)
         (provider : option string) : M (list Segment) :=
  match segments with
  | [] => ret translated_segments
  | segment :: rest =>
      translated_text <-
        translate_segment (text segment) source_language target_language
                          context provider ;;
      let translated_segment :=
        {| start := start segment;
           end_ := end_ segment;
           text := text segment;
           translated_text := Some translated_text |} in
      translate_loop rest (translated_segments ++ [translated_segment])%list
                     source_language target_language context provider
  end.

Definition translate_segments (segments : list Segment)
           (source_language target_language context : string)
           (provider : option string) : M (list Segment) :=
  match segments with
  | [] => raise (ValueError "Cannot translate empty segments")
  | _ :: _ =>
      translate_loop segments [] source_language target_language context provider
  end.

(** [batch_size] is accepted and ignored. *)
Definition translate_segments_batch (segments : list Segment)
           (source_language target_language context : string)
           (batch_size : nat) (provider : option string) : M (list Segment) :=
  translate_segments segments source_language target_language context provider.

End Translator.
End Translator.

(** ** services/context_builder.py *)

Module ContextBuilder.
Section ContextBuilder.

Variable settings : Settings.
Variable llm_client__translate_with_openai :
  string -> string -> string -> string -> M string.
Variable llm_client__translate_with_gemini :
  string -> string -> string -> string -> M string.

Definition context_prompt (full_text source_language : string) : string :=
  "Analyze the following transcript in " ++ source_language
  ++ " language and provide a brief context summary (2-3 sentences maximum)."
  ++ PyStr.NL ++ PyStr.NL
  ++ "Include:" ++ PyStr.NL
  ++ "1. The main topic or theme" ++ PyStr.NL
  ++ "2. The tone (e.g., formal, casual, technical, educational)" ++ PyStr.NL
  ++ "3. Any key technical terms, proper nouns, or domain-specific vocabulary"
  ++ PyStr.NL ++ PyStr.NL
  ++ "Keep it concise and focused on information that would help a translator maintain accuracy and consistency."
  ++ PyStr.NL ++ PyStr.NL
  ++ "Transcript:" ++ PyStr.NL
  ++ PyStr.DQUOTE ++ PyStr.prefix 2000 full_text ++ PyStr.DQUOTE
  ++ PyStr.NL ++ PyStr.NL
  ++ "Context Summary:".

(** The string returned when the attempt to summarise fails. *)
Definition fallback_context (full_text source_language : string) : string :=
  "Content in " ++ source_language ++ " language. Length: approximately "
  ++ PyStr.of_nat (List.length (PyStr.split full_text)) ++ " words.".

Definition _generate_context_with_llm (full_text source_language : string)
           (provider : option string) : M string :=
  let provider := py_or provider (DEFAULT_LLM_PROVIDER settings) in
  let prompt := context_prompt full_text source_language in
  try_except
    (context <-
       (if String.eqb provider "openai" then
          llm_client__translate_with_openai prompt source_language "en" EmptyString
        else if String.eqb provider "gemini" then
          llm_client__translate_with_gemini prompt source_language "en" EmptyString
        else
          raise (ValueError ("Unknown provider: " ++ provider))) ;;
     ret (PyStr.strip context))
    (fun e => ret (fallback_context full_text source_language)).

Definition short_context : string :=
  "Short video content without specific context.".

Definition build_context (segments : list Segment) (source_language : string)
           (provider : option string) : M string :=
  match segments with
  | [] => raise (ValueError "Cannot build context from empty segments")
  | _ :: _ =>
      let full_text := PyStr.join " " (map text segments) in
      if (String.length (PyStr.strip full_text) <? 10)%nat then
        ret short_context
      else
        context <- _generate_context_with_llm full_text source_language provider ;;
        ret context
  end.

End ContextBuilder.
End ContextBuilder.

(** ** Text files and the [csv] module of the standard library *)

Module TextIO.

Definition CR : ascii := ascii_of_nat 13.
Definition LF : ascii := ascii_of_nat 10.

(** What [open(path, 'r')] does to the content while reading, its [newline]
    argument left at [None]: each of "\r\n" and "\r" becomes "\n". *)
Fixpoint universal_newlines (s : string) : string :=
  match s with
  | EmptyString => EmptyString
  | String c s' =>
      if Ascii.eqb c CR then
        String LF
               (match s' with
                | String d s'' =>
                    if Ascii.eqb d LF then universal_newlines s''
                    else universal_newlines s'
                | EmptyString => EmptyString
                end)
      else String c (universal_newlines s')
  end.

(** Iterating over a text file: the lines, each with its "\n", and a last
    line without one when the content does not end with "\n".  [cur] is the
    line being read. *)
Fixpoint readlines_aux (s : string) (cur : string) : list string :=
  match s with
  | EmptyString =>
      match cur with
      | EmptyString => []
      | _ => [cur]
      end
  | String c s' =>
      if Ascii.eqb c LF then (cur ++ String c EmptyString) :: readlines_aux s' EmptyString
      else readlines_aux s' (cur ++ String c EmptyString)
  end.

Definition readlines (s : string) : list string := readlines_aux s EmptyString.

(** [open(path, 'w', newline='')] followed by the writes: the file holds
    exactly what was written. *)
Definition write_file (path content : string) : M unit :=
  fun w =>
    (Ok tt,
     {| requests := requests w;
        files := fun p => if String.eqb p path then Some content else files w p |}).

(** [open(path, 'r')] followed by reading everything. *)
Definition read_text (path : string) : M string :=
  fun w =>
    match files w path with
    | Some data => (Ok (universal_newlines data), w)
    | None =>
        (Err (FileNotFoundError
                ("[Errno 2] No such file or directory: "
                 ++ PyStr.SQUOTE ++ path ++ PyStr.SQUOTE)), w)
    end.

End TextIO.

(** The [excel] dialect, which is the default: the comma as delimiter, the
    double quote as quote character, written twice inside a field, the line
    terminator "\r\n", minimal quoting, no escape character, not strict. *)
Module Csv.

Definition delimiter : ascii := ","%char.
Definition quotechar : ascii := ascii_of_nat 34.
Definition lineterminator : string := PyStr.CR ++ PyStr.NL.
Definition field_limit : Z := 131072.

(** *** The writer *)

(** The characters that make the writer quote a field. *)
Definition special (c : ascii) : bool :=
  Ascii.eqb c delimiter || Ascii.eqb c quotechar
  || Ascii.eqb c TextIO.CR || Ascii.eqb c TextIO.LF.

Fixpoint needs_quoting (field : string) : bool :=
  match field with
  | EmptyString => false
  | String c rest => special c || needs_quoting rest
  end.

(** A quote character inside a field is written twice. *)
Fixpoint double_quotes (field : string) : string :=
  match field with
  | EmptyString => EmptyString
  | String c rest =>
      if Ascii.eqb c quotechar then String c (String c (double_quotes rest))
      else String c (double_quotes rest)
  end.

Definition write_field (field : string) : string :=
  if needs_quoting field then
    String quotechar (double_quotes field ++ String quotechar EmptyString)
  else field.

(** [writer.writerow(fields)]: a row made of one empty field is written as
    a pair of quotes. *)
Definition writerow (fields : list string) : string :=
  match fields with
  | [EmptyString] => String quotechar (String quotechar lineterminator)
  | _ => PyStr.join (String delimiter EmptyString) (map write_field fields)
         ++ lineterminator
  end.

(** *** The reader *)

Inductive ParserState : Type :=
| START_RECORD
| START_FIELD
| IN_FIELD
| IN_QUOTED_FIELD
| QUOTE_IN_QUOTED_FIELD
| EAT_CRNL.

Record Reader : Type := {
  state : ParserState;
  field : string;          (* the field being read *)
  fields : list string     (* the fields of the record read so far *)
}.

Definition parse_reset : Reader :=
  {| state := START_RECORD; field := EmptyString; fields := [] |}.

Definition parse_add_char (r : Reader) (c : ascii) : result Reader :=
  if (field_limit <=? Z.of_nat (String.length (field r)))%Z then
    Err (OtherError "Error" "field larger than field limit (131072)")
  else
    Ok {| state := state r; field := field r ++ String c EmptyString;
          fields := fields r |}.

Definition parse_save_field (r : Reader) : Reader :=
  {| state := state r; field := EmptyString;
     fields := (fields r ++ [field r])%list |}.

Definition set_state (s : ParserState) (r : Reader) : Reader :=
  {| state := s; field := field r; fields := fields r |}.

Definition is_newline (c : ascii) : bool :=
  Ascii.eqb c TextIO.LF || Ascii.eqb c TextIO.CR.

(** [parse_process_char]: [None] is the end-of-line mark sent after the
    last character of every line. *)
Definition parse_process_char (r : Reader) (c : option ascii) : result Reader :=
  let start_field (r : Reader) :=
    match c with
    | None => Ok (set_state START_RECORD (parse_save_field r))
    | Some ch =>
        if is_newline ch then Ok (set_state EAT_CRNL (parse_save_field r))
        else if Ascii.eqb ch quotechar then Ok (set_state IN_QUOTED_FIELD r)
        else if Ascii.eqb ch delimiter then Ok (parse_save_field r)
        else
          match parse_add_char r ch with
          | Ok r' => Ok (set_state IN_FIELD r')
          | Err e => Err e
          end
    end in
  match state r with
  | START_RECORD =>
      match c with
      | None => Ok r
      | Some ch =>
          if is_newline ch then Ok (set_state EAT_CRNL r)
          else start_field (set_state START_FIELD r)
      end
  | START_FIELD => start_field r
  | IN_FIELD =>
      match c with
      | None => Ok (set_state START_RECORD (parse_save_field r))
      | Some ch =>
          if is_newline ch then Ok (set_state EAT_CRNL (parse_save_field r))
          else if Ascii.eqb ch delimiter then
            Ok (set_state START_FIELD (parse_save_field r))
          else parse_add_char r ch
      end
  | IN_QUOTED_FIELD =>
      match c with
      | None => Ok r
      | Some ch =>
          if Ascii.eqb ch quotechar then Ok (set_state QUOTE_IN_QUOTED_FIELD r)
          else parse_add_char r ch
      end
  | QUOTE_IN_QUOTED_FIELD =>
      match c with
      | None => Ok (set_state START_RECORD (parse_save_field r))
      | Some ch =>
          if Ascii.eqb ch quotechar then
            match parse_add_char r ch with
            | Ok r' => Ok (set_state IN_QUOTED_FIELD r')
            | Err e => Err e
            end
          else if Ascii.eqb ch delimiter then
            Ok (set_state START_FIELD (parse_save_field r))
          else if is_newline ch then
            Ok (set_state EAT_CRNL (parse_save_field r))
          else
            match parse_add_char r ch with
            | Ok r' => Ok (set_state IN_FIELD r')
            | Err e => Err e
            end
      end
  | EAT_CRNL =>
      match c with
      | None => Ok (set_state START_RECORD r)
      | Some ch =>
          if is_newline ch then Ok r
          else Err (OtherError "Error"
                 "new-line character seen in unquoted field - do you need to open the file with newline=''?")
      end
  end.

(** The characters of a line, then the end-of-line mark. *)
Fixpoint feed (r : Reader) (line : string) : result Reader :=
  match line with
  | EmptyString => parse_process_char r None
  | String c rest =>
      match parse_process_char r (Some c) with
      | Ok r' => feed r' rest
      | Err e => Err e
      end
  end.

Definition at_start_record (r : Reader) : bool :=
  match state r with
  | START_RECORD => true
  | _ => false
  end.

Definition in_quoted_field (r : Reader) : bool :=
  match state r with
  | IN_QUOTED_FIELD => true
  | _ => false
  end.

(** [list(csv.reader(lines))]: a record ends with the first line that
    leaves the parser at [START_RECORD]; when the lines run out inside a field,
    what was read makes the last record. *)
Fixpoint reader_from (lines : list string) (r : Reader) (rows : list (list string))
  : result (list (list string)) :=
  match lines with
  | [] =>
      if negb (String.eqb (field r) EmptyString) || in_quoted_field r then
        Ok (rows ++ [fields (parse_save_field r)])%list
      else Ok rows
  | line :: rest =>
      match feed r line with
      | Err e => Err e
      | Ok r' =>
          if at_start_record r' then
            reader_from rest parse_reset (rows ++ [fields r'])%list
          else reader_from rest r' rows
      end
  end.

Definition reader (lines : list string) : result (list (list string)) :=
  reader_from lines parse_reset [].

(** *** DictReader *)

(** A row as a dictionary: each key with its value, [None] for a column the
    row does not reach; when a key occurs twice, the later entry counts. *)
Definition Row : Type := list (string * option string).

Fixpoint zip_row (fieldnames : list string) (row : list string) : Row :=
  match fieldnames, row with
  | key :: keys, value :: values => (key, Some value) :: zip_row keys values
  | keys, [] => map (fun key => (key, None)) keys
  | [], _ :: _ => []
  end.

Fixpoint get_from (entries : Row) (key : string) (found : option (option string))
  : option (option string) :=
  match entries with
  | [] => found
  | (k, v) :: rest =>
      get_from rest key (if String.eqb k key then Some v else found)
  end.

(** [row[key]]: [None] when the key is absent. *)
Definition get (row : Row) (key : string) : option (option string) :=
  get_from row key None.

(** [list(csv.DictReader(lines))]: the first record gives the field names,
    the empty records after it are skipped. *)
Definition DictReader (lines : list string) : result (list Row) :=
  match reader lines with
  | Err e => Err e
  | Ok [] => Ok []
  | Ok (fieldnames :: rows) =>
      Ok (map (zip_row fieldnames)
              (filter (fun row => match row with [] => false | _ => true end) rows))
  end.

(** *** Iteration

    A reader is an iterator: [for row in reader] gets the records one at a
    time, and a record that cannot be read raises when the loop comes to
    it, after the records before it went through the body of the loop.
    [records_from] gives the records that are read, and the error that ends
    the iteration if there is one. *)
Fixpoint records_from (lines : list string) (r : Reader)
  : list (list string) * option exn :=
  match lines with
  | [] =>
      if negb (String.eqb (field r) EmptyString) || in_quoted_field r then
        ([fields (parse_save_field r)], None)
      else ([], None)
  | line :: rest =>
      match feed r line with
      | Err e => ([], Some e)
      | Ok r' =>
          if at_start_record r' then
            let (rows, failure) := records_from rest parse_reset in
            (fields r' :: rows, failure)
          else records_from rest r'
      end
  end.

Definition records (lines : list string) : list (list string) * option exn :=
  records_from lines parse_reset.

(** The rows that the iteration over a [DictReader] makes of the records:
    the first record gives the field names, the empty records after it are
    skipped. *)
Definition dict_rows (records : list (list string)) : list Row :=
  match records with
  | [] => []
  | fieldnames :: rows =>
      map (zip_row fieldnames)
          (filter (fun row => match row with [] => false | _ => true end) rows)
  end.

End Csv.

(** ** services/transcriber.py *)

Module Transcriber.
Section Transcriber.

Variable settings : Settings.
Variable llm_client_transcribe_audio :
  string -> string -> option string -> M (list Segment).

Definition transcribe_audio (audio_path language : string)
           (provider : option string) : M (list Segment) :=
  found <- FileHandler.file_exists audio_path ;;
  if negb found then
    raise (FileNotFoundError ("Audio file not found: " ++ audio_path))
  else if negb (PyStr.mem language (SUPPORTED_LANGUAGES settings)) then
    raise (ValueError (unsupported_language_message
                         "Language" language (SUPPORTED_LANGUAGES settings)))
  else
    segments <- llm_client_transcribe_audio audio_path language provider ;;
    ret segments.

(** [" ".join(segment['text'] for segment in segments)] *)
Definition get_full_transcript_text (segments : list Segment) : string :=
  PyStr.join " " (map text segments).

End Transcriber.

Section TranscriptCsv.

(** [str(x)] and [float(s)] for a float, as the interpreter provides them. *)
Variable py_str : spec_float -> string.
Variable py_float : string -> option spec_float.

Definition fieldnames : list string := ["start_time"; "end_time"; "text"].

(** What [writeheader] and the [writerow] of each segment put in the file. *)
Definition written (segments : list Segment) : string :=
  Csv.writerow fieldnames
  ++ String.concat EmptyString
       (map (fun segment =>
               Csv.writerow [py_str (start segment); py_str (end_ segment);
                             text segment])
            segments).

Definition save_transcript_to_csv (segments : list Segment) (output_path : string)
  : M string :=
  match segments with
  | [] => raise (ValueError "Cannot save empty transcript")
  | _ :: _ =>
      try_except
        (TextIO.write_file output_path (written segments) ;;;
         ret output_path)
        (fun e => raise (Exception ("Failed to save transcript to CSV: " ++ str_exn e)))
  end.

(** [float(row[key])] *)
Definition float_of (row : Csv.Row) (key : string) : result spec_float :=
  match Csv.get row key with
  | None => Err (OtherError "KeyError" (PyStr.SQUOTE ++ key ++ PyStr.SQUOTE))
  | Some None =>
      Err (OtherError "TypeError"
             "float() argument must be a string or a real number, not 'NoneType'")
  | Some (Some s) =>
      match py_float s with
      | Some x => Ok x
      | None =>
          Err (ValueError ("could not convert string to float: "
                           ++ PyStr.SQUOTE ++ s ++ PyStr.SQUOTE))
      end
  end.

(** [row['text']].  A row that stops before the text column has [None]
    there, which the code stores as the text of the segment before it goes
    on.  The text of a [Segment] is a string: such a row is outside the
    model, which stops at it with an error of its own. *)
Definition text_of (row : Csv.Row) : result string :=
  match Csv.get row "text" with
  | None => Err (OtherError "KeyError" (PyStr.SQUOTE ++ "text" ++ PyStr.SQUOTE))
  | Some None => Err (OtherError "TypeError" "the text column is missing from the row")
  | Some (Some s) => Ok s
  end.

(** The body of [for row in reader]. *)
Fixpoint load_rows (rows : list Csv.Row) (segments : list Segment)
  : result (list Segment) :=
  match rows with
  | [] => Ok segments
  | row :: rest =>
      match float_of row "start_time" with
      | Err e => Err e
      | Ok s =>
          match float_of row "end_time" with
          | Err e => Err e
          | Ok e =>
              match text_of row with
              | Err x => Err x
              | Ok t =>
                  load_rows rest
                    (segments ++ [ {| start := s; end_ := e; text := t;
                                      translated_text := None |} ])%list
              end
          end
      end
  end.

Definition load_transcript_from_csv (csv_path : string) : M (list Segment) :=
  found <- FileHandler.file_exists csv_path ;;
  if negb found then
    raise (FileNotFoundError ("CSV file not found: " ++ csv_path))
  else
    try_except
      (content <- TextIO.read_text csv_path ;;
       let (records, failure) := Csv.records (TextIO.readlines content) in
       segments <- lift (load_rows (Csv.dict_rows records) []) ;;
       match failure with
       | None => ret segments
       | Some e => raise e
       end)
      (fun e => raise (Exception ("Failed to load transcript from CSV: " ++ str_exn e))).

End TranscriptCsv.
End Transcriber.


(** ** Python floats

    Binary64 data, with the operations of the interpreter that
    [format_timestamp] uses: [%], [//], [*] and [int].  Every finite binary64
    number is a whole number of ticks of 2^-1074, which makes the exact
    operations ([fmod], [floor], truncation) integer arithmetic; the rounded
    ones ([-], [/], [*], [+]) are those of the Standard Library's
    specification of IEEE 754. *)

Module PyFloat.

Definition prec : Z := 53.
Definition emax : Z := 1024.

Definition tick : Z := 2 ^ 1074.

(** The value of a finite float, in ticks. *)
Definition ticks (x : spec_float) : Z :=
  match x with
  | S754_finite s m e => cond_Zopp s (Zpos m * 2 ^ (e + 1074))
  | _ => 0
  end.

(** The float nearest to [n] ticks: it is [n] ticks when that is a float. *)
Definition of_ticks (n : Z) : spec_float := binary_normalize prec emax n (-1074) false.

Definition zero : spec_float := S754_zero false.
Definition one : spec_float := Eval vm_compute in Prim2SF 1.
Definition half : spec_float := Eval vm_compute in Prim2SF 0.5.

Definition sub : spec_float -> spec_float -> spec_float := SFsub prec emax.
Definition add : spec_float -> spec_float -> spec_float := SFadd prec emax.
Definition div : spec_float -> spec_float -> spec_float := SFdiv prec emax.
Definition mul : spec_float -> spec_float -> spec_float := SFmul prec emax.

(** [x != 0.0], the truth value of a float in C. *)
Definition nonzero (x : spec_float) : bool :=
  match x with
  | S754_zero _ => false
  | _ => true
  end.

(** [x < 0] *)
Definition negative (x : spec_float) : bool := SFltb x zero.

Definition sign_bit (x : spec_float) : bool :=
  match x with
  | S754_zero s | S754_infinity s | S754_finite s _ _ => s
  | S754_nan => false
  end.

(** C's [fmod]: exact, with the sign of [x]. *)
Definition fmod (x y : spec_float) : spec_float :=
  match x, y with
  | S754_nan, _ | _, S754_nan => S754_nan
  | S754_infinity _, _ | _, S754_zero _ => S754_nan
  | S754_zero _, _ => x
  | S754_finite _ _ _, S754_infinity _ => x
  | S754_finite s _ _, S754_finite _ _ _ =>
      let r := Z.rem (ticks x) (ticks y) in
      if Z.eqb r 0 then S754_zero s else of_ticks r
  end.

(** C's [floor]. *)
Definition floor (x : spec_float) : spec_float :=
  match x with
  | S754_finite s m e =>
      if (0 <=? e)%Z then x
      else
        let n := (ticks x / tick)%Z in
        if Z.eqb n 0 then S754_zero s else of_ticks (n * tick)
  | _ => x
  end.

(** [v % w] *)
Definition rem (v w : spec_float) : result spec_float :=
  if negb (nonzero w) then Err (OtherError "ZeroDivisionError" "float modulo")
  else
    let mod_ := fmod v w in
    Ok (if nonzero mod_ then
          if xorb (negative w) (negative mod_) then add mod_ w else mod_
        else S754_zero (sign_bit w)).

(** [v // w] *)
Definition floor_div (v w : spec_float) : result spec_float :=
  if negb (nonzero w) then Err (OtherError "ZeroDivisionError" "float divmod()")
  else
    let mod_ := fmod v w in
    let q := div (sub v mod_) w in
    let q :=
      if nonzero mod_ && xorb (negative w) (negative mod_) then sub q one else q in
    Ok (if nonzero q then
          let floordiv := floor q in
          if SFltb half (sub q floordiv) then add floordiv one else floordiv
        else S754_zero (sign_bit (div v w))).

(** [int(x)]: towards zero. *)
Definition int (x : spec_float) : result Z :=
  match x with
  | S754_nan => Err (ValueError "cannot convert float NaN to integer")
  | S754_infinity _ =>
      Err (OtherError "OverflowError" "cannot convert float infinity to integer")
  | _ => Ok (Z.quot (ticks x) tick)
  end.

End PyFloat.

(** [format(n, "0<width>d")]: the decimal digits of [n], filled with zeros on
    the left up to [width] characters, the sign counting for one. *)
Definition decimal (n : Z) : string := NilEmpty.string_of_uint (N.to_uint (Z.to_N n)).

Fixpoint zeros (k : nat) : string :=
  match k with
  | O => EmptyString
  | S k' => String "0"%char (zeros k')
  end.

Definition zero_fill (width : nat) (digits : string) : string :=
  zeros (width - String.length digits) ++ digits.

Definition format_d (width : nat) (n : Z) : string :=
  if (n <? 0)%Z then "-" ++ zero_fill (width - 1) (decimal (- n))
  else zero_fill width (decimal n).

(** ** services/srt_generator.py *)

Module SRTGenerator.

Definition float_3600 : spec_float := Eval vm_compute in Prim2SF 3600.
Definition float_60 : spec_float := Eval vm_compute in Prim2SF 60.
Definition float_1000 : spec_float := Eval vm_compute in Prim2SF 1000.

Definition bind_r {A B} (r : result A) (k : A -> result B) : result B :=
  match r with
  | Ok a => k a
  | Err e => Err e
  end.

Definition format_timestamp (seconds : spec_float) : result string :=
  bind_r (PyFloat.floor_div seconds float_3600) (fun q =>
  bind_r (PyFloat.int q) (fun hours =>
  bind_r (PyFloat.rem seconds float_3600) (fun r =>
  bind_r (PyFloat.floor_div r float_60) (fun q' =>
  bind_r (PyFloat.int q') (fun minutes =>
  bind_r (PyFloat.rem seconds float_60) (fun r' =>
  bind_r (PyFloat.int r') (fun secs =>
  bind_r (PyFloat.rem seconds PyFloat.one) (fun frac =>
  bind_r (PyFloat.int (PyFloat.mul frac float_1000)) (fun milliseconds =>
  Ok (format_d 2 hours ++ ":" ++ format_d 2 minutes ++ ":" ++ format_d 2 secs
      ++ "," ++ format_d 3 milliseconds)))))))))).

End SRTGenerator.

(** ** Fixtures

    Concrete settings, providers and worlds, for the statements that are
    checked on an example. *)

Module Fixtures.

(** Both keys configured, everything else as in [config.py]. *)
Definition settings : Settings := {|
  OPENAI_API_KEY := "sk-test";
  GEMINI_API_KEY := "g-test";
  DEFAULT_LLM_PROVIDER := "gemini";
  OPENAI_MODEL := "gpt-4o-audio-preview";
  GEMINI_MODEL := "gemini-2.0-flash-exp";
  SUPPORTED_LANGUAGES :=
    ["en"; "zh"; "hi"; "es"; "ar"; "fr"; "bn"; "pt"; "ru"; "ur";
     "id"; "de"; "ja"; "mr"; "te"; "tr"; "ta"; "vi"; "ko"; "sw"]
|}.

(** Providers that always answer: a transcription without segments, and
    the text [" Hola "] to every prompt. *)
Definition answering_sdk : ProviderSDK := {|
  audio_transcriptions_create := fun _ _ _ _ =>
    Ok {| resp_segments := None; resp_text := " hello there " |};
  chat_completions_create := fun _ _ _ _ => Ok " Hola ";
  generate_content_audio := fun _ _ _ _ => Ok "hello there";
  generate_content := fun _ _ _ => Ok " Hola "
|}.

(** A Gemini that answers the transcription prompt with an empty JSON array. *)
Definition empty_array_sdk : ProviderSDK := {|
  audio_transcriptions_create := fun _ _ _ _ =>
    Ok {| resp_segments := Some []; resp_text := "hello there" |};
  chat_completions_create := fun _ _ _ _ => Ok "Hola";
  generate_content_audio := fun _ _ _ _ => Ok "[]";
  generate_content := fun _ _ _ => Ok "Hola"
|}.

(** Providers that are down. *)
Definition failing_sdk : ProviderSDK := {|
  audio_transcriptions_create := fun _ _ _ _ =>
    Err (OtherError "APIConnectionError" "Connection error.");
  chat_completions_create := fun _ _ _ _ =>
    Err (OtherError "APIConnectionError" "Connection error.");
  generate_content_audio := fun _ _ _ _ =>
    Err (OtherError "ServerError" "503 UNAVAILABLE");
  generate_content := fun _ _ _ =>
    Err (OtherError "ServerError" "503 UNAVAILABLE")
|}.

(** A JSON reader that knows two inputs: the empty array, and anything
    else, which it rejects the way [json.loads] rejects plain prose. *)
Definition json_loads (s : string) : result (list Segment) :=
  if String.eqb s "[]" then Ok []
  else Err (OtherError "JSONDecodeError"
                       "Expecting value: line 1 column 1 (char 0)").

(** No request sent yet; one audio file on disk. *)
Definition world : World := {|
  requests := [];
  files := fun path => if String.eqb path "audio.wav" then Some "RIFF" else None
|}.

Definition hello : Segment :=
  {| start := Prim2SF 0.0; end_ := Prim2SF 3.0; text := "Hello";
     translated_text := None |}.

Definition world_ : Segment :=
  {| start := Prim2SF 3.0; end_ := Prim2SF 6.0; text := "World";
     translated_text := None |}.

Definition hello_world : list Segment := [hello; world_].

(** [str] and [float] on the floats of the samples, with the texts the
    interpreter gives them. *)
Definition float_table : list (spec_float * string) :=
  [ (Prim2SF 0.0, "0.0"); (Prim2SF 1.0, "1.0"); (Prim2SF 2.5, "2.5");
    (Prim2SF 3.0, "3.0"); (Prim2SF 5.0, "5.0"); (Prim2SF 6.0, "6.0") ].

Definition sf_eqb (x y : spec_float) : bool :=
  match x, y with
  | S754_zero a, S754_zero b => Bool.eqb a b
  | S754_infinity a, S754_infinity b => Bool.eqb a b
  | S754_nan, S754_nan => true
  | S754_finite s m e, S754_finite s' m' e' =>
      Bool.eqb s s' && Pos.eqb m m' && Z.eqb e e'
  | _, _ => false
  end.

Definition py_str (x : spec_float) : string :=
  match find (fun entry => sf_eqb (fst entry) x) float_table with
  | Some (_, s) => s
  | None => "nan"
  end.

Definition py_float (s : string) : option spec_float :=
  match find (fun entry => String.eqb (snd entry) s) float_table with
  | Some (x, _) => Some x
  | None => None
  end.

(** The stub translator of the end-to-end scenario: it appends ["-ES"]. *)
Definition stub_translate (text _ _ _ : string) (_ : option string) : M string :=
  ret (text ++ "-ES").

End Fixtures.

(** ** Vocabulary of the statements *)

(** A string without carriage return. *)
Fixpoint no_cr (s : string) : bool :=
  match s with
  | EmptyString => true
  | String c rest => negb (Ascii.eqb c TextIO.CR) && no_cr rest
  end.

(** A float that survives the CSV file: its [str] is written without quotes,
    fits in a field, and [float] reads it back. *)
Definition prints_back (py_str : spec_float -> string)
           (py_float : string -> option spec_float) (x : spec_float) : Prop :=
  Csv.needs_quoting (py_str x) = false
  /\ (Z.of_nat (String.length (py_str x)) <= Csv.field_limit)%Z
  /\ py_float (py_str x) = Some x.

(** A text that survives the CSV file as far as the model goes: it fits in a
    field and has no carriage return. *)
Definition storable (t : string) : Prop :=
  no_cr t = true /\ (Z.of_nat (String.length t) <= Csv.field_limit)%Z.

(** A finite binary64 number that is zero or positive. *)
Definition nonneg_finite (x : spec_float) : bool :=
  match x with
  | S754_zero _ => true
  | S754_finite false m e => bounded 53 1024 m e
  | _ => false
  end.

(** The segment as [load_transcript_from_csv] rebuilds it. *)
Definition as_loaded (segment : Segment) : Segment :=
  {| start := start segment; end_ := end_ segment; text := text segment;
     translated_text := None |}.

(** The reader seen as one pass over the characters of the file, the
    end-of-line mark following each line feed. *)
Fixpoint stream (s : string) (r : Csv.Reader) (rows : list (list string))
  : result (Csv.Reader * list (list string)) :=
  match s with
  | EmptyString => Ok (r, rows)
  | String c s' =>
      match Csv.parse_process_char r (Some c) with
      | Err e => Err e
      | Ok r1 =>
          if Ascii.eqb c TextIO.LF then
            match Csv.parse_process_char r1 None with
            | Err e => Err e
            | Ok r2 =>
                if Csv.at_start_record r2 then
                  stream s' Csv.parse_reset (rows ++ [Csv.fields r2])%list
                else stream s' r2 rows
            end
          else stream s' r1 rows
      end
  end.

(** A string without line feed. *)
Fixpoint no_lf (s : string) : bool :=
  match s with
  | EmptyString => true
  | String c rest => negb (Ascii.eqb c TextIO.LF) && no_lf rest
  end.

(** A content that is empty or ends with a line feed. *)
Fixpoint lf_terminated (s : string) : bool :=
  match s with
  | EmptyString => true
  | String c EmptyString => Ascii.eqb c TextIO.LF
  | String _ s' => lf_terminated s'
  end.

(** The segment [translate_segments] builds from [segment] when the backend
    answers [tr (text segment)]. *)
Definition with_translation (tr : string -> string) (segment : Segment) : Segment :=
  {| start := start segment;
     end_ := end_ segment;
     text := text segment;
     translated_text := Some (tr (text segment)) |}.

(** A positive float worth [W] seconds exactly, [W] a whole number, with
    no exponent above zero. *)
Definition whole_seconds (w : spec_float) (W : positive) : bool :=
  match w with
  | S754_finite false mw ew =>
      bounded 53 1024 mw ew && (ew <=? 0)%Z
      && (PyFloat.ticks w =? Zpos W * PyFloat.tick)%Z
  | _ => false
  end.

(** The timestamp as the specification words it, on the exact value of
    [seconds]: whole hours, minutes and seconds by [floor], milliseconds by
    [round].  To be compared with [SRTGenerator.format_timestamp]. *)
Module Claimed.

(** Python's [round] of the ratio [n / d]: to the nearest whole number,
    halves to the even one. *)
Definition round_ratio (n d : Z) : Z :=
  let q := (n / d)%Z in
  let r := (n mod d)%Z in
  if (2 * r <? d)%Z then q
  else if (d <? 2 * r)%Z then (q + 1)%Z
  else if Z.even q then q else (q + 1)%Z.

Definition format_timestamp (seconds : spec_float) : string :=
  let n := PyFloat.ticks seconds in
  let tick := PyFloat.tick in
  let hours := (n / (3600 * tick))%Z in
  let minutes := (n mod (3600 * tick) / (60 * tick))%Z in
  let secs := (n mod (60 * tick) / tick)%Z in
  let millis := round_ratio (1000 * (n mod tick)) tick in
  format_d 2 hours ++ ":" ++ format_d 2 minutes ++ ":" ++ format_d 2 secs
  ++ "," ++ format_d 3 millis.

End Claimed.

Module Samples.

(** Two segments of a tutorial transcript. *)
Definition welcome : Segment :=
  {| start := Prim2SF 0.0; end_ := Prim2SF 3.0;
     text := "Welcome to this Python programming tutorial";
     translated_text := None |}.

Definition today : Segment :=
  {| start := Prim2SF 3.0; end_ := Prim2SF 6.0;
     text := "Today we will learn about machine learning";
     translated_text := None |}.

Definition tutorial : list Segment := [welcome; today].

(** One segment of two characters. *)
Definition hi : list Segment :=
  [ {| start := Prim2SF 0.0; end_ := Prim2SF 1.0; text := "Hi";
       translated_text := None |} ].


(** A text with a carriage return in it. *)
Definition with_carriage_return : Segment :=
  {| start := Prim2SF 0.0; end_ := Prim2SF 1.0;
     text := "a" ++ PyStr.CR ++ "b";
     translated_text := None |}.

(** One segment of ten spaces: a stretch of silence. *)
Definition blank : list Segment :=
  [ {| start := Prim2SF 0.0; end_ := Prim2SF 1.0; text := "          ";
       translated_text := None |} ].

(** Instants of a video, in seconds; a decimal literal stands for the
    nearest binary64 number, as in Python. *)
#[local] Set Warnings "-inexact-float".
Definition at_0 : spec_float := Eval vm_compute in Prim2SF 0.0.
Definition at_65_123 : spec_float := Eval vm_compute in Prim2SF 65.123.
Definition at_3661_5 : spec_float := Eval vm_compute in Prim2SF 3661.5.
Definition at_3665_123 : spec_float := Eval vm_compute in Prim2SF 3665.123.
Definition at_1_001 : spec_float := Eval vm_compute in Prim2SF 1.001.
Definition at_2_3 : spec_float := Eval vm_compute in Prim2SF 2.3.
Definition at_2_5 : spec_float := Eval vm_compute in Prim2SF 2.5.
Definition at_4_35 : spec_float := Eval vm_compute in Prim2SF 4.35.
Definition at_1e22 : spec_float := Eval vm_compute in Prim2SF 1e22.

End Samples.

(** * The rest of the services

    The functions of the same modules that come next to those above, and
    [services/audio_extractor.py].  Creating an output directory
    ([mkdir(parents=True, exist_ok=True)]) leaves the [World] as it is, which
    holds regular files only. *)

(** ** More of [utils/config.py] and [utils/file_handler.py] *)

(** [str.lower] and [str.split(sep)] for a separator of one character. *)
Module PyStrOps.

(** The lower-case form of a code point below 256: the capital letters are
    A to Z and, in Latin-1, 192 to 222 without the multiplication sign. *)
Definition lower_char (c : ascii) : ascii :=
  let n := nat_of_ascii c in
  if (((65 <=? n) && (n <=? 90)) || ((192 <=? n) && (n <=? 214))
      || ((216 <=? n) && (n <=? 222)))%nat
  then ascii_of_nat (n + 32)
  else c.

Fixpoint lower (s : string) : string :=
  match s with
  | EmptyString => EmptyString
  | String c s' => String (lower_char c) (lower s')
  end.

(** [s.split(sep)]: the pieces between the separators, [cur] being the
    piece under way; there is always at least one piece. *)
Fixpoint split_sep_aux (sep : ascii) (s cur : string) : list string :=
  match s with
  | EmptyString => [cur]
  | String c s' =>
      if Ascii.eqb c sep then cur :: split_sep_aux sep s' EmptyString
      else split_sep_aux sep s' (cur ++ String c EmptyString)
  end.

Definition split_sep (sep : ascii) (s : string) : list string :=
  split_sep_aux sep s EmptyString.

(** [pieces[-1]] on a list that is never empty. *)
Definition last_piece (pieces : list string) : string := List.last pieces EmptyString.

End PyStrOps.

(** The attributes of [Settings] that the file helpers read.  A [Path] is
    the string [str] gives for it. *)
Record StorageSettings : Type := {
  UPLOAD_DIR : string;
  AUDIO_DIR : string;
  TRANSCRIPT_DIR : string;
  OUTPUT_DIR : string;
  MAX_FILE_SIZE_MB : Z;
  ALLOWED_VIDEO_FORMATS : list string
}.

Module Config.
Section Config.

Variable settings : Settings.
Variable storage : StorageSettings.

(** The list [errors] that [validate] builds. *)
Definition validation_errors : list string :=
  ((if String.eqb (OPENAI_API_KEY settings) EmptyString
       && String.eqb (GEMINI_API_KEY settings) EmptyString
    then ["At least one LLM API key (OPENAI_API_KEY or GEMINI_API_KEY) must be set"]
    else [])
   ++ (if negb (PyStr.mem (DEFAULT_LLM_PROVIDER settings) ["openai"; "gemini"])
       then [("DEFAULT_LLM_PROVIDER must be 'openai' or 'gemini', got "
              ++ PyStr.SQUOTE ++ DEFAULT_LLM_PROVIDER settings ++ PyStr.SQUOTE)%string]
       else [])
   ++ (if String.eqb (DEFAULT_LLM_PROVIDER settings) "openai"
          && String.eqb (OPENAI_API_KEY settings) EmptyString
       then ["OPENAI_API_KEY is required when DEFAULT_LLM_PROVIDER is 'openai'"]
       else [])
   ++ (if String.eqb (DEFAULT_LLM_PROVIDER settings) "gemini"
          && String.eqb (GEMINI_API_KEY settings) EmptyString
       then ["GEMINI_API_KEY is required when DEFAULT_LLM_PROVIDER is 'gemini'"]
       else []))%list.

(** [validate].  The four storage directories are created on the way;
    directories are not part of the [World]. *)
Definition validate : M unit :=
  match validation_errors with
  | [] => ret tt
  | errors =>
      raise (ValueError
               ("Configuration validation failed:" ++ PyStr.NL
                ++ PyStr.join PyStr.NL (map (fun err => "  - " ++ err) errors)))
  end.

Definition get_storage_path (storage_type : string) : result string :=
  if String.eqb storage_type "upload" then Ok (UPLOAD_DIR storage)
  else if String.eqb storage_type "audio" then Ok (AUDIO_DIR storage)
  else if String.eqb storage_type "transcript" then Ok (TRANSCRIPT_DIR storage)
  else if String.eqb storage_type "output" then Ok (OUTPUT_DIR storage)
  else
    Err (ValueError ("Invalid storage type: " ++ storage_type
                     ++ ". Must be one of ['upload', 'audio', 'transcript', 'output']")).

End Config.
End Config.

Module FileOps.
Section FileOps.

Variable storage : StorageSettings.

(** [directory / name] of [pathlib], as the string of the resulting path. *)
Variable joinpath : string -> string -> string.

(** [filename.split(".")[-1].lower()] *)
Definition get_file_extension (filename : string) : string :=
  PyStrOps.lower (PyStrOps.last_piece (PyStrOps.split_sep "."%char filename)).

Definition validate_file_type (filename : string) : bool :=
  let file_extension :=
    PyStrOps.lower (PyStrOps.last_piece (PyStrOps.split_sep "."%char filename)) in
  PyStr.mem file_extension (ALLOWED_VIDEO_FORMATS storage).

Definition get_file_path (file_id storage_type extension : string) : result string :=
  match Config.get_storage_path storage storage_type with
  | Err e => Err e
  | Ok storage_dir => Ok (joinpath storage_dir (file_id ++ "." ++ extension))
  end.

End FileOps.
End FileOps.

(** A string in which the character [sep] does not occur. *)
Fixpoint lacks (sep : ascii) (s : string) : bool :=
  match s with
  | EmptyString => true
  | String c rest => negb (Ascii.eqb c sep) && lacks sep rest
  end.

(** One request more, the files as they were. *)
Definition one_request_sent (w w' : World) : Prop :=
  (exists rq, requests w' = (requests w ++ [rq])%list) /\ files w' = files w.

Module MoreFixtures.

(** The storage settings when the environment sets none of the variables,
    under a project root [/srv/app]. *)
Definition storage : StorageSettings := {|
  UPLOAD_DIR := "/srv/app/storage/uploads";
  AUDIO_DIR := "/srv/app/storage/audio";
  TRANSCRIPT_DIR := "/srv/app/storage/transcripts";
  OUTPUT_DIR := "/srv/app/storage/output";
  MAX_FILE_SIZE_MB := 500;
  ALLOWED_VIDEO_FORMATS := ["mp4"; "avi"; "mov"; "mkv"; "webm"]
|}.

(** Joining a directory and a relative name, on POSIX. *)
Definition joinpath (directory name : string) : string := directory ++ "/" ++ name.

(** A translator that is down for one text and appends ["-ES"] to the
    others. *)
Definition down_for (bad : string) (text _ _ _ : string) (_ : option string) : M string :=
  if String.eqb text bad then raise (Exception "Gemini translation failed: 503 UNAVAILABLE")
  else ret (text ++ "-ES").

End MoreFixtures.

(** A segment that survives the transcript file: its times are printed and
    read back, and its text can be stored. *)
Definition survives (py_str : spec_float -> string)
           (py_float : string -> option spec_float) (s : Segment) : Prop :=
  prints_back py_str py_float (start s)
  /\ prints_back py_str py_float (end_ s)
  /\ storable (text s).

(** The translation of a segment, and the empty string when it has none. *)
Definition translation_of (s : Segment) : string :=
  match translated_text s with
  | Some t => t
  | None => EmptyString
  end.


(** An output segment that carries the times and the text of an input
    segment, and a translation. *)
Definition translated_from (input output : Segment) : Prop :=
  start output = start input /\ end_ output = end_ input
  /\ text output = text input /\ translated_text output <> None.

(** ** More of [services/translator.py] *)

Module TranslatorIO.
Section TranslatorIO.

Variable settings : Settings.
Variable llm_client_translate_with_context :
  string -> string -> string -> string -> option string -> M string.
Variable py_str : spec_float -> string.
Variable py_float : string -> option spec_float.


Definition fieldnames : list string :=
  ["start_time"; "end_time"; "original_text"; "translated_text"].



End TranslatorIO.
End TranslatorIO.

(** ** More of [services/transcriber.py] *)

Module TranscriberIO.
Section TranscriberIO.

Variable settings : Settings.
Variable storage : StorageSettings.
Variable joinpath : string -> string -> string.
Variable llm_client_transcribe_audio :
  string -> string -> option string -> M (list Segment).
Variable py_str : spec_float -> string.

Definition transcribe_and_save (audio_path : string)
           (output_csv_path file_id : option string)
           (language : string) (provider : option string)
  : M (list Segment * string) :=
  segments <-
    Transcriber.transcribe_audio settings llm_client_transcribe_audio
                                 audio_path language provider ;;
  output_csv_path <-
    match output_csv_path with
    | Some path => ret path
    | None =>
        match file_id with
        | None => raise (ValueError "Either output_csv_path or file_id must be provided")
        | Some id => lift (FileOps.get_file_path storage joinpath id "transcript" "csv")
        end
    end ;;
  csv_path <- Transcriber.save_transcript_to_csv py_str segments output_csv_path ;;
  ret (segments, csv_path).

End TranscriberIO.
End TranscriberIO.

(** ** More of [services/context_builder.py] *)

Module ContextBuilderIO.
Section ContextBuilderIO.

Variable settings : Settings.
Variable llm_client__translate_with_openai :
  string -> string -> string -> string -> M string.
Variable llm_client__translate_with_gemini :
  string -> string -> string -> string -> M string.
Variable py_float : string -> option spec_float.

(** [f"{duration:.1f}"] *)
Variable format_1f : spec_float -> string.

Definition build_simple_context (segments : list Segment) (source_language : string)
  : string :=
  match segments with
  | [] => "Empty transcript."
  | first :: _ =>
      let full_text := PyStr.join " " (map text segments) in
      let word_count := List.length (PyStr.split full_text) in
      let duration := PyFloat.sub (end_ (List.last segments first)) (start first) in
      "Video transcript in " ++ source_language ++ " language. "
      ++ "Duration: " ++ format_1f duration ++ " seconds. "
      ++ "Approximate word count: " ++ PyStr.of_nat word_count ++ " words."
  end.


End ContextBuilderIO.
End ContextBuilderIO.

(** ** More of [services/srt_generator.py]

    The [srt] package and [datetime.timedelta] are libraries: what the
    module asks of them are variables of the section. *)

Module SRTGeneratorIO.
Section SRTGeneratorIO.

Variable storage : StorageSettings.
Variable joinpath : string -> string -> string.
Variable py_float : string -> option spec_float.

(** [datetime.timedelta], with [timedelta(seconds=x)] and [total_seconds()]. *)
Variable timedelta : Type.
Variable timedelta_seconds : spec_float -> result timedelta.
Variable total_seconds : timedelta -> spec_float.

(** [srt.Subtitle] *)
Record Subtitle : Type := {
  index : nat;
  sub_start : timedelta;
  sub_end : timedelta;
  content : string
}.

(** [srt.compose] and [list(srt.parse(...))] *)
Variable srt_compose : list Subtitle -> result string.
Variable srt_parse : string -> result (list Subtitle).

Definition create_subtitle (index : nat) (start_time end_time : spec_float)
           (text : string) : result Subtitle :=
  match timedelta_seconds start_time with
  | Err e => Err e
  | Ok s =>
      match timedelta_seconds end_time with
      | Err e => Err e
      | Ok e =>
          Ok {| index := index; sub_start := s; sub_end := e; content := text |}
      end
  end.

(** [segment[text_field]], when the field is there. *)
Definition text_field (use_translated : bool) (segment : Segment) : option string :=
  if use_translated then translated_text segment else Some (text segment).

Definition text_field_name (use_translated : bool) : string :=
  if use_translated then "translated_text" else "text".

(** The loop that validates: [i] is the position of the first segment of
    [segments] in the whole list.  A [Segment] always has its ['start'] and
    ['end']. *)
Fixpoint validate_fields (use_translated : bool) (segments : list Segment) (i : nat)
  : result unit :=
  match segments with
  | [] => Ok tt
  | segment :: rest =>
      match text_field use_translated segment with
      | None =>
          Err (ValueError ("Segment " ++ PyStr.of_nat i ++ " missing "
                           ++ PyStr.SQUOTE ++ text_field_name use_translated
                           ++ PyStr.SQUOTE ++ " field"))
      | Some _ => validate_fields use_translated rest (S i)
      end
  end.

(** The loop that creates the subtitles, [i] being the number of the next. *)
Fixpoint create_subtitles (use_translated : bool) (segments : list Segment) (i : nat)
         (subtitles : list Subtitle) : result (list Subtitle) :=
  match segments with
  | [] => Ok subtitles
  | segment :: rest =>
      match text_field use_translated segment with
      | None => Err (OtherError "KeyError"
                                (PyStr.SQUOTE ++ text_field_name use_translated
                                 ++ PyStr.SQUOTE))
      | Some t =>
          match create_subtitle i (start segment) (end_ segment) t with
          | Err e => Err e
          | Ok subtitle =>
              create_subtitles use_translated rest (S i) (subtitles ++ [subtitle])
          end
      end
  end.

Definition generate_srt_from_segments (segments : list Segment) (use_translated : bool)
  : result string :=
  match segments with
  | [] => Err (ValueError "Cannot generate SRT from empty segments")
  | _ :: _ =>
      match validate_fields use_translated segments 0 with
      | Err e => Err e
      | Ok _ =>
          match create_subtitles use_translated segments 1 [] with
          | Err e => Err e
          | Ok subtitles => srt_compose subtitles
          end
      end
  end.

(** [open(output_path, 'w')] in text mode on POSIX, where a line feed is
    written as it is. *)
Definition save_srt (segments : list Segment) (output_path : string)
           (use_translated : bool) : M string :=
  srt_content <- lift (generate_srt_from_segments segments use_translated) ;;
  try_except
    (TextIO.write_file output_path srt_content ;;;
     ret output_path)
    (fun e => raise (Exception ("Failed to save SRT file: " ++ str_exn e))).





(** The body of [for subtitle in subtitles]. *)
Definition segment_of (subtitle : Subtitle) : Segment :=
  {| start := total_seconds (sub_start subtitle);
     end_ := total_seconds (sub_end subtitle);
     text := content subtitle;
     translated_text := None |}.

Definition parse_srt (srt_content : string) : result (list Segment) :=
  match srt_parse srt_content with
  | Ok subtitles => Ok (map segment_of subtitles)
  | Err e => Err (Exception ("Failed to parse SRT content: " ++ str_exn e))
  end.

Definition load_srt (srt_path : string) : M (list Segment) :=
  found <- FileHandler.file_exists srt_path ;;
  if negb found then
    raise (FileNotFoundError ("SRT file not found: " ++ srt_path))
  else
    try_except
      (srt_content <- TextIO.read_text srt_path ;;
       segments <- lift (parse_srt srt_content) ;;
       ret segments)
      (fun e => raise (Exception ("Failed to load SRT file: " ++ str_exn e))).

End SRTGeneratorIO.
End SRTGeneratorIO.

Module SrtFixtures.

(** Two translated segments. *)
Definition hola : Segment :=
  {| start := Prim2SF 0.0; end_ := Prim2SF 3.0; text := "Hello";
     translated_text := Some "Hola, mundo" |}.

Definition adios : Segment :=
  {| start := Prim2SF 3.0; end_ := Prim2SF 6.0; text := "Good bye";
     translated_text := Some "Adios" |}.

(** A stand-in for the libraries: a duration is the float of its seconds,
    and a subtitle is composed as its number and its text. *)
Definition timedelta : Type := spec_float.
Definition timedelta_seconds (x : spec_float) : result timedelta := Ok x.
Definition total_seconds (d : timedelta) : spec_float := d.

Definition srt_compose (subtitles : list (SRTGeneratorIO.Subtitle timedelta))
  : result string :=
  Ok (String.concat EmptyString
        (map (fun s => PyStr.of_nat (SRTGeneratorIO.index timedelta s) ++ PyStr.NL
                       ++ SRTGeneratorIO.content timedelta s ++ PyStr.NL ++ PyStr.NL)
             subtitles)).

(** A parser that rejects everything. *)
Definition srt_parse (s : string)
  : result (list (SRTGeneratorIO.Subtitle timedelta)) :=
  Err (OtherError "SRTParseError" "Expected contiguous start of match").

(** A parser that makes one subtitle of the whole content. *)
Definition srt_parse_whole (s : string)
  : result (list (SRTGeneratorIO.Subtitle timedelta)) :=
  Ok [ {| SRTGeneratorIO.index := 1;
          SRTGeneratorIO.sub_start := Prim2SF 0.0;
          SRTGeneratorIO.sub_end := Prim2SF 2.5;
          SRTGeneratorIO.content := s |} ].

(** A world with a subtitle file in it. *)
Definition world_with_srt : World := {|
  requests := [];
  files := fun path => if String.eqb path "film.srt" then Some "Hello" else None
|}.

End SrtFixtures.

(** ** services/audio_extractor.py *)

(** How [subprocess.run(command, capture_output=True, text=True, check=True)]
    ends: the process exits with status 0, or with another status, which
    makes [CalledProcessError] with the error output of the process, or the
    call raises something else (the program is not found, for one). *)
Inductive ProcessOutcome : Type :=
| Completed (stdout : string)
| CalledProcessError (stderr : string)
| ProcessFailure (e : exn).

(** [RuntimeError(msg)] *)
Definition RuntimeError (msg : string) : exn := OtherError "RuntimeError" msg.

(** [isinstance(e, ValueError)] for an exception of the interpreter: the
    class itself and the built-in classes derived from it, which are those
    of the Unicode errors. *)
Definition isinstance_ValueError (e : exn) : bool :=
  match e with
  | ValueError _ => true
  | OtherError cls _ =>
      PyStr.mem cls ["ValueError"; "UnicodeError"; "UnicodeDecodeError";
                     "UnicodeEncodeError"; "UnicodeTranslateError"]
  | _ => false
  end.

Module AudioExtractor.
Section AudioExtractor.

Variable storage : StorageSettings.
Variable joinpath : string -> string -> string.
Variable py_float : string -> option spec_float.

(** Running a command: what it does to the world, and how it ends. *)
Variable subprocess_run : list string -> World -> ProcessOutcome * World.

(** The message of the [UnboundLocalError] that the interpreter raises when
    a local variable is read before anything was assigned to it; its wording
    depends on the version of the interpreter. *)
Variable unbound_local : string -> string.

Definition ffmpeg_command (video_path output_path : string) : list string :=
  ["ffmpeg"; "-i"; video_path; "-vn"; "-acodec"; "pcm_s16le";
   "-ar"; "16000"; "-ac"; "1"; "-y"; output_path].

Definition extract_audio (video_path : string) (output_path file_id : option string)
  : M string :=
  found <- FileHandler.file_exists video_path ;;
  if negb found then
    raise (FileNotFoundError ("Video file not found: " ++ video_path))
  else
    output_path <-
      match output_path with
      | Some path => ret path
      | None =>
          match file_id with
          | None => raise (ValueError "Either output_path or file_id must be provided")
          | Some id => lift (FileOps.get_file_path storage joinpath id "audio" "wav")
          end
      end ;;
    fun w =>
      match subprocess_run (ffmpeg_command video_path output_path) w with
      | (Completed _, w') =>
          match FileHandler.file_exists output_path w' with
          | (Ok true, w'') => (Ok output_path, w'')
          | (Ok false, w'') =>
              (Err (RuntimeError
                      ("Unexpected error during audio extraction: "
                       ++ "FFmpeg completed but output file was not created")), w'')
          | (Err e, w'') =>
              (Err (RuntimeError
                      ("Unexpected error during audio extraction: " ++ str_exn e)), w'')
          end
      | (CalledProcessError stderr, w') =>
          (Err (RuntimeError ("FFmpeg failed to extract audio: " ++ stderr)), w')
      | (ProcessFailure e, w') =>
          (Err (RuntimeError
                  ("Unexpected error during audio extraction: " ++ str_exn e)), w')
      end.

Definition ffprobe_command (audio_path : string) : list string :=
  ["ffprobe"; "-v"; "error"; "-show_entries"; "format=duration";
   "-of"; "default=noprint_wrappers=1:nokey=1"; audio_path].

(** The three [except] clauses are tried in turn.  [except ValueError] is
    meant for the [float] that does not parse, and its message reads
    [result.stdout]; a [ValueError] that [subprocess.run] raises itself
    (output that cannot be decoded, with [text=True]) comes to the same
    clause with [result] not yet assigned, and the [UnboundLocalError] of
    that reading leaves the function: the clauses of a [try] do not cover
    what is raised in one of them. *)
Definition get_audio_duration (audio_path : string) : M spec_float :=
  found <- FileHandler.file_exists audio_path ;;
  if negb found then
    raise (FileNotFoundError ("Audio file not found: " ++ audio_path))
  else
    fun w =>
      match subprocess_run (ffprobe_command audio_path) w with
      | (Completed stdout, w') =>
          match py_float (PyStr.strip stdout) with
          | Some duration => (Ok duration, w')
          | None =>
              (Err (RuntimeError
                      ("Failed to parse duration from FFprobe output: " ++ stdout)), w')
          end
      | (CalledProcessError stderr, w') =>
          (Err (RuntimeError ("FFprobe failed to get audio duration: " ++ stderr)), w')
      | (ProcessFailure e, w') =>
          if isinstance_ValueError e then
            (Err (OtherError "UnboundLocalError" (unbound_local "result")), w')
          else
            (Err (RuntimeError
                    ("Unexpected error getting audio duration: " ++ str_exn e)), w')
      end.

Definition extract_audio_with_timestamps (video_path : string)
           (output_path file_id : option string) : M (string * spec_float) :=
  audio_path <- extract_audio video_path output_path file_id ;;
  duration <- get_audio_duration audio_path ;;
  ret (audio_path, duration).

End AudioExtractor.
End AudioExtractor.

Module AudioFixtures.

(** An FFmpeg that writes its last argument, and an FFprobe that says
    ["12.5"]; any other program is missing. *)
Definition subprocess_run (command : list string) (w : World) : ProcessOutcome * World :=
  match command with
  | "ffmpeg" :: _ :: _ :: _ =>
      (Completed EmptyString,
       {| requests := requests w;
          files := fun p => if String.eqb p (List.last command EmptyString)
                            then Some "RIFF" else files w p |})
  | "ffprobe" :: _ => (Completed ("12.5" ++ PyStr.NL), w)
  | _ =>
      (ProcessFailure (FileNotFoundError "[Errno 2] No such file or directory"), w)
  end.

Definition py_float (s : string) : option spec_float :=
  if String.eqb s "12.5" then Some (Prim2SF 12.5) else None.

(** The same FFmpeg, and an FFprobe whose output is not UTF-8. *)
Definition subprocess_run_undecodable (command : list string) (w : World)
  : ProcessOutcome * World :=
  match command with
  | "ffprobe" :: _ =>
      (ProcessFailure
         (OtherError "UnicodeDecodeError"
            "'utf-8' codec can't decode byte 0xff in position 0: invalid start byte"), w)
  | _ => subprocess_run command w
  end.

(** The message of CPython 3.11 and later. *)
Definition unbound_local (name : string) : string :=
  "cannot access local variable '" ++ name
  ++ "' where it is not associated with a value".

(** A world with a video in it. *)
Definition world : World := {|
  requests := [];
  files := fun path => if String.eqb path "talk.mp4" then Some "ftyp" else None
|}.

End AudioFixtures.
(** * Properties *)

(** ** The monad *)

Lemma bind_ok {A B} (m : M A) (k : A -> M B) (w w' : World) (a : A) :
  m w = (Ok a, w') -> bind m k w = k a w'.
Proof. intros H. unfold bind. now rewrite H. Qed.

Lemma bind_err {A B} (m : M A) (k : A -> M B) (w w' : World) (e : exn) :
  m w = (Err e, w') -> bind m k w = (Err e, w').
Proof. intros H. unfold bind. now rewrite H. Qed.

Lemma try_except_ok {A} (m : M A) (h : exn -> M A) (w w' : World) (a : A) :
  m w = (Ok a, w') -> try_except m h w = (Ok a, w').
Proof. intros H. unfold try_except. now rewrite H. Qed.

Lemma try_except_err {A} (m : M A) (h : exn -> M A) (w w' : World) (e : exn) :
  m w = (Err e, w') -> try_except m h w = h e w'.
Proof. intros H. unfold try_except. now rewrite H. Qed.

Lemma py_or_none (d : string) : py_or None d = d.
Proof. reflexivity. Qed.

Lemma py_or_default (d : string) : py_or (Some d) d = d.
Proof. unfold py_or. now destruct (String.eqb d EmptyString). Qed.

Lemma py_or_some (p d : string) : p <> EmptyString -> py_or (Some p) d = p.
Proof.
  intros Hp. unfold py_or.
  destruct (String.eqb_spec p EmptyString) as [E | _]; [contradiction | reflexivity].
Qed.

Lemma eqb_neq_false (a b : string) : a <> b -> String.eqb a b = false.
Proof. intros H. now destruct (String.eqb_spec a b). Qed.

(** ** Provider gateway: resolution of the provider argument *)

Section ProviderResolution.

Variable settings : Settings.
Variable sdk : ProviderSDK.
Variable json_loads : string -> result (list Segment).

Lemma transcribe_audio_openai (audio language : string) (w : World) :
  LLMClient.transcribe_audio settings sdk json_loads audio language (Some "openai") w
  = LLMClient._transcribe_with_openai settings sdk audio language w.
Proof. reflexivity. Qed.

Lemma transcribe_audio_gemini (audio language : string) (w : World) :
  LLMClient.transcribe_audio settings sdk json_loads audio language (Some "gemini") w
  = LLMClient._transcribe_with_gemini settings sdk json_loads audio language w.
Proof. reflexivity. Qed.

Lemma unknown_provider_transcribe (p audio language : string) (w : World) :
  p <> EmptyString -> p <> "openai" -> p <> "gemini" ->
  LLMClient.transcribe_audio settings sdk json_loads audio language (Some p) w
  = (Err (ValueError ("Unknown provider: " ++ p)), w).
Proof.
  intros H0 H1 H2. unfold LLMClient.transcribe_audio.
  rewrite (py_or_some _ _ H0), (eqb_neq_false _ _ H1), (eqb_neq_false _ _ H2).
  reflexivity.
Qed.

Lemma unknown_provider_translate
      (p text source target context : string) (w : World) :
  p <> EmptyString -> p <> "openai" -> p <> "gemini" ->
  LLMClient.translate_with_context settings sdk text source target context (Some p) w
  = (Err (ValueError ("Unknown provider: " ++ p)), w).
Proof.
  intros H0 H1 H2. unfold LLMClient.translate_with_context.
  rewrite (py_or_some _ _ H0), (eqb_neq_false _ _ H1), (eqb_neq_false _ _ H2).
  reflexivity.
Qed.

End ProviderResolution.

(** C6, as the code has it.  An omitted provider argument, and likewise an
    empty one, selects the configured default: the call is the one made with
    the default passed explicitly.  A non-empty argument other than "openai"
    and "gemini" makes both operations raise [ValueError "Unknown provider: p"]
    in an unchanged world: no file was read and no request was sent. *)
Theorem provider_resolution
        (settings : Settings) (sdk : ProviderSDK)
        (json_loads : string -> result (list Segment))
        (p audio language text source target context : string) (w : World) :
  p <> EmptyString -> p <> "openai" -> p <> "gemini" ->
  let default := Some (DEFAULT_LLM_PROVIDER settings) in
  (LLMClient.transcribe_audio settings sdk json_loads audio language None w
   = LLMClient.transcribe_audio settings sdk json_loads audio language default w)
  /\ (LLMClient.translate_with_context settings sdk text source target context None w
      = LLMClient.translate_with_context settings sdk text source target context default w)
  /\ (LLMClient.transcribe_audio settings sdk json_loads audio language (Some EmptyString) w
      = LLMClient.transcribe_audio settings sdk json_loads audio language default w)
  /\ (LLMClient.translate_with_context settings sdk text source target context
                                       (Some EmptyString) w
      = LLMClient.translate_with_context settings sdk text source target context default w)
  /\ (LLMClient.transcribe_audio settings sdk json_loads audio language (Some p) w
      = (Err (ValueError ("Unknown provider: " ++ p)), w))
  /\ (LLMClient.translate_with_context settings sdk text source target context (Some p) w
      = (Err (ValueError ("Unknown provider: " ++ p)), w)).
Proof.
  intros H0 H1 H2 default.
  unfold default, LLMClient.transcribe_audio, LLMClient.translate_with_context.
  rewrite py_or_none, py_or_default.
  repeat split; try reflexivity.
  - now apply unknown_provider_transcribe.
  - now apply unknown_provider_translate.
Qed.

Lemma provider_resolution_witness :
  "claude" <> EmptyString /\ "claude" <> "openai" /\ "claude" <> "gemini"
  /\ LLMClient.translate_with_context
       Fixtures.settings Fixtures.answering_sdk "Hello" "en" "es" "greeting"
       (Some "claude") Fixtures.world
     = (Err (ValueError "Unknown provider: claude"), Fixtures.world).
Proof.
  assert (H0 : "claude" <> EmptyString) by discriminate.
  assert (H1 : "claude" <> "openai") by discriminate.
  assert (H2 : "claude" <> "gemini") by discriminate.
  split; [exact H0 | split; [exact H1 | split; [exact H2 | ]]].
  exact (proj2 (proj2 (proj2 (proj2 (proj2
    (provider_resolution Fixtures.settings Fixtures.answering_sdk Fixtures.json_loads
       "claude" "audio.wav" "en" "Hello" "en" "es" "greeting" Fixtures.world
       H0 H1 H2)))))).
Defined.

(** C6 fails as stated: the empty string is a provider argument that is
    neither "openai" nor "gemini", and the call made with it is not refused:
    the default provider is asked and its answer returned. *)
Lemma provider_empty_string_not_refused :
  EmptyString <> "openai" /\ EmptyString <> "gemini"
  /\ LLMClient.translate_with_context
       Fixtures.settings Fixtures.answering_sdk "Hello" "en" "es" "greeting"
       (Some EmptyString) Fixtures.world
     = (Ok "Hola",
        {| requests :=
             [GenerateContent "gemini-2.0-flash-exp"
                (LLMClient.translation_prompt "Hello" "en" "es" "greeting")];
           files := files Fixtures.world |}).
Proof. split; [discriminate | split; [discriminate | reflexivity]]. Qed.

(** ** Provider gateway: transcription without segmentation *)

Section TranscriptionFallback.

Variable settings : Settings.
Variable sdk : ProviderSDK.
Variable json_loads : string -> result (list Segment).

(** The OpenAI path: a response whose [segments] is missing, null or empty
    becomes one segment from 0.0 to 0.0 carrying the full text. *)
Lemma openai_without_segments
      (audio language data : string) (response : TranscriptionVerbose) (w : World) :
  LLMClient.openai_client settings = true ->
  files w audio = Some data ->
  audio_transcriptions_create sdk (requests w) (OPENAI_MODEL settings) data language
  = Ok response ->
  resp_segments response = None \/ resp_segments response = Some [] ->
  LLMClient.transcribe_audio settings sdk json_loads audio language (Some "openai") w
  = (Ok [ {| start := S754_zero false; end_ := S754_zero false;
             text := resp_text response; translated_text := None |} ],
     {| requests :=
          (requests w
           ++ [AudioTranscriptionsCreate (OPENAI_MODEL settings) data language])%list;
        files := files w |}).
Proof.
  intros Hc Hf Ha Hs. rewrite transcribe_audio_openai.
  unfold LLMClient._transcribe_with_openai. rewrite Hc. cbn [negb].
  unfold try_except, bind, LLMClient.open_rb, send, ret. rewrite Hf, Ha.
  destruct Hs as [-> | ->]; reflexivity.
Qed.

(** The Gemini path: what [json.loads] raises on the model's text comes out
    as a failure of the transcription, and an empty array comes out as it is. *)
Lemma gemini_unreadable_answer
      (audio language data answer : string) (e : exn) (w : World) :
  LLMClient.gemini_client settings = true ->
  files w audio = Some data ->
  generate_content_audio sdk (requests w) (GEMINI_MODEL settings)
                         (LLMClient.transcription_prompt language) data
  = Ok answer ->
  json_loads answer = Err e ->
  LLMClient.transcribe_audio settings sdk json_loads audio language (Some "gemini") w
  = (Err (Exception ("Gemini transcription failed: " ++ str_exn e)),
     {| requests :=
          (requests w
           ++ [GenerateContentAudio (GEMINI_MODEL settings)
                                    (LLMClient.transcription_prompt language) data])%list;
        files := files w |}).
Proof.
  intros Hc Hf Ha Hj. rewrite transcribe_audio_gemini.
  unfold LLMClient._transcribe_with_gemini. rewrite Hc. cbn [negb].
  unfold try_except, bind, LLMClient.open_rb, send, lift, raise.
  now rewrite Hf, Ha, Hj.
Qed.

Lemma gemini_answer_returned_as_is
      (audio language data answer : string) (segments : list Segment) (w : World) :
  LLMClient.gemini_client settings = true ->
  files w audio = Some data ->
  generate_content_audio sdk (requests w) (GEMINI_MODEL settings)
                         (LLMClient.transcription_prompt language) data
  = Ok answer ->
  json_loads answer = Ok segments ->
  fst (LLMClient.transcribe_audio settings sdk json_loads audio language (Some "gemini") w)
  = Ok segments.
Proof.
  intros Hc Hf Ha Hj. rewrite transcribe_audio_gemini.
  unfold LLMClient._transcribe_with_gemini. rewrite Hc. cbn [negb].
  unfold try_except, bind, LLMClient.open_rb, send, lift, ret.
  now rewrite Hf, Ha, Hj.
Qed.

End TranscriptionFallback.

(** C9 on the two paths, at concrete answers without segmentation.  With
    "openai", a response without segments gives the single segment from 0.0 to
    0.0 with the full text.  With "gemini", an answer in plain prose makes the
    transcription fail, and an empty JSON array gives an empty list: there is
    no single-segment fallback on that path. *)
Theorem transcription_fallback_openai_only :
  fst (LLMClient.transcribe_audio
         Fixtures.settings Fixtures.answering_sdk Fixtures.json_loads
         "audio.wav" "en" (Some "openai") Fixtures.world)
  = Ok [ {| start := Prim2SF 0.0; end_ := Prim2SF 0.0;
            text := " hello there "; translated_text := None |} ]
  /\ fst (LLMClient.transcribe_audio
            Fixtures.settings Fixtures.answering_sdk Fixtures.json_loads
            "audio.wav" "en" (Some "gemini") Fixtures.world)
     = Err (Exception
              "Gemini transcription failed: Expecting value: line 1 column 1 (char 0)")
  /\ fst (LLMClient.transcribe_audio
            Fixtures.settings Fixtures.empty_array_sdk Fixtures.json_loads
            "audio.wav" "en" (Some "gemini") Fixtures.world)
     = Ok [].
Proof. repeat split. Qed.

(** ** Language validation *)

Section LanguageValidation.

Variable settings : Settings.
Variable gateway_transcribe : string -> string -> option string -> M (list Segment).
Variable gateway_translate :
  string -> string -> string -> string -> option string -> M string.

Let allowed := SUPPORTED_LANGUAGES settings.

Lemma transcribe_audio_missing_file (audio language : string)
      (provider : option string) (w : World) :
  files w audio = None ->
  Transcriber.transcribe_audio settings gateway_transcribe audio language provider w
  = (Err (FileNotFoundError ("Audio file not found: " ++ audio)), w).
Proof.
  intros Hf. unfold Transcriber.transcribe_audio, bind, FileHandler.file_exists.
  now rewrite Hf.
Qed.

Lemma transcribe_audio_unsupported (audio language data : string)
      (provider : option string) (w : World) :
  files w audio = Some data ->
  PyStr.mem language allowed = false ->
  Transcriber.transcribe_audio settings gateway_transcribe audio language provider w
  = (Err (ValueError (unsupported_language_message "Language" language allowed)), w).
Proof.
  intros Hf Hl. unfold Transcriber.transcribe_audio, bind, FileHandler.file_exists.
  rewrite Hf. cbn. fold allowed. now rewrite Hl.
Qed.

Lemma translate_segment_unsupported_source
      (text source target context : string) (provider : option string) (w : World) :
  PyStr.mem source allowed = false ->
  Translator.translate_segment settings gateway_translate
                               text source target context provider w
  = (Err (ValueError (unsupported_language_message "Source language" source allowed)), w).
Proof.
  intros Hs. unfold Translator.translate_segment. fold allowed. now rewrite Hs.
Qed.

Lemma translate_segment_unsupported_target
      (text source target context : string) (provider : option string) (w : World) :
  PyStr.mem source allowed = true ->
  PyStr.mem target allowed = false ->
  Translator.translate_segment settings gateway_translate
                               text source target context provider w
  = (Err (ValueError (unsupported_language_message "Target language" target allowed)), w).
Proof.
  intros Hs Ht. unfold Translator.translate_segment. fold allowed.
  now rewrite Hs, Ht.
Qed.

Lemma translate_segment_supported
      (text source target context : string) (provider : option string) (w : World) :
  PyStr.mem source allowed = true ->
  PyStr.mem target allowed = true ->
  Translator.translate_segment settings gateway_translate
                               text source target context provider w
  = bind (gateway_translate text source target context provider) ret w.
Proof.
  intros Hs Ht. unfold Translator.translate_segment. fold allowed.
  now rewrite Hs, Ht.
Qed.

End LanguageValidation.

Lemma source_target_messages_differ (a b : string) (l l' : list string) :
  unsupported_language_message "Source language" a l
  <> unsupported_language_message "Target language" b l'.
Proof. unfold unsupported_language_message. cbn. discriminate. Qed.

(** C7.  A language code outside the allow-list is refused with a
    [ValueError] whose message quotes the code and lists the allowed codes,
    and the world is left as it was, whatever the gateway would have done: by
    [transcribe_audio] for an audio file that exists, and by
    [translate_segment] as a source or as a target.  The source is checked
    first, so a bad target is reported under "Target language" when the source
    is allowed, and the two messages are never the same. *)
Theorem unsupported_language_rejected
        (settings : Settings)
        (gateway_transcribe : string -> string -> option string -> M (list Segment))
        (gateway_translate :
           string -> string -> string -> string -> option string -> M string)
        (code other audio data text context : string)
        (provider : option string) (w : World) :
  PyStr.mem code (SUPPORTED_LANGUAGES settings) = false ->
  files w audio = Some data ->
  let allowed := SUPPORTED_LANGUAGES settings in
  Transcriber.transcribe_audio settings gateway_transcribe audio code provider w
  = (Err (ValueError ("Language " ++ PyStr.SQUOTE ++ code ++ PyStr.SQUOTE
                      ++ " is not supported. Supported languages: "
                      ++ PyStr.join ", " allowed)), w)
  /\ Translator.translate_segment settings gateway_translate
                                  text code other context provider w
     = (Err (ValueError ("Source language " ++ PyStr.SQUOTE ++ code ++ PyStr.SQUOTE
                         ++ " is not supported. Supported languages: "
                         ++ PyStr.join ", " allowed)), w)
  /\ Translator.translate_segment settings gateway_translate
                                  text other code context provider w
     = (Err (ValueError
               (if PyStr.mem other allowed
                then "Target language " ++ PyStr.SQUOTE ++ code ++ PyStr.SQUOTE
                     ++ " is not supported. Supported languages: "
                     ++ PyStr.join ", " allowed
                else "Source language " ++ PyStr.SQUOTE ++ other ++ PyStr.SQUOTE
                     ++ " is not supported. Supported languages: "
                     ++ PyStr.join ", " allowed)), w)
  /\ unsupported_language_message "Source language" code allowed
     <> unsupported_language_message "Target language" code allowed.
Proof.
  intros Hc Hf allowed. repeat split.
  - rewrite (transcribe_audio_unsupported _ _ _ _ data _ _ Hf Hc). reflexivity.
  - rewrite (translate_segment_unsupported_source _ _ _ _ _ _ _ _ Hc). reflexivity.
  - destruct (PyStr.mem other allowed) eqn:Ho.
    + rewrite (translate_segment_unsupported_target _ _ _ _ _ _ _ _ Ho Hc). reflexivity.
    + rewrite (translate_segment_unsupported_source _ _ _ _ _ _ _ _ Ho). reflexivity.
  - apply source_target_messages_differ.
Qed.

Lemma unsupported_language_rejected_witness :
  PyStr.mem "xyz" (SUPPORTED_LANGUAGES Fixtures.settings) = false
  /\ files Fixtures.world "audio.wav" = Some "RIFF"
  /\ Transcriber.transcribe_audio
       Fixtures.settings
       (LLMClient.transcribe_audio Fixtures.settings Fixtures.answering_sdk
                                   Fixtures.json_loads)
       "audio.wav" "xyz" None Fixtures.world
     = (Err (ValueError
               ("Language " ++ PyStr.SQUOTE ++ "xyz" ++ PyStr.SQUOTE
                ++ " is not supported. Supported languages: "
                ++ "en, zh, hi, es, ar, fr, bn, pt, ru, ur, id, de, ja, mr, te, tr, ta, vi, ko, sw")),
        Fixtures.world).
Proof.
  assert (Hc : PyStr.mem "xyz" (SUPPORTED_LANGUAGES Fixtures.settings) = false)
    by reflexivity.
  assert (Hf : files Fixtures.world "audio.wav" = Some "RIFF") by reflexivity.
  split; [exact Hc | split; [exact Hf | ]].
  exact (proj1
    (unsupported_language_rejected
       Fixtures.settings
       (LLMClient.transcribe_audio Fixtures.settings Fixtures.answering_sdk
                                   Fixtures.json_loads)
       (LLMClient.translate_with_context Fixtures.settings Fixtures.answering_sdk)
       "xyz" "es" "audio.wav" "RIFF" "Hello" "greeting" None Fixtures.world Hc Hf)).
Defined.

(** ** Translator *)

Section TranslateSegments.

Variable settings : Settings.
Variable backend : string -> string -> string -> string -> option string -> M string.
Variable tr : string -> string.
Variables source target context : string.
Variable provider : option string.

Hypothesis source_allowed : PyStr.mem source (SUPPORTED_LANGUAGES settings) = true.
Hypothesis target_allowed : PyStr.mem target (SUPPORTED_LANGUAGES settings) = true.

Lemma translate_loop_ok (segments : list Segment) :
  (forall s w, In s segments ->
     exists w', backend (text s) source target context provider w = (Ok (tr (text s)), w')) ->
  forall done w,
  exists w',
    Translator.translate_loop settings backend segments done
                              source target context provider w
    = (Ok (done ++ map (with_translation tr) segments)%list, w').
Proof.
  induction segments as [| s rest IH]; intros Hb done w; cbn [Translator.translate_loop map].
  - exists w. now rewrite app_nil_r.
  - destruct (Hb s w (or_introl eq_refl)) as [w1 H1].
    assert (Hseg : Translator.translate_segment settings backend
                     (text s) source target context provider w
                   = (Ok (tr (text s)), w1)).
    { rewrite (translate_segment_supported _ _ _ _ _ _ _ _ source_allowed target_allowed).
      now rewrite (bind_ok _ _ _ _ _ H1). }
    rewrite (bind_ok _ _ _ _ _ Hseg).
    destruct (IH (fun s' w' Hin => Hb s' w' (or_intror Hin))
                 (done ++ [with_translation tr s])%list w1) as [w2 H2].
    exists w2. unfold with_translation at 1 in H2. rewrite H2.
    now rewrite <- app_assoc.
Qed.


End TranslateSegments.

(** C1.  With both languages allowed and a backend that answers
    [tr t] to every text [t] of the list, [translate_segments] returns, for the
    [N] segments [first :: rest], the list of the [N] segments obtained in the
    same order by copying [start], [end] and [text] and setting
    [translated_text] to the backend's answer; on the empty list it raises
    [ValueError] and does nothing else. *)
Theorem translate_segments_spec
        (settings : Settings)
        (backend : string -> string -> string -> string -> option string -> M string)
        (tr : string -> string)
        (first : Segment) (rest : list Segment)
        (source target context : string) (provider : option string) (w : World) :
  PyStr.mem source (SUPPORTED_LANGUAGES settings) = true ->
  PyStr.mem target (SUPPORTED_LANGUAGES settings) = true ->
  (forall s w0, In s (first :: rest) ->
     exists w1, backend (text s) source target context provider w0
                = (Ok (tr (text s)), w1)) ->
  (exists out w',
     Translator.translate_segments settings backend (first :: rest)
                                   source target context provider w
     = (Ok out, w')
     /\ List.length out = List.length (first :: rest)
     /\ forall i s, nth_error (first :: rest) i = Some s ->
          nth_error out i
          = Some {| start := start s; end_ := end_ s; text := text s;
                    translated_text := Some (tr (text s)) |})
  /\ Translator.translate_segments settings backend []
                                   source target context provider w
     = (Err (ValueError "Cannot translate empty segments"), w).
Proof.
  intros Hs Ht Hb. split; [ | reflexivity ].
  destruct (translate_loop_ok settings backend tr source target context provider
                              Hs Ht (first :: rest) Hb [] w) as [w' H].
  exists (map (with_translation tr) (first :: rest)), w'. split; [ | split ].
  - exact H.
  - apply length_map.
  - intros i s Hi. rewrite nth_error_map, Hi. reflexivity.
Qed.

Lemma translate_segments_spec_witness :
  PyStr.mem "en" (SUPPORTED_LANGUAGES Fixtures.settings) = true
  /\ PyStr.mem "es" (SUPPORTED_LANGUAGES Fixtures.settings) = true
  /\ exists out w',
       Translator.translate_segments Fixtures.settings Fixtures.stub_translate
                                     Fixtures.hello_world "en" "es" "greeting" None
                                     Fixtures.world
       = (Ok out, w')
       /\ List.length out = 2
       /\ forall i s, nth_error Fixtures.hello_world i = Some s ->
            nth_error out i
            = Some {| start := start s; end_ := end_ s; text := text s;
                      translated_text := Some (text s ++ "-ES") |}.
Proof.
  split; [reflexivity | split; [reflexivity | ]].
  refine (proj1 (translate_segments_spec
            Fixtures.settings Fixtures.stub_translate (fun t => t ++ "-ES")
            Fixtures.hello [Fixtures.world_]
            "en" "es" "greeting" None Fixtures.world eq_refl eq_refl _)).
  intros s w0 _. exists w0. reflexivity.
Defined.

(** ** Context builder *)

Lemma length_lstrip_le (s : string) :
  String.length (PyStr.lstrip s) <= String.length s.
Proof.
  induction s as [| c s IH]; cbn; [lia | ].
  destruct (PyStr.isspace c); cbn; lia.
Qed.

Lemma length_rstrip_le (s : string) :
  String.length (PyStr.rstrip s) <= String.length s.
Proof.
  induction s as [| c s IH]; cbn; [lia | ].
  destruct (PyStr.rstrip s); [destruct (PyStr.isspace c) | ]; cbn in *; lia.
Qed.

Lemma length_strip_le (s : string) :
  String.length (PyStr.strip s) <= String.length s.
Proof.
  unfold PyStr.strip.
  pose proof (length_rstrip_le (PyStr.lstrip s)).
  pose proof (length_lstrip_le s). lia.
Qed.

Section BuildContext.

Variable settings : Settings.
Variable gateway_openai : string -> string -> string -> string -> M string.
Variable gateway_gemini : string -> string -> string -> string -> M string.

Local Abbreviation build_context :=
  (ContextBuilder.build_context settings gateway_openai gateway_gemini).
Local Abbreviation generate :=
  (ContextBuilder._generate_context_with_llm settings gateway_openai gateway_gemini).

Lemma build_context_empty (source : string) (provider : option string) (w : World) :
  build_context [] source provider w
  = (Err (ValueError "Cannot build context from empty segments"), w).
Proof. reflexivity. Qed.

Lemma build_context_short (first : Segment) (rest : list Segment)
      (source : string) (provider : option string) (w : World) :
  (String.length (PyStr.strip (PyStr.join " " (map text (first :: rest)))) <? 10)%nat
  = true ->
  build_context (first :: rest) source provider w
  = (Ok "Short video content without specific context.", w).
Proof. intros H. unfold ContextBuilder.build_context. now rewrite H. Qed.

Lemma build_context_long (first : Segment) (rest : list Segment)
      (source : string) (provider : option string) (w : World) :
  (String.length (PyStr.strip (PyStr.join " " (map text (first :: rest)))) <? 10)%nat
  = false ->
  build_context (first :: rest) source provider w
  = bind (generate (PyStr.join " " (map text (first :: rest))) source provider) ret w.
Proof. intros H. unfold ContextBuilder.build_context. now rewrite H. Qed.

(** Whatever is raised while asking for the summary is replaced by the
    fallback sentence. *)
Lemma generate_unknown_provider (full_text source p : string) (w : World) :
  p <> EmptyString -> p <> "openai" -> p <> "gemini" ->
  generate full_text source (Some p) w
  = (Ok (ContextBuilder.fallback_context full_text source), w).
Proof.
  intros H0 H1 H2. unfold ContextBuilder._generate_context_with_llm.
  rewrite (py_or_some _ _ H0), (eqb_neq_false _ _ H1), (eqb_neq_false _ _ H2).
  reflexivity.
Qed.


End BuildContext.

(** C8, as the code has it.  A non-empty list whose texts, joined by single
    spaces, make fewer than 10 characters gets the literal
    "Short video content without specific context." in an unchanged world, so
    without any call to a provider; the empty list gets a [ValueError]. *)
Theorem build_context_short_text
        (settings : Settings)
        (gateway_openai gateway_gemini : string -> string -> string -> string -> M string)
        (first : Segment) (rest : list Segment)
        (source : string) (provider : option string) (w : World) :
  String.length (PyStr.join " " (map text (first :: rest))) < 10 ->
  ContextBuilder.build_context settings gateway_openai gateway_gemini
                               (first :: rest) source provider w
  = (Ok "Short video content without specific context.", w)
  /\ ContextBuilder.build_context settings gateway_openai gateway_gemini
                                  [] source provider w
     = (Err (ValueError "Cannot build context from empty segments"), w).
Proof.
  intros Hlen. split; [ | reflexivity ].
  apply build_context_short. apply Nat.ltb_lt.
  pose proof (length_strip_le (PyStr.join " " (map text (first :: rest)))). lia.
Qed.

Lemma build_context_short_text_witness :
  String.length (PyStr.join " " (map text Samples.hi)) < 10
  /\ ContextBuilder.build_context
       Fixtures.settings
       (LLMClient._translate_with_openai Fixtures.settings Fixtures.answering_sdk)
       (LLMClient._translate_with_gemini Fixtures.settings Fixtures.answering_sdk)
       Samples.hi "en" None Fixtures.world
     = (Ok "Short video content without specific context.", Fixtures.world).
Proof.
  assert (H : String.length (PyStr.join " " (map text Samples.hi)) < 10)
    by (cbn; lia).
  split; [exact H | ].
  exact (proj1 (build_context_short_text
                  Fixtures.settings
                  (LLMClient._translate_with_openai Fixtures.settings Fixtures.answering_sdk)
                  (LLMClient._translate_with_gemini Fixtures.settings Fixtures.answering_sdk)
                  _ _ "en" None Fixtures.world H)).
Defined.

(** C8 fails as stated: the string returned for a short text is not the
    literal "short content, no specific context". *)
Lemma short_context_literal_differs :
  String.length (PyStr.join " " (map text Samples.hi)) = 2
  /\ fst (ContextBuilder.build_context
            Fixtures.settings
            (LLMClient._translate_with_openai Fixtures.settings Fixtures.answering_sdk)
            (LLMClient._translate_with_gemini Fixtures.settings Fixtures.answering_sdk)
            Samples.hi "en" None Fixtures.world)
     <> Ok "short content, no specific context".
Proof. split; [reflexivity | cbn; discriminate]. Qed.




(** C10, as the code has it.  For a non-empty list whose joined text has at
    least 10 characters once stripped, and a non-empty provider name other than
    "openai" and "gemini", [build_context] returns the word-count sentence in an
    unchanged world: the "Unknown provider" error is raised and caught inside,
    and no provider is called. *)
Theorem build_context_unknown_provider
        (settings : Settings)
        (gateway_openai gateway_gemini : string -> string -> string -> string -> M string)
        (first : Segment) (rest : list Segment)
        (source p : string) (w : World) :
  (String.length (PyStr.strip (PyStr.join " " (map text (first :: rest)))) <? 10)%nat
  = false ->
  p <> EmptyString -> p <> "openai" -> p <> "gemini" ->
  ContextBuilder.build_context settings gateway_openai gateway_gemini
                               (first :: rest) source (Some p) w
  = (Ok ("Content in " ++ source ++ " language. Length: approximately "
         ++ PyStr.of_nat
              (List.length (PyStr.split (PyStr.join " " (map text (first :: rest)))))
         ++ " words."), w).
Proof.
  intros Hlen H0 H1 H2.
  rewrite (build_context_long _ _ _ _ _ _ _ _ Hlen).
  now rewrite (bind_ok _ _ _ _ _
                 (generate_unknown_provider settings gateway_openai gateway_gemini
                    _ source p w H0 H1 H2)).
Qed.

Lemma build_context_unknown_provider_witness :
  "claude" <> EmptyString /\ "claude" <> "openai" /\ "claude" <> "gemini"
  /\ ContextBuilder.build_context
       Fixtures.settings
       (LLMClient._translate_with_openai Fixtures.settings Fixtures.answering_sdk)
       (LLMClient._translate_with_gemini Fixtures.settings Fixtures.answering_sdk)
       Samples.tutorial "en" (Some "claude") Fixtures.world
     = (Ok "Content in en language. Length: approximately 13 words.", Fixtures.world).
Proof.
  assert (H0 : "claude" <> EmptyString) by discriminate.
  assert (H1 : "claude" <> "openai") by discriminate.
  assert (H2 : "claude" <> "gemini") by discriminate.
  split; [exact H0 | split; [exact H1 | split; [exact H2 | ]]].
  exact (build_context_unknown_provider
           Fixtures.settings
           (LLMClient._translate_with_openai Fixtures.settings Fixtures.answering_sdk)
           (LLMClient._translate_with_gemini Fixtures.settings Fixtures.answering_sdk)
           Samples.welcome [Samples.today] "en" "claude" Fixtures.world
           eq_refl H0 H1 H2).
Defined.

(** C10 fails as stated, twice.  The empty string is a provider name that is
    neither "openai" nor "gemini", yet it selects the default provider, whose
    summary is returned; and ten spaces are a text of 10 characters for which
    the short-text literal is returned, not the word-count sentence. *)
Lemma unknown_provider_fallback_not_always :
  (EmptyString <> "openai" /\ EmptyString <> "gemini"
   /\ 10 <= String.length (PyStr.join " " (map text Samples.tutorial))
   /\ fst (ContextBuilder.build_context
             Fixtures.settings
             (LLMClient._translate_with_openai Fixtures.settings Fixtures.answering_sdk)
             (LLMClient._translate_with_gemini Fixtures.settings Fixtures.answering_sdk)
             Samples.tutorial "en" (Some EmptyString) Fixtures.world)
      = Ok "Hola")
  /\ (10 <= String.length (PyStr.join " " (map text Samples.blank))
      /\ fst (ContextBuilder.build_context
                Fixtures.settings
                (LLMClient._translate_with_openai Fixtures.settings Fixtures.answering_sdk)
                (LLMClient._translate_with_gemini Fixtures.settings Fixtures.answering_sdk)
                Samples.blank "en" (Some "claude") Fixtures.world)
         = Ok "Short video content without specific context.").
Proof.
  split.
  - split; [discriminate | split; [discriminate | split; [cbn; lia | reflexivity]]].
  - split; [cbn; lia | reflexivity].
Qed.

(** ** CSV transcripts *)

(** *** Strings *)

Lemma sapp_nil_r (s : string) : s ++ EmptyString = s.
Proof. induction s; cbn; congruence. Qed.

Lemma sapp_assoc (a b c : string) : (a ++ b) ++ c = a ++ (b ++ c).
Proof. induction a; cbn; congruence. Qed.

Lemma slength_app (a b : string) :
  String.length (a ++ b) = String.length a + String.length b.
Proof. induction a; cbn; congruence. Qed.

Lemma sconcat_cons (x : string) (l : list string) :
  String.concat EmptyString (x :: l) = x ++ String.concat EmptyString l.
Proof. destruct l; cbn; [now rewrite sapp_nil_r | reflexivity]. Qed.

Lemma no_cr_app (a b : string) : no_cr (a ++ b) = no_cr a && no_cr b.
Proof.
  induction a as [| c a IH]; cbn; [reflexivity | ].
  rewrite IH. now rewrite andb_assoc.
Qed.

Lemma no_cr_cons (c : ascii) (a : string) :
  no_cr (String c a) = true -> Ascii.eqb c TextIO.CR = false /\ no_cr a = true.
Proof.
  intros H. change (negb (Ascii.eqb c TextIO.CR) && no_cr a = true) in H.
  apply andb_true_iff in H as [Hc Ha]. apply negb_true_iff in Hc. now split.
Qed.

(** *** Reading with universal newlines *)

Lemma universal_newlines_no_cr (a : string) :
  no_cr a = true -> TextIO.universal_newlines a = a.
Proof.
  induction a as [| c a IH]; intros H; [reflexivity | ].
  apply no_cr_cons in H as [Hc Ha].
  cbn [TextIO.universal_newlines]. rewrite Hc. now rewrite IH.
Qed.

Lemma universal_newlines_crlf (a rest : string) :
  no_cr a = true ->
  TextIO.universal_newlines (a ++ Csv.lineterminator ++ rest)
  = a ++ PyStr.NL ++ TextIO.universal_newlines rest.
Proof.
  induction a as [| c a IH]; intros H.
  - reflexivity.
  - apply no_cr_cons in H as [Hc Ha].
    cbn [append TextIO.universal_newlines]. rewrite Hc. now rewrite IH.
Qed.

(** *** The reader as a stream *)

Lemma stream_app (a b : string) :
  forall r rows,
    stream (a ++ b) r rows
    = match stream a r rows with
      | Ok (r', rows') => stream b r' rows'
      | Err e => Err e
      end.
Proof.
  induction a as [| c a IH]; intros r rows; cbn [append stream]; [reflexivity | ].
  destruct (Csv.parse_process_char r (Some c)) as [r1 | e]; [ | reflexivity].
  destruct (Ascii.eqb c TextIO.LF); [ | apply IH].
  destruct (Csv.parse_process_char r1 None) as [r2 | e]; [ | reflexivity].
  destruct (Csv.at_start_record r2); apply IH.
Qed.

Lemma stream_app_ok (a b : string) (r r1 r2 : Csv.Reader)
      (rows rows1 rows2 : list (list string)) :
  stream a r rows = Ok (r1, rows1) ->
  stream b r1 rows1 = Ok (r2, rows2) ->
  stream (a ++ b) r rows = Ok (r2, rows2).
Proof. intros Ha Hb. now rewrite stream_app, Ha. Qed.

(** Characters already read on the current line can be skipped. *)
Lemma feed_after_stream (cur : string) :
  forall r0 r rows line,
    no_lf cur = true ->
    stream cur r0 rows = Ok (r, rows) ->
    Csv.feed r0 (cur ++ line) = Csv.feed r line.
Proof.
  induction cur as [| c cur IH]; intros r0 r rows line Hlf H.
  - cbn in H. now injection H as ->.
  - change (negb (Ascii.eqb c TextIO.LF) && no_lf cur = true) in Hlf.
    apply andb_true_iff in Hlf as [Hc Hcur]. apply negb_true_iff in Hc.
    cbn [append stream Csv.feed] in *.
    destruct (Csv.parse_process_char r0 (Some c)) as [r1 | e]; [ | discriminate].
    rewrite Hc in H. now apply (IH r1 r rows).
Qed.

Lemma stream_rows_grow (s : string) :
  forall r rows r' rows',
    stream s r rows = Ok (r', rows') -> exists more, rows' = (rows ++ more)%list.
Proof.
  induction s as [| c s IH]; intros r rows r' rows' H; cbn [stream] in H.
  - injection H as _ <-. exists []. now rewrite app_nil_r.
  - destruct (Csv.parse_process_char r (Some c)) as [r1 | e]; [ | discriminate].
    destruct (Ascii.eqb c TextIO.LF); [ | now apply (IH r1 rows r')].
    destruct (Csv.parse_process_char r1 None) as [r2 | e]; [ | discriminate].
    destruct (Csv.at_start_record r2).
    + apply IH in H as [more ->]. exists (Csv.fields r2 :: more).
      now rewrite <- app_assoc.
    + now apply (IH r2 rows r').
Qed.

Lemma no_lf_snoc (cur : string) (c : ascii) :
  no_lf cur = true -> Ascii.eqb c TextIO.LF = false ->
  no_lf (cur ++ String c EmptyString) = true.
Proof.
  intros Hcur Hc. induction cur as [| d cur IH]; cbn [append no_lf] in *.
  - now rewrite Hc.
  - apply andb_true_iff in Hcur as [Hd Hcur]. rewrite Hd. now apply IH.
Qed.

Lemma reader_from_stream (s : string) :
  forall cur r0 r rows r' rows',
    no_lf cur = true ->
    stream cur r0 rows = Ok (r, rows) ->
    (s = EmptyString -> cur = EmptyString) ->
    lf_terminated s = true ->
    stream s r rows = Ok (r', rows') ->
    Csv.reader_from (TextIO.readlines_aux s cur) r0 rows
    = Csv.reader_from [] r' rows'.
Proof.
  induction s as [| c s IH]; intros cur r0 r rows r' rows' Hlf Hcur Hend Hterm H.
  - rewrite (Hend eq_refl) in *. cbn in Hcur, H |- *.
    injection Hcur as ->. now injection H as -> ->.
  - cbn [stream] in H. cbn [TextIO.readlines_aux].
    destruct (Csv.parse_process_char r (Some c)) as [r1 | e] eqn:E1; [ | discriminate].
    destruct (Ascii.eqb c TextIO.LF) eqn:Ec.
    + destruct (Csv.parse_process_char r1 None) as [r2 | e] eqn:E2; [ | discriminate].
      cbn [Csv.reader_from].
      rewrite (feed_after_stream cur r0 r rows _ Hlf Hcur).
      cbn [Csv.feed]. rewrite E1. cbn [Csv.feed]. rewrite E2.
      assert (Hs : lf_terminated s = true).
      { destruct s; [reflexivity | exact Hterm]. }
      destruct (Csv.at_start_record r2).
      * apply (IH EmptyString Csv.parse_reset Csv.parse_reset); auto.
      * apply (IH EmptyString r2 r2); auto.
    + assert (Hne : s <> EmptyString).
      { intros ->. change (Ascii.eqb c TextIO.LF = true) in Hterm. congruence. }
      apply (IH (cur ++ String c EmptyString) r0 r1); auto.
      * now apply no_lf_snoc.
      * rewrite stream_app, Hcur. cbn [stream]. now rewrite E1, Ec.
      * intros ->. contradiction.
      * destruct s; [contradiction | exact Hterm].
Qed.

(** *** The reader as an iterator

    When the whole file can be read, the iteration yields the records of
    [list(csv.reader(lines))], and no error. *)

Lemma records_from_read (lines : list string) :
  forall (r : Csv.Reader) (rows all : list (list string)),
    Csv.reader_from lines r rows = Ok all ->
    exists yielded,
      Csv.records_from lines r = (yielded, None) /\ all = (rows ++ yielded)%list.
Proof.
  induction lines as [| line rest IH]; intros r rows all H;
    cbn [Csv.reader_from Csv.records_from] in *.
  - destruct (negb (String.eqb (Csv.field r) EmptyString) || Csv.in_quoted_field r);
      inversion H; eexists; split; try reflexivity.
    now rewrite app_nil_r.
  - destruct (Csv.feed r line) as [r' | e]; [ | discriminate H].
    destruct (Csv.at_start_record r').
    + destruct (IH _ _ _ H) as (yielded & Hy & Hall). rewrite Hy.
      eexists. split; [reflexivity | ]. now rewrite Hall, <- app_assoc.
    + exact (IH _ _ _ H).
Qed.

Lemma records_of_dict_reader (lines : list string) (rows : list Csv.Row) :
  Csv.DictReader lines = Ok rows ->
  exists yielded,
    Csv.records lines = (yielded, None) /\ Csv.dict_rows yielded = rows.
Proof.
  unfold Csv.DictReader, Csv.reader, Csv.records. intros H.
  destruct (Csv.reader_from lines Csv.parse_reset []) as [all | e] eqn:E;
    [ | discriminate H].
  destruct (records_from_read lines _ _ _ E) as (yielded & Hy & Hall).
  cbn [app] in Hall. subst all. exists yielded. split; [exact Hy | ].
  destruct yielded as [| fieldnames others]; now inversion H.
Qed.

(** *** One record, field by field *)

Lemma special_false (c : ascii) :
  Csv.special c = false ->
  Ascii.eqb c Csv.delimiter = false /\ Ascii.eqb c Csv.quotechar = false
  /\ Ascii.eqb c TextIO.CR = false /\ Ascii.eqb c TextIO.LF = false.
Proof.
  unfold Csv.special. intros H.
  apply orb_false_iff in H as [H H4]. apply orb_false_iff in H as [H H3].
  apply orb_false_iff in H as [H1 H2]. now repeat split.
Qed.

Lemma needs_quoting_cons (c : ascii) (p : string) :
  Csv.needs_quoting (String c p) = false ->
  Csv.special c = false /\ Csv.needs_quoting p = false.
Proof.
  change (Csv.needs_quoting (String c p)) with (Csv.special c || Csv.needs_quoting p).
  apply orb_false_iff.
Qed.

Lemma plain_no_cr (p : string) : Csv.needs_quoting p = false -> no_cr p = true.
Proof.
  induction p as [| c p IH]; intros H; [reflexivity | ].
  apply needs_quoting_cons in H as [Hc Hp].
  apply special_false in Hc as (_ & _ & Hcr & _).
  change (negb (Ascii.eqb c TextIO.CR) && no_cr p = true).
  rewrite Hcr. now apply IH.
Qed.

Lemma parse_add_char_ok (st : Csv.ParserState) (f : string) (fs : list string)
      (c : ascii) :
  (Z.of_nat (String.length f) < Csv.field_limit)%Z ->
  Csv.parse_add_char {| Csv.state := st; Csv.field := f; Csv.fields := fs |} c
  = Ok {| Csv.state := st; Csv.field := f ++ String c EmptyString; Csv.fields := fs |}.
Proof.
  intros H. unfold Csv.parse_add_char. cbn [Csv.field Csv.state Csv.fields].
  destruct (Z.leb_spec Csv.field_limit (Z.of_nat (String.length f))); [lia | reflexivity].
Qed.

Ltac char_facts H :=
  let Hd := fresh "Hd" in
  let Hq := fresh "Hq" in
  let Hcr := fresh "Hcr" in
  let Hlf := fresh "Hlf" in
  apply special_false in H as (Hd & Hq & Hcr & Hlf).

(** Plain characters go to the field being read. *)
Lemma stream_in_field (p : string) :
  forall f fs rows,
    Csv.needs_quoting p = false ->
    (Z.of_nat (String.length f + String.length p) <= Csv.field_limit)%Z ->
    stream p {| Csv.state := Csv.IN_FIELD; Csv.field := f; Csv.fields := fs |} rows
    = Ok ({| Csv.state := Csv.IN_FIELD; Csv.field := f ++ p; Csv.fields := fs |}, rows).
Proof.
  induction p as [| c p IH]; intros f fs rows Hp Hlen.
  - cbn. now rewrite sapp_nil_r.
  - apply needs_quoting_cons in Hp as [Hc Hp]. char_facts Hc.
    cbn [stream String.length] in *.
    unfold Csv.parse_process_char, Csv.is_newline. cbn [Csv.state].
    rewrite Hlf, Hcr, Hd. cbn [orb].
    rewrite parse_add_char_ok by lia.
    rewrite IH; [ | assumption | rewrite slength_app; cbn; lia].
    now rewrite sapp_assoc.
Qed.

(** A plain field read from the start of a record or of a field. *)
Lemma stream_plain_start (p : string) (st : Csv.ParserState) (fs : list string)
      (rows : list (list string)) :
  st = Csv.START_RECORD \/ st = Csv.START_FIELD ->
  Csv.needs_quoting p = false ->
  (Z.of_nat (String.length p) <= Csv.field_limit)%Z ->
  stream p {| Csv.state := st; Csv.field := EmptyString; Csv.fields := fs |} rows
  = Ok ({| Csv.state := match p with EmptyString => st | _ => Csv.IN_FIELD end;
           Csv.field := p; Csv.fields := fs |}, rows).
Proof.
  intros Hst Hp Hlen. destruct p as [| c p]; [reflexivity | ].
  apply needs_quoting_cons in Hp as [Hc Hp]. char_facts Hc.
  cbn [stream String.length] in *.
  assert (E : Csv.parse_process_char
                {| Csv.state := st; Csv.field := EmptyString; Csv.fields := fs |} (Some c)
              = Ok {| Csv.state := Csv.IN_FIELD; Csv.field := String c EmptyString;
                      Csv.fields := fs |}).
  { destruct Hst as [-> | ->];
      unfold Csv.parse_process_char, Csv.is_newline, Csv.set_state;
      cbn [Csv.state Csv.field Csv.fields]; rewrite Hlf, Hcr, Hq, Hd; cbn [orb];
      rewrite parse_add_char_ok by (cbn; lia); reflexivity. }
  rewrite E, Hlf. rewrite stream_in_field; [reflexivity | assumption | cbn; lia].
Qed.

(** The delimiter closes the field. *)
Lemma stream_delimiter (st : Csv.ParserState) (f : string) (fs : list string)
      (rows : list (list string)) :
  st = Csv.IN_FIELD
  \/ (f = EmptyString /\ (st = Csv.START_RECORD \/ st = Csv.START_FIELD)) ->
  stream (String Csv.delimiter EmptyString)
         {| Csv.state := st; Csv.field := f; Csv.fields := fs |} rows
  = Ok ({| Csv.state := Csv.START_FIELD; Csv.field := EmptyString;
           Csv.fields := (fs ++ [f])%list |}, rows).
Proof.
  intros [-> | [-> [-> | ->]]]; reflexivity.
Qed.

Lemma stream_plain_field (p : string) (st : Csv.ParserState) (fs : list string)
      (rows : list (list string)) :
  st = Csv.START_RECORD \/ st = Csv.START_FIELD ->
  Csv.needs_quoting p = false ->
  (Z.of_nat (String.length p) <= Csv.field_limit)%Z ->
  stream (p ++ String Csv.delimiter EmptyString)
         {| Csv.state := st; Csv.field := EmptyString; Csv.fields := fs |} rows
  = Ok ({| Csv.state := Csv.START_FIELD; Csv.field := EmptyString;
           Csv.fields := (fs ++ [p])%list |}, rows).
Proof.
  intros Hst Hp Hlen.
  rewrite stream_app, (stream_plain_start p st fs rows Hst Hp Hlen).
  apply stream_delimiter. destruct p; [right | left]; auto.
Qed.

(** Inside the quotes every character is kept, a doubled quote counting for
    one, and a line feed does not end the record. *)
Lemma stream_in_quotes (t : string) :
  forall f fs rows,
    (Z.of_nat (String.length f + String.length t) <= Csv.field_limit)%Z ->
    stream (Csv.double_quotes t)
           {| Csv.state := Csv.IN_QUOTED_FIELD; Csv.field := f; Csv.fields := fs |} rows
    = Ok ({| Csv.state := Csv.IN_QUOTED_FIELD; Csv.field := f ++ t; Csv.fields := fs |},
          rows).
Proof.
  induction t as [| c t IH]; intros f fs rows Hlen.
  - cbn. now rewrite sapp_nil_r.
  - cbn [Csv.double_quotes String.length] in *.
    assert (Hnext :
      stream (Csv.double_quotes t)
             {| Csv.state := Csv.IN_QUOTED_FIELD; Csv.field := f ++ String c EmptyString;
                Csv.fields := fs |} rows
      = Ok ({| Csv.state := Csv.IN_QUOTED_FIELD; Csv.field := f ++ String c t;
               Csv.fields := fs |}, rows)).
    { rewrite IH; [ | rewrite slength_app; cbn; lia]. now rewrite sapp_assoc. }
    destruct (Ascii.eqb c Csv.quotechar) eqn:Eq.
    + apply Ascii.eqb_eq in Eq. subst c.
      cbn [stream]. unfold Csv.parse_process_char at 1. cbn [Csv.state].
      change (Ascii.eqb Csv.quotechar Csv.quotechar) with true. cbv iota.
      change (Ascii.eqb Csv.quotechar TextIO.LF) with false. cbv iota.
      unfold Csv.set_state, Csv.parse_process_char. cbn [Csv.state Csv.field Csv.fields].
      change (Ascii.eqb Csv.quotechar Csv.quotechar) with true. cbv iota.
      rewrite parse_add_char_ok by lia. exact Hnext.
    + cbn [stream]. unfold Csv.parse_process_char at 1. cbn [Csv.state].
      rewrite Eq. rewrite parse_add_char_ok by lia.
      destruct (Ascii.eqb c TextIO.LF); [ | exact Hnext].
      cbn [Csv.parse_process_char Csv.state Csv.at_start_record]. exact Hnext.
Qed.

(** The last field of a record and the line feed after it. *)
Lemma stream_last_field (t : string) (fs : list string) (rows : list (list string)) :
  (Z.of_nat (String.length t) <= Csv.field_limit)%Z ->
  stream (Csv.write_field t ++ PyStr.NL)
         {| Csv.state := Csv.START_FIELD; Csv.field := EmptyString; Csv.fields := fs |}
         rows
  = Ok (Csv.parse_reset, (rows ++ [(fs ++ [t])%list])%list).
Proof.
  intros Hlen. unfold Csv.write_field.
  destruct (Csv.needs_quoting t) eqn:Hq.
  - change (String Csv.quotechar (Csv.double_quotes t ++ String Csv.quotechar EmptyString)
            ++ PyStr.NL)
      with (String Csv.quotechar
              ((Csv.double_quotes t ++ String Csv.quotechar EmptyString) ++ PyStr.NL)).
    rewrite sapp_assoc.
    cbn [stream]. 
    change (Csv.parse_process_char
              {| Csv.state := Csv.START_FIELD; Csv.field := EmptyString; Csv.fields := fs |}
              (Some Csv.quotechar))
      with (Ok {| Csv.state := Csv.IN_QUOTED_FIELD; Csv.field := EmptyString;
                  Csv.fields := fs |}).
    change (Ascii.eqb Csv.quotechar TextIO.LF) with false. cbv iota.
    rewrite stream_app, stream_in_quotes by (cbn; lia).
    reflexivity.
  - rewrite stream_app.
    rewrite (stream_plain_start t Csv.START_FIELD fs rows (or_intror eq_refl) Hq Hlen).
    destruct t; reflexivity.
Qed.

(** A record of three fields, the first two written without quotes. *)
Lemma stream_record (a b t : string) (rows : list (list string)) :
  Csv.needs_quoting a = false -> Csv.needs_quoting b = false ->
  (Z.of_nat (String.length a) <= Csv.field_limit)%Z ->
  (Z.of_nat (String.length b) <= Csv.field_limit)%Z ->
  (Z.of_nat (String.length t) <= Csv.field_limit)%Z ->
  stream (a ++ String Csv.delimiter EmptyString
            ++ b ++ String Csv.delimiter EmptyString
            ++ Csv.write_field t ++ PyStr.NL)
         Csv.parse_reset rows
  = Ok (Csv.parse_reset, (rows ++ [[a; b; t]])%list).
Proof.
  intros Ha Hb La Lb Lt.
  rewrite <- sapp_assoc.
  rewrite stream_app.
  unfold Csv.parse_reset at 1.
  rewrite (stream_plain_field a Csv.START_RECORD [] rows (or_introl eq_refl) Ha La).
  rewrite <- sapp_assoc, stream_app.
  rewrite (stream_plain_field b Csv.START_FIELD _ rows (or_intror eq_refl) Hb Lb).
  now rewrite stream_last_field.
Qed.

(** *** The whole file *)

Lemma writerow_three (a b t : string) :
  Csv.writerow [a; b; t]
  = (Csv.write_field a ++ String Csv.delimiter EmptyString
       ++ Csv.write_field b ++ String Csv.delimiter EmptyString
       ++ Csv.write_field t)
    ++ Csv.lineterminator.
Proof. destruct a; reflexivity. Qed.

Lemma write_field_plain (p : string) :
  Csv.needs_quoting p = false -> Csv.write_field p = p.
Proof. intros H. unfold Csv.write_field. now rewrite H. Qed.

Lemma no_cr_double_quotes (t : string) :
  no_cr t = true -> no_cr (Csv.double_quotes t) = true.
Proof.
  induction t as [| c t IH]; intros H; [reflexivity | ].
  apply no_cr_cons in H as [Hc Ht]. cbn [Csv.double_quotes].
  destruct (Ascii.eqb c Csv.quotechar);
    repeat (change (no_cr (String c ?s)) with (negb (Ascii.eqb c TextIO.CR) && no_cr s));
    rewrite Hc; cbn [negb andb]; auto.
Qed.

Lemma no_cr_write_field (t : string) :
  no_cr t = true -> no_cr (Csv.write_field t) = true.
Proof.
  intros H. unfold Csv.write_field. destruct (Csv.needs_quoting t); [ | exact H].
  change (no_cr (Csv.double_quotes t ++ String Csv.quotechar EmptyString) = true).
  rewrite no_cr_app, no_cr_double_quotes by exact H. reflexivity.
Qed.

Lemma lf_terminated_line (a rest : string) :
  lf_terminated rest = true -> lf_terminated (a ++ PyStr.NL ++ rest) = true.
Proof.
  intros H. induction a as [| c a IH].
  - destruct rest; [reflexivity | exact H].
  - cbn [append]. cbn [append] in IH.
    destruct (a ++ PyStr.NL ++ rest) eqn:E; [ | exact IH].
    destruct a; discriminate.
Qed.

Lemma regroup (a d b t nl body : string) :
  (a ++ d ++ b ++ d ++ t) ++ nl ++ body = (a ++ d ++ b ++ d ++ t ++ nl) ++ body.
Proof. now rewrite !sapp_assoc. Qed.

Section RoundTrip.

Variable py_str : spec_float -> string.
Variable py_float : string -> option spec_float.

(** The three fields written for a segment. *)
Let record_of (s : Segment) : list string :=
  [py_str (start s); py_str (end_ s); text s].

Let survives (s : Segment) : Prop :=
  prints_back py_str py_float (start s)
  /\ prints_back py_str py_float (end_ s)
  /\ storable (text s).

Lemma stream_body (segments : list Segment) :
  Forall survives segments ->
  forall rows,
  exists body,
    TextIO.universal_newlines
      (String.concat EmptyString (map (fun s => Csv.writerow (record_of s)) segments))
    = body
    /\ lf_terminated body = true
    /\ stream body Csv.parse_reset rows
       = Ok (Csv.parse_reset, (rows ++ map record_of segments)%list).
Proof.
  induction 1 as [| s rest Hs Hrest IH]; intros rows.
  - exists EmptyString. cbn. now rewrite app_nil_r.
  - destruct Hs as ((Ha & La & _) & (Hb & Lb & _) & (Ht & Lt)).
    destruct (IH (rows ++ [record_of s])%list) as (body & Hu & Hterm & Hstream).
    cbn [map]. rewrite sconcat_cons. unfold record_of at 1.
    rewrite writerow_three, (write_field_plain _ Ha), (write_field_plain _ Hb).
    rewrite sapp_assoc, universal_newlines_crlf.
    2:{ rewrite !no_cr_app, (plain_no_cr _ Ha), (plain_no_cr _ Hb),
                (no_cr_write_field _ Ht). reflexivity. }
    rewrite Hu. eexists. split; [reflexivity | split].
    + now apply lf_terminated_line.
    + rewrite regroup, stream_app.
      rewrite (stream_record _ _ _ rows Ha Hb La Lb Lt).
      change [py_str (start s); py_str (end_ s); text s] with (record_of s).
      rewrite Hstream. now rewrite <- app_assoc.
Qed.

Lemma filter_records (segments : list Segment) :
  filter (fun row : list string => match row with [] => false | _ => true end)
         (map record_of segments)
  = map record_of segments.
Proof. induction segments as [| s rest IH]; cbn; [reflexivity | now rewrite IH]. Qed.

Lemma load_rows_records (segments : list Segment) :
  Forall survives segments ->
  forall loaded,
    Transcriber.load_rows py_float
      (map (Csv.zip_row Transcriber.fieldnames) (map record_of segments)) loaded
    = Ok (loaded ++ map as_loaded segments)%list.
Proof.
  induction 1 as [| s rest Hs Hrest IH]; intros loaded.
  - cbn. now rewrite app_nil_r.
  - destruct Hs as ((_ & _ & Ea) & (_ & _ & Eb) & _).
    cbn [map Transcriber.load_rows].
    unfold Transcriber.float_of, Transcriber.text_of. cbn.
    rewrite Ea, Eb. fold record_of. rewrite IH. now rewrite <- app_assoc.
Qed.

End RoundTrip.

Lemma header_stream :
  stream ("start_time,end_time,text" ++ PyStr.NL) Csv.parse_reset []
  = Ok (Csv.parse_reset, [Transcriber.fieldnames]).
Proof. reflexivity. Qed.

Section SaveLoad.

Variable py_str : spec_float -> string.
Variable py_float : string -> option spec_float.

Let survives (s : Segment) : Prop :=
  prints_back py_str py_float (start s)
  /\ prints_back py_str py_float (end_ s)
  /\ storable (text s).

Lemma save_writes (first : Segment) (rest : list Segment) (path : string) (w : World) :
  Transcriber.save_transcript_to_csv py_str (first :: rest) path w
  = (Ok path,
     {| requests := requests w;
        files := fun p => if String.eqb p path
                          then Some (Transcriber.written py_str (first :: rest))
                          else files w p |}).
Proof. reflexivity. Qed.

Lemma read_written (segments : list Segment) :
  Forall survives segments ->
  Csv.DictReader
    (TextIO.readlines (TextIO.universal_newlines (Transcriber.written py_str segments)))
  = Ok (map (Csv.zip_row Transcriber.fieldnames)
            (map (fun s => [py_str (start s); py_str (end_ s); text s]) segments)).
Proof.
  intros Hall. unfold Transcriber.written.
  change (Csv.writerow Transcriber.fieldnames ++ ?body)
    with ("start_time,end_time,text" ++ Csv.lineterminator ++ body).
  rewrite universal_newlines_crlf by reflexivity.
  destruct (stream_body py_str py_float segments Hall [Transcriber.fieldnames])
    as (body & Hu & Hterm & Hstream).
  rewrite Hu.
  unfold Csv.DictReader, Csv.reader, TextIO.readlines.
  rewrite (reader_from_stream _ EmptyString Csv.parse_reset Csv.parse_reset []
             Csv.parse_reset
             (Transcriber.fieldnames
              :: map (fun s => [py_str (start s); py_str (end_ s); text s]) segments)).
  - cbn [Csv.reader_from Csv.parse_reset Csv.field Csv.in_quoted_field Csv.state
         String.eqb negb orb].
    now rewrite (filter_records py_str).
  - reflexivity.
  - reflexivity.
  - discriminate.
  - now apply lf_terminated_line.
  - rewrite <- sapp_assoc, stream_app, header_stream. exact Hstream.
Qed.

Lemma load_reads (segments : list Segment) (path : string) (w : World) :
  Forall survives segments ->
  files w path = Some (Transcriber.written py_str segments) ->
  Transcriber.load_transcript_from_csv py_float path w
  = (Ok (map as_loaded segments), w).
Proof.
  intros Hall Hfile.
  unfold Transcriber.load_transcript_from_csv, bind, FileHandler.file_exists.
  rewrite Hfile. cbn [negb].
  unfold try_except, TextIO.read_text, lift. rewrite Hfile.
  destruct (records_of_dict_reader _ _ (read_written segments Hall))
    as (yielded & Hy & Hrows).
  rewrite Hy, Hrows.
  now rewrite (load_rows_records py_str py_float segments Hall []).
Qed.

End SaveLoad.




(** A carriage return in a text does not survive: the file is written with
    [newline=''] and read without it, and the text comes back with a line
    feed in its place. *)
Lemma carriage_return_not_preserved :
  exists w1,
    Transcriber.save_transcript_to_csv
      Fixtures.py_str [Samples.with_carriage_return] "transcript.csv" Fixtures.world
    = (Ok "transcript.csv", w1)
    /\ fst (Transcriber.load_transcript_from_csv Fixtures.py_float "transcript.csv" w1)
       = Ok [ {| start := Prim2SF 0.0; end_ := Prim2SF 1.0;
                 text := "a" ++ PyStr.NL ++ "b"; translated_text := None |} ].
Proof. eexists. split; reflexivity. Qed.

(** ** Timestamps *)

Section Timestamps.

Local Open Scope Z_scope.

(** *** Binary64 rounding on exact inputs *)

Lemma digits2_pos_bounds (p : positive) :
  2 ^ (Zpos (digits2_pos p) - 1) <= Zpos p < 2 ^ Zpos (digits2_pos p).
Proof.
  induction p as [p IH | p IH | ]; cbn [digits2_pos].
  - rewrite Pos2Z.inj_succ.
    replace (Z.succ (Zpos (digits2_pos p)) - 1) with (Z.succ (Zpos (digits2_pos p) - 1)) by lia.
    rewrite !Z.pow_succ_r by lia. lia.
  - rewrite Pos2Z.inj_succ.
    replace (Z.succ (Zpos (digits2_pos p)) - 1) with (Z.succ (Zpos (digits2_pos p) - 1)) by lia.
    rewrite !Z.pow_succ_r by lia. lia.
  - cbn. lia.
Qed.

Lemma digits2_pos_unique (p : positive) (d : Z) :
  2 ^ (d - 1) <= Zpos p < 2 ^ d -> Zpos (digits2_pos p) = d.
Proof.
  intros [Hlo Hhi]. pose proof (digits2_pos_bounds p) as [Blo Bhi].
  set (k := Zpos (digits2_pos p)) in *.
  assert (0 < k) by (unfold k; lia).
  destruct (Z.lt_trichotomy k d) as [Hlt | [Heq | Hgt]]; [ | exact Heq | ].
  - assert (2 ^ k <= 2 ^ (d - 1)) by (apply Z.pow_le_mono_r; lia). lia.
  - assert (0 <= d).
    { destruct (Z.le_gt_cases 0 d); [assumption | ].
      rewrite (Z.pow_neg_r 2 d) in Hhi by lia. lia. }
    assert (2 ^ d <= 2 ^ (k - 1)) by (apply Z.pow_le_mono_r; lia). lia.
Qed.

Lemma digits2_pos_shift (m : positive) (k : Z) :
  0 <= k ->
  forall p, Zpos p = Zpos m * 2 ^ k ->
  Zpos (digits2_pos p) = Zpos (digits2_pos m) + k.
Proof.
  intros Hk p Hp. apply digits2_pos_unique.
  pose proof (digits2_pos_bounds m) as [Blo Bhi].
  rewrite Hp.
  replace (Zpos (digits2_pos m) + k - 1) with ((Zpos (digits2_pos m) - 1) + k) by lia.
  rewrite !Z.pow_add_r by lia.
  assert (0 < 2 ^ k) by (apply Z.pow_pos_nonneg; lia).
  split; nia.
Qed.

Lemma iter_pos_nat {A} (f : A -> A) (p : positive) :
  forall x, iter_pos f p x = Nat.iter (Pos.to_nat p) f x.
Proof.
  induction p as [p IH | p IH | ]; intros x; cbn [iter_pos].
  - rewrite !IH, Pos2Nat.inj_xI.
    replace (S (2 * Pos.to_nat p))%nat with (Pos.to_nat p + (Pos.to_nat p + 1))%nat by lia.
    rewrite !Nat.iter_add. reflexivity.
  - rewrite !IH, Pos2Nat.inj_xO.
    replace (2 * Pos.to_nat p)%nat with (Pos.to_nat p + Pos.to_nat p)%nat by lia.
    now rewrite Nat.iter_add.
  - reflexivity.
Qed.

Lemma shr_1_even (q : positive) :
  shr_1 {| shr_m := Zpos q~0; shr_r := false; shr_s := false |}
  = {| shr_m := Zpos q; shr_r := false; shr_s := false |}.
Proof. reflexivity. Qed.

Lemma shr_exact (k : nat) :
  forall m p : positive,
    Zpos p = Zpos m * 2 ^ Z.of_nat k ->
    Nat.iter k shr_1 {| shr_m := Zpos p; shr_r := false; shr_s := false |}
    = {| shr_m := Zpos m; shr_r := false; shr_s := false |}.
Proof.
  induction k as [| k IH]; intros m p Hp.
  - cbn in *. f_equal. lia.
  - rewrite Nat.iter_succ_r.
    rewrite Nat2Z.inj_succ, Z.pow_succ_r in Hp by lia.
    destruct p as [p | p | ]; try lia.
    rewrite shr_1_even. apply IH. lia.
Qed.

Lemma fexp_eq (z : Z) : fexp 53 1024 z = Z.max (z - 53) (-1074).
Proof. reflexivity. Qed.

Lemma bounded_spec (m : positive) (e : Z) :
  bounded 53 1024 m e = true <->
  Z.max (Zpos (digits2_pos m) + e - 53) (-1074) = e /\ e <= 971.
Proof.
  unfold bounded, canonical_mantissa. rewrite fexp_eq.
  rewrite andb_true_iff, Z.eqb_eq, Z.leb_le. reflexivity.
Qed.

Lemma shr_fexp_exact (p m : positive) (e E : Z) :
  e <= E ->
  Zpos p = Zpos m * 2 ^ (E - e) ->
  bounded 53 1024 m E = true ->
  shr_fexp 53 1024 (Zpos p) e loc_Exact
  = ({| shr_m := Zpos m; shr_r := false; shr_s := false |}, E).
Proof.
  intros Hle Hp Hb. apply bounded_spec in Hb as [Hc _].
  unfold shr_fexp. cbn [Zdigits2 shr_record_of_loc].
  rewrite (digits2_pos_shift m (E - e) ltac:(lia) p Hp), fexp_eq.
  replace (Zpos (digits2_pos m) + (E - e) + e - 53)
    with (Zpos (digits2_pos m) + E - 53) by lia.
  rewrite Hc. unfold shr.
  destruct (E - e) as [| k | k] eqn:Ek; try lia.
  - rewrite Z.pow_0_r in Hp. f_equal; [ | lia]. f_equal. lia.
  - rewrite iter_pos_nat, (shr_exact (Pos.to_nat k) m p).
    + f_equal. lia.
    + now rewrite positive_nat_Z.
Qed.

Lemma binary_round_aux_exact (s : bool) (p m : positive) (e E : Z) :
  e <= E ->
  Zpos p = Zpos m * 2 ^ (E - e) ->
  bounded 53 1024 m E = true ->
  binary_round_aux 53 1024 s (Zpos p) e loc_Exact = S754_finite s m E.
Proof.
  intros Hle Hp Hb. unfold binary_round_aux.
  rewrite (shr_fexp_exact p m e E Hle Hp Hb).
  cbn [shr_m loc_of_shr_record round_nearest_even].
  rewrite (shr_fexp_exact m m E E); [ | lia | rewrite Z.sub_diag; lia | exact Hb].
  cbn [shr_m]. apply bounded_spec in Hb as [_ Hb].
  apply Z.leb_le in Hb. change (1024 - 53) with 971. now rewrite Hb.
Qed.

Lemma iter_xO (p k : positive) : Zpos (Pos.iter xO p k) = Zpos p * 2 ^ Zpos k.
Proof.
  induction k as [| k IH] using Pos.peano_ind.
  - cbn. lia.
  - rewrite Pos.iter_succ, Pos2Z.inj_succ, Z.pow_succ_r by lia.
    change (Zpos (Pos.iter xO p k)~0) with (2 * Zpos (Pos.iter xO p k)). lia.
Qed.

Lemma same_ticks_shift (a b x y : Z) :
  0 <= y -> y <= x ->
  a * 2 ^ x = b * 2 ^ y -> b = a * 2 ^ (x - y).
Proof.
  intros Hy Hxy H.
  replace x with ((x - y) + y) in H by lia.
  rewrite Z.pow_add_r, Z.mul_assoc in H by lia.
  apply Z.mul_reg_r in H; [lia | ].
  assert (0 < 2 ^ y) by (apply Z.pow_pos_nonneg; lia). lia.
Qed.

(** The float of [Zpos p * 2^e], when [Zpos m * 2^E] is its canonical form. *)
Lemma binary_round_exact (s : bool) (p m : positive) (e E : Z) :
  Zpos p * 2 ^ (e + 1074) = Zpos m * 2 ^ (E + 1074) ->
  -1074 <= e ->
  bounded 53 1024 m E = true ->
  binary_round 53 1024 s p e = S754_finite s m E.
Proof.
  intros Hv He Hb. pose proof Hb as Hb'. apply bounded_spec in Hb' as [Hc HE].
  assert (HE' : -1074 <= E) by lia.
  unfold binary_round, shl_align. rewrite fexp_eq.
  assert (Hd : Zpos (digits2_pos p) + e = Zpos (digits2_pos m) + E).
  { destruct (Z.le_gt_cases e E).
    - assert (Zpos p = Zpos m * 2 ^ (E - e)).
      { replace (E - e) with ((E + 1074) - (e + 1074)) by lia.
        apply same_ticks_shift; [lia | lia | now symmetry]. }
      rewrite (digits2_pos_shift m (E - e) ltac:(lia) p); lia.
    - assert (Zpos m = Zpos p * 2 ^ (e - E)).
      { replace (e - E) with ((e + 1074) - (E + 1074)) by lia.
        apply same_ticks_shift; [lia | lia | exact Hv]. }
      rewrite (digits2_pos_shift p (e - E) ltac:(lia) m); lia. }
  rewrite Hd, Hc.
  destruct (E - e) as [| k | k] eqn:Ek.
  - apply binary_round_aux_exact; [lia | | exact Hb].
    replace (E - e) with ((E + 1074) - (e + 1074)) by lia.
    apply same_ticks_shift; [lia | lia | now symmetry].
  - apply binary_round_aux_exact; [lia | | exact Hb].
    replace (E - e) with ((E + 1074) - (e + 1074)) by lia.
    apply same_ticks_shift; [lia | lia | now symmetry].
  - apply binary_round_aux_exact; [lia | | exact Hb].
    rewrite Z.sub_diag, Z.pow_0_r, iter_xO.
    assert (Zpos m = Zpos p * 2 ^ (e - E)).
    { replace (e - E) with ((e + 1074) - (E + 1074)) by lia.
      apply same_ticks_shift; [lia | lia | exact Hv]. }
    replace (Zpos k) with (e - E) by lia. lia.
Qed.

(** *** Floats as whole numbers of ticks *)

Lemma ticks_finite (m : positive) (e : Z) :
  PyFloat.ticks (S754_finite false m e) = Zpos m * 2 ^ (e + 1074).
Proof. reflexivity. Qed.

Lemma bounded_range (m : positive) (e : Z) :
  bounded 53 1024 m e = true ->
  -1074 <= e <= 971 /\ Zpos m < 2 ^ 53.
Proof.
  intros Hb. apply bounded_spec in Hb as [Hc He].
  pose proof (digits2_pos_bounds m) as [_ Hhi].
  assert (Zpos (digits2_pos m) <= 53) by lia.
  split; [lia | ].
  assert (2 ^ Zpos (digits2_pos m) <= 2 ^ 53) by (apply Z.pow_le_mono_r; lia). lia.
Qed.

(** A number of ticks that is [Zpos r * 2^g] with [r] below 2^53 is a float. *)
Lemma representable (r : positive) (g : Z) :
  Zpos r < 2 ^ 53 -> -1074 <= g <= 971 ->
  exists m E,
    bounded 53 1024 m E = true
    /\ Zpos m * 2 ^ (E + 1074) = Zpos r * 2 ^ (g + 1074).
Proof.
  intros Hr Hg.
  pose proof (digits2_pos_bounds r) as [Blo Bhi].
  set (d := Zpos (digits2_pos r)) in *.
  assert (Hd : d <= 53).
  { destruct (Z.le_gt_cases d 53); [assumption | ].
    assert (2 ^ 53 <= 2 ^ (d - 1)) by (apply Z.pow_le_mono_r; lia). lia. }
  set (E := Z.max (d + g - 53) (-1074)).
  assert (HE : E <= g) by (unfold E; lia).
  assert (Hpos : 0 < Zpos r * 2 ^ (g - E)).
  { assert (0 < 2 ^ (g - E)) by (apply Z.pow_pos_nonneg; lia). lia. }
  destruct (Zpos r * 2 ^ (g - E)) as [| m | m] eqn:Em; try lia.
  exists m, E. split.
  - apply bounded_spec.
    rewrite (digits2_pos_shift r (g - E) ltac:(lia) m) by (symmetry; exact Em).
    fold d. unfold E. lia.
  - rewrite <- Em, <- Z.mul_assoc, <- Z.pow_add_r by (unfold E; lia).
    do 2 f_equal. lia.
Qed.

Lemma of_ticks_exact (n : Z) (m : positive) (E : Z) :
  bounded 53 1024 m E = true ->
  Zpos m * 2 ^ (E + 1074) = n ->
  PyFloat.of_ticks n = S754_finite false m E.
Proof.
  intros Hb Hn.
  assert (0 < n).
  { pose proof (bounded_range m E Hb).
    assert (0 < 2 ^ (E + 1074)) by (apply Z.pow_pos_nonneg; lia). lia. }
  unfold PyFloat.of_ticks, binary_normalize.
  destruct n as [| p | p]; try lia.
  apply binary_round_exact; [ | lia | exact Hb].
  change (-1074 + 1074) with 0. rewrite Z.pow_0_r. lia.
Qed.

Lemma of_ticks_float (m : positive) (e : Z) :
  bounded 53 1024 m e = true ->
  PyFloat.of_ticks (PyFloat.ticks (S754_finite false m e)) = S754_finite false m e.
Proof. intros Hb. now apply of_ticks_exact. Qed.

(** The value of a finite non-negative float is a float again after [fmod]. *)
Lemma mod_representable (mx mw : positive) (ex ew : Z) :
  bounded 53 1024 mx ex = true ->
  bounded 53 1024 mw ew = true ->
  let r := (Zpos mx * 2 ^ (ex + 1074)) mod (Zpos mw * 2 ^ (ew + 1074)) in
  0 < r ->
  exists m E, bounded 53 1024 m E = true /\ Zpos m * 2 ^ (E + 1074) = r.
Proof.
  intros Hx Hw r Hr.
  destruct (bounded_range _ _ Hx) as [Hex Hmx].
  destruct (bounded_range _ _ Hw) as [Hew Hmw].
  set (g := Z.min ex ew).
  set (A := Zpos mx * 2 ^ (ex - g)).
  set (B := Zpos mw * 2 ^ (ew - g)).
  assert (HA : Zpos mx * 2 ^ (ex + 1074) = A * 2 ^ (g + 1074)).
  { unfold A. rewrite <- Z.mul_assoc, <- Z.pow_add_r by (unfold g; lia).
    do 2 f_equal. lia. }
  assert (HB : Zpos mw * 2 ^ (ew + 1074) = B * 2 ^ (g + 1074)).
  { unfold B. rewrite <- Z.mul_assoc, <- Z.pow_add_r by (unfold g; lia).
    do 2 f_equal. lia. }
  assert (Hc : 0 < 2 ^ (g + 1074)) by (apply Z.pow_pos_nonneg; unfold g; lia).
  assert (HBpos : 0 < B).
  { unfold B. assert (0 < 2 ^ (ew - g)) by (apply Z.pow_pos_nonneg; unfold g; lia). lia. }
  assert (HApos : 0 < A).
  { unfold A. assert (0 < 2 ^ (ex - g)) by (apply Z.pow_pos_nonneg; unfold g; lia). lia. }
  assert (Er : r = (A mod B) * 2 ^ (g + 1074)).
  { unfold r. rewrite HA, HB. apply Z.mul_mod_distr_r; lia. }
  pose proof (Z.mod_pos_bound A B HBpos) as [Hlo Hhi].
  pose proof (Z.mod_le A B ltac:(lia) HBpos) as HleA.
  assert (Hsmall : A mod B < 2 ^ 53).
  { destruct (Z.le_ge_cases ex ew).
    - assert (g = ex) by (unfold g; lia).
      assert (A = Zpos mx) by (unfold A; replace (ex - g) with 0 by lia; lia). lia.
    - assert (g = ew) by (unfold g; lia).
      assert (B = Zpos mw) by (unfold B; replace (ew - g) with 0 by lia; lia). lia. }
  destruct (A mod B) as [| r' | r'] eqn:Er'; try lia.
  destruct (representable r' g Hsmall ltac:(unfold g; lia)) as (m & E & Hb & Hv).
  exists m, E. split; [exact Hb | ]. now rewrite Hv, Er.
Qed.

Lemma fmod_finite (mx mw : positive) (ex ew : Z) :
  bounded 53 1024 mx ex = true ->
  bounded 53 1024 mw ew = true ->
  let x := S754_finite false mx ex in
  let w := S754_finite false mw ew in
  let r := PyFloat.ticks x mod PyFloat.ticks w in
  (r = 0 /\ PyFloat.fmod x w = S754_zero false)
  \/ (exists m E, PyFloat.fmod x w = S754_finite false m E
                  /\ bounded 53 1024 m E = true
                  /\ PyFloat.ticks (S754_finite false m E) = r).
Proof.
  intros Hx Hw x w r.
  destruct (bounded_range _ _ Hx) as [Hex Hmx].
  destruct (bounded_range _ _ Hw) as [Hew Hmw].
  assert (Hxp : 0 < PyFloat.ticks x).
  { unfold x. rewrite ticks_finite.
    assert (0 < 2 ^ (ex + 1074)) by (apply Z.pow_pos_nonneg; lia). lia. }
  assert (Hwp : 0 < PyFloat.ticks w).
  { unfold w. rewrite ticks_finite.
    assert (0 < 2 ^ (ew + 1074)) by (apply Z.pow_pos_nonneg; lia). lia. }
  assert (Hrem : Z.rem (PyFloat.ticks x) (PyFloat.ticks w) = r).
  { apply Z.rem_mod_nonneg; lia. }
  unfold PyFloat.fmod. fold x w. rewrite Hrem.
  pose proof (Z.mod_pos_bound (PyFloat.ticks x) (PyFloat.ticks w) Hwp) as [Hlo Hhi].
  fold r in Hlo, Hhi.
  destruct (Z.eqb_spec r 0) as [E0 | N0].
  - left. now split.
  - right.
    assert (Hr : 0 < (Zpos mx * 2 ^ (ex + 1074)) mod (Zpos mw * 2 ^ (ew + 1074)))
      by (change (0 < r); lia).
    destruct (mod_representable mx mw ex ew Hx Hw Hr) as (m & E & Hb & Hv).
    exists m, E. split; [ | split; [exact Hb | ] ].
    + apply of_ticks_exact; [exact Hb | exact Hv].
    + rewrite ticks_finite. exact Hv.
Qed.

Lemma same_value_digits (p m : positive) (e E : Z) :
  Zpos p * 2 ^ (e + 1074) = Zpos m * 2 ^ (E + 1074) ->
  -1074 <= e -> -1074 <= E ->
  Zpos (digits2_pos p) + e = Zpos (digits2_pos m) + E.
Proof.
  intros Hv He HE. destruct (Z.le_gt_cases e E).
  - assert (Zpos p = Zpos m * 2 ^ (E - e)).
    { replace (E - e) with ((E + 1074) - (e + 1074)) by lia.
      apply same_ticks_shift; [lia | lia | now symmetry]. }
    rewrite (digits2_pos_shift m (E - e) ltac:(lia) p); lia.
  - assert (Zpos m = Zpos p * 2 ^ (e - E)).
    { replace (e - E) with ((e + 1074) - (E + 1074)) by lia.
      apply same_ticks_shift; [lia | lia | exact Hv]. }
    rewrite (digits2_pos_shift p (e - E) ltac:(lia) m); lia.
Qed.

Lemma shl_align_value (m : positive) (e e' : Z) :
  e' <= e ->
  Zpos (fst (shl_align m e e')) = Zpos m * 2 ^ (e - e').
Proof.
  intros Hle. unfold shl_align.
  destruct (e' - e) as [| d | d] eqn:Ed; try lia.
  - replace (e - e') with 0 by lia. cbn [fst]. lia.
  - cbn [fst]. rewrite iter_xO. f_equal. f_equal. lia.
Qed.

(** Subtraction is exact when the difference is a float. *)
Lemma sub_exact (mx my m : positive) (ex ey E : Z) :
  bounded 53 1024 mx ex = true ->
  bounded 53 1024 my ey = true ->
  bounded 53 1024 m E = true ->
  Zpos m * 2 ^ (E + 1074)
  = PyFloat.ticks (S754_finite false mx ex) - PyFloat.ticks (S754_finite false my ey) ->
  PyFloat.sub (S754_finite false mx ex) (S754_finite false my ey) = S754_finite false m E.
Proof.
  intros Hx Hy Hb Hv. rewrite !ticks_finite in Hv.
  destruct (bounded_range _ _ Hx) as [Hex _].
  destruct (bounded_range _ _ Hy) as [Hey _].
  destruct (bounded_range _ _ Hb) as [HE _].
  unfold PyFloat.sub, SFsub. cbn [cond_Zopp].
  set (ez := Z.min ex ey).
  rewrite (shl_align_value mx ex ez), (shl_align_value my ey ez) by (unfold ez; lia).
  assert (Hd : (Zpos mx * 2 ^ (ex - ez) - Zpos my * 2 ^ (ey - ez)) * 2 ^ (ez + 1074)
               = Zpos m * 2 ^ (E + 1074)).
  { rewrite Z.mul_sub_distr_r, <- !Z.mul_assoc, <- !Z.pow_add_r by (unfold ez; lia).
    replace (ex - ez + (ez + 1074)) with (ex + 1074) by lia.
    replace (ey - ez + (ez + 1074)) with (ey + 1074) by lia. lia. }
  assert (0 < 2 ^ (ez + 1074)) by (apply Z.pow_pos_nonneg; unfold ez; lia).
  assert (0 < 2 ^ (E + 1074)) by (apply Z.pow_pos_nonneg; lia).
  destruct (Zpos mx * 2 ^ (ex - ez) - Zpos my * 2 ^ (ey - ez)) as [| p | p] eqn:Ep;
    try nia.
  unfold binary_normalize.
  apply binary_round_exact; [exact Hd | unfold ez; lia | exact Hb].
Qed.

Lemma new_location_zero (n : Z) : new_location n 0 = loc_Exact.
Proof. unfold new_location. destruct (Z.even n); reflexivity. Qed.

Lemma pow2_lt_exponent (a b : Z) : 0 <= b -> 2 ^ a < 2 ^ b -> a < b.
Proof.
  intros Hb H. destruct (Z.lt_ge_cases a b) as [ | Hge]; [assumption | ].
  assert (2 ^ b <= 2 ^ a) by (apply Z.pow_le_mono_r; lia). lia.
Qed.

(** Division is exact when the quotient is a whole number below 2^53. *)
Lemma div_exact (mx mw k m : positive) (ex ew E : Z) :
  bounded 53 1024 mx ex = true ->
  bounded 53 1024 mw ew = true ->
  ew <= 0 ->
  PyFloat.ticks (S754_finite false mx ex)
  = Zpos k * PyFloat.ticks (S754_finite false mw ew) ->
  Zpos k < 2 ^ 53 ->
  bounded 53 1024 m E = true ->
  Zpos m * 2 ^ (E + 1074) = Zpos k * 2 ^ 1074 ->
  PyFloat.div (S754_finite false mx ex) (S754_finite false mw ew) = S754_finite false m E.
Proof.
  intros Hx Hw Hew Hv Hk Hb Hm. rewrite !ticks_finite in Hv.
  destruct (bounded_range _ _ Hx) as [Hex Hmx].
  destruct (bounded_range _ _ Hw) as [Hew' Hmw].
  destruct (bounded_range _ _ Hb) as [HE _].
  pose proof (digits2_pos_bounds mx) as [X1 X2].
  pose proof (digits2_pos_bounds mw) as [W1 W2].
  pose proof (digits2_pos_bounds k) as [K1 K2].
  set (d1 := Zpos (digits2_pos mx)) in *.
  set (d2 := Zpos (digits2_pos mw)) in *.
  set (dk := Zpos (digits2_pos k)) in *.
  assert (Hd1 : 0 < d1) by (unfold d1; lia).
  assert (Hd2 : 0 < d2) by (unfold d2; lia).
  assert (Hdk : 0 < dk) by (unfold dk; lia).
  assert (Hdk53 : dk <= 53).
  { destruct (Z.le_gt_cases dk 53); [assumption | ].
    assert (2 ^ 53 <= 2 ^ (dk - 1)) by (apply Z.pow_le_mono_r; lia). lia. }
  (* the canonical exponent of the quotient *)
  assert (HEk : E = dk - 53).
  { assert (Hdig : Zpos (digits2_pos m) + E = dk + 0).
    { apply same_value_digits; [ | lia | lia]. rewrite Hm. reflexivity. }
    apply bounded_spec in Hb as [Hc _]. lia. }
  (* the magnitudes of the dividend and of the divisor *)
  assert (Hmag : d1 + ex <= dk + d2 + ew).
  { assert (P1 : 0 < 2 ^ (ex + 1074)) by (apply Z.pow_pos_nonneg; lia).
    assert (P2 : 0 < 2 ^ (ew + 1074)) by (apply Z.pow_pos_nonneg; lia).
    assert (L : 2 ^ (d1 - 1) * 2 ^ (ex + 1074) <= Zpos mx * 2 ^ (ex + 1074)) by nia.
    assert (U : Zpos k * (Zpos mw * 2 ^ (ew + 1074)) < 2 ^ dk * (2 ^ d2 * 2 ^ (ew + 1074))).
    { assert (Zpos mw * 2 ^ (ew + 1074) < 2 ^ d2 * 2 ^ (ew + 1074)) by nia.
      assert (0 < Zpos mw * 2 ^ (ew + 1074)) by nia.
      assert (0 < 2 ^ dk) by (apply Z.pow_pos_nonneg; lia).
      nia. }
    rewrite <- Z.pow_add_r in L by lia.
    rewrite <- (Z.pow_add_r 2 d2), <- (Z.pow_add_r 2 dk) in U by lia.
    assert (2 ^ (d1 - 1 + (ex + 1074)) < 2 ^ (dk + (d2 + (ew + 1074)))) by lia.
    apply pow2_lt_exponent in H; lia. }
  unfold PyFloat.div, SFdiv, SFdiv_core_binary. cbn [Zdigits2 xorb].
  fold d1 d2. rewrite fexp_eq.
  set (e' := Z.min (Z.max (d1 + ex - (d2 + ew) - 53) (-1074)) (ex - ew)).
  assert (He'0 : e' <= 0) by (unfold e'; lia).
  assert (He'1 : -1074 <= e') by (unfold e'; lia).
  assert (He'E : e' <= E) by (unfold e'; lia).
  set (s := ex - ew - e').
  assert (Hs : 0 <= s) by (unfold s, e'; lia).
  set (m' := match s with Zpos _ => Z.shiftl (Zpos mx) s | 0 => Zpos mx | Zneg _ => 0 end).
  assert (Hm' : m' = Zpos mx * 2 ^ s).
  { unfold m'. destruct s as [| p | p] eqn:Es; try lia.
    rewrite Z.shiftl_mul_pow2 by lia. reflexivity. }
  assert (Hq : m' = (Zpos k * 2 ^ (- e')) * Zpos mw).
  { rewrite Hm'.
    assert (P2 : 0 < 2 ^ (ew + 1074)) by (apply Z.pow_pos_nonneg; lia).
    destruct (Z.le_gt_cases ew ex).
    - assert (Hc : Zpos mx * 2 ^ (ex - ew) = Zpos k * Zpos mw).
      { replace (ex + 1074) with ((ex - ew) + (ew + 1074)) in Hv by lia.
        rewrite (Z.pow_add_r 2 (ex - ew) (ew + 1074)) in Hv by lia.
        apply (Z.mul_reg_r _ _ (2 ^ (ew + 1074))); lia. }
      replace s with ((ex - ew) + (- e')) by (unfold s; lia).
      rewrite Z.pow_add_r, Z.mul_assoc, Hc by lia. lia.
    - assert (P1 : 0 < 2 ^ (ex + 1074)) by (apply Z.pow_pos_nonneg; lia).
      assert (Hc : Zpos mx = Zpos k * Zpos mw * 2 ^ (ew - ex)).
      { replace (ew + 1074) with ((ew - ex) + (ex + 1074)) in Hv by lia.
        rewrite (Z.pow_add_r 2 (ew - ex) (ex + 1074)) in Hv by lia.
        apply (Z.mul_reg_r _ _ (2 ^ (ex + 1074))); lia. }
      replace (- e') with ((ew - ex) + s) by (unfold s; lia).
      rewrite Z.pow_add_r, Hc by lia. lia. }
  assert (Hdiv : Z.div_eucl m' (Zpos mw) = (Zpos k * 2 ^ (- e'), 0)).
  { assert (Hpair : Z.div_eucl m' (Zpos mw) = (m' / Zpos mw, m' mod Zpos mw)).
    { unfold Z.div, Z.modulo. now destruct (Z.div_eucl m' (Zpos mw)). }
    rewrite Hpair, Hq, Z.div_mul, Z.mod_mul by lia. reflexivity. }
  rewrite Hdiv, new_location_zero.
  assert (Hqpos : 0 < Zpos k * 2 ^ (- e')).
  { assert (0 < 2 ^ (- e')) by (apply Z.pow_pos_nonneg; lia). lia. }
  destruct (Zpos k * 2 ^ (- e')) as [| q | q] eqn:Eq; try lia.
  apply binary_round_aux_exact; [exact He'E | | exact Hb].
  replace (E - e') with ((E + 1074) - (e' + 1074)) by lia.
  apply same_ticks_shift; [lia | lia | ].
  rewrite Hm, <- Eq, <- Z.mul_assoc, <- Z.pow_add_r by lia.
  do 2 f_equal. lia.
Qed.

(** *** The operations of [format_timestamp] on non-negative floats *)

Lemma tick_pos : 0 < PyFloat.tick.
Proof. unfold PyFloat.tick. apply Z.pow_pos_nonneg; lia. Qed.

Lemma ticks_nonneg (x : spec_float) : nonneg_finite x = true -> 0 <= PyFloat.ticks x.
Proof.
  destruct x as [s | s | | [ | ] m e]; cbn [nonneg_finite]; intros Hb;
    try discriminate Hb.
  - cbn [PyFloat.ticks]. lia.
  - destruct (bounded_range _ _ Hb). rewrite ticks_finite.
    assert (0 < 2 ^ (e + 1074)) by (apply Z.pow_pos_nonneg; lia). lia.
Qed.

Lemma int_nonneg (x : spec_float) :
  nonneg_finite x = true -> PyFloat.int x = Ok (PyFloat.ticks x / PyFloat.tick).
Proof.
  intros Hx. pose proof (ticks_nonneg x Hx). pose proof tick_pos.
  destruct x as [s | s | | s m e]; try discriminate; unfold PyFloat.int;
    (rewrite Z.quot_div_nonneg; [reflexivity | assumption | assumption]).
Qed.

Lemma rem_nonneg (x : spec_float) (mw : positive) (ew : Z) :
  nonneg_finite x = true ->
  bounded 53 1024 mw ew = true ->
  exists r,
    PyFloat.rem x (S754_finite false mw ew) = Ok r
    /\ nonneg_finite r = true
    /\ PyFloat.ticks r = PyFloat.ticks x mod PyFloat.ticks (S754_finite false mw ew).
Proof.
  intros Hx Hw. destruct x as [s | s | | [ | ] mx ex]; try discriminate.
  - exists (S754_zero false). split; [reflexivity | split; [reflexivity | ] ].
    cbn [PyFloat.ticks]. now rewrite Zmod_0_l.
  - cbn [nonneg_finite] in Hx.
    destruct (fmod_finite mx mw ex ew Hx Hw) as [[Hr Hf] | (m & E & Hf & Hb & Hv)].
    + exists (S754_zero false). unfold PyFloat.rem. cbn [PyFloat.nonzero negb].
      rewrite Hf. cbn [PyFloat.nonzero PyFloat.sign_bit]. repeat split.
      cbn [PyFloat.ticks] in *. now rewrite Hr.
    + exists (S754_finite false m E). unfold PyFloat.rem. cbn [PyFloat.nonzero negb].
      rewrite Hf. cbn [PyFloat.nonzero]. repeat split; assumption.
Qed.

Lemma sub_same_ticks (mx my : positive) (ex ey : Z) :
  bounded 53 1024 mx ex = true ->
  bounded 53 1024 my ey = true ->
  PyFloat.ticks (S754_finite false mx ex) = PyFloat.ticks (S754_finite false my ey) ->
  PyFloat.sub (S754_finite false mx ex) (S754_finite false my ey) = S754_zero false.
Proof.
  intros Hx Hy Hv. rewrite !ticks_finite in Hv.
  destruct (bounded_range _ _ Hx) as [Hex _].
  destruct (bounded_range _ _ Hy) as [Hey _].
  unfold PyFloat.sub, SFsub. cbn [cond_Zopp].
  set (ez := Z.min ex ey).
  rewrite (shl_align_value mx ex ez), (shl_align_value my ey ez) by (unfold ez; lia).
  assert (Heq : Zpos mx * 2 ^ (ex - ez) = Zpos my * 2 ^ (ey - ez)).
  { apply (Z.mul_reg_r _ _ (2 ^ (ez + 1074))).
    - assert (0 < 2 ^ (ez + 1074)) by (apply Z.pow_pos_nonneg; unfold ez; lia). lia.
    - rewrite <- !Z.mul_assoc, <- !Z.pow_add_r by (unfold ez; lia).
      replace (ex - ez + (ez + 1074)) with (ex + 1074) by lia.
      replace (ey - ez + (ez + 1074)) with (ey + 1074) by lia. exact Hv. }
  rewrite Heq, Z.sub_diag. reflexivity.
Qed.

Lemma whole_float (k : positive) :
  Zpos k < 2 ^ 53 ->
  exists m E, bounded 53 1024 m E = true /\ Zpos m * 2 ^ (E + 1074) = Zpos k * 2 ^ 1074.
Proof.
  intros Hk. destruct (representable k 0 Hk ltac:(lia)) as (m & E & Hb & Hv).
  exists m, E. split; [exact Hb | exact Hv].
Qed.

Lemma floor_whole (m k : positive) (E : Z) :
  bounded 53 1024 m E = true ->
  Zpos m * 2 ^ (E + 1074) = Zpos k * 2 ^ 1074 ->
  PyFloat.floor (S754_finite false m E) = S754_finite false m E.
Proof.
  intros Hb Hv. unfold PyFloat.floor.
  destruct (0 <=? E); [reflexivity | ].
  rewrite ticks_finite, Hv. unfold PyFloat.tick.
  assert (0 < 2 ^ 1074) by (apply Z.pow_pos_nonneg; lia).
  rewrite Z.div_mul by lia. cbn [Z.eqb].
  apply of_ticks_exact; [exact Hb | exact Hv].
Qed.

Lemma int_whole (m k : positive) (E : Z) :
  bounded 53 1024 m E = true ->
  Zpos m * 2 ^ (E + 1074) = Zpos k * 2 ^ 1074 ->
  PyFloat.int (S754_finite false m E) = Ok (Zpos k).
Proof.
  intros Hb Hv. rewrite int_nonneg by exact Hb.
  rewrite ticks_finite, Hv. unfold PyFloat.tick.
  assert (0 < 2 ^ 1074) by (apply Z.pow_pos_nonneg; lia).
  now rewrite Z.div_mul by lia.
Qed.

(** What [floor_div] does with a quotient that is a positive whole number. *)
Lemma floor_div_snap (m k : positive) (E : Z) :
  bounded 53 1024 m E = true ->
  Zpos m * 2 ^ (E + 1074) = Zpos k * 2 ^ 1074 ->
  (if SFltb PyFloat.half
            (PyFloat.sub (S754_finite false m E) (PyFloat.floor (S754_finite false m E)))
   then PyFloat.add (PyFloat.floor (S754_finite false m E)) PyFloat.one
   else PyFloat.floor (S754_finite false m E))
  = S754_finite false m E.
Proof.
  intros Hb Hv. rewrite (floor_whole m k E Hb Hv).
  now rewrite (sub_same_ticks m m E E Hb Hb eq_refl).
Qed.

Lemma negative_finite_pos (m : positive) (e : Z) :
  PyFloat.negative (S754_finite false m e) = false.
Proof. reflexivity. Qed.

Lemma floor_div_nonneg (x : spec_float) (mw W : positive) (ew : Z) :
  nonneg_finite x = true ->
  bounded 53 1024 mw ew = true ->
  ew <= 0 ->
  PyFloat.ticks (S754_finite false mw ew) = Zpos W * PyFloat.tick ->
  PyFloat.ticks x < 2 ^ 53 * PyFloat.tick ->
  exists q,
    PyFloat.floor_div x (S754_finite false mw ew) = Ok q
    /\ PyFloat.int q = Ok (PyFloat.ticks x / PyFloat.ticks (S754_finite false mw ew)).
Proof.
  intros Hx Hw Hew HW Hlt. pose proof tick_pos as Htick.
  set (w := S754_finite false mw ew) in *.
  destruct x as [s | s | | [ | ] mx ex]; try discriminate.
  - (* zero *)
    exists (S754_zero s). split.
    + destruct s; reflexivity.
    + rewrite int_nonneg by reflexivity. cbn [PyFloat.ticks]. now rewrite !Zdiv_0_l.
  - cbn [nonneg_finite] in Hx.
    set (x := S754_finite false mx ex) in *.
    assert (Hn : 0 < PyFloat.ticks x).
    { unfold x. rewrite ticks_finite. destruct (bounded_range _ _ Hx).
      assert (0 < 2 ^ (ex + 1074)) by (apply Z.pow_pos_nonneg; lia). lia. }
    assert (HWt : 0 < PyFloat.ticks w) by (rewrite HW; lia).
    pose proof (Z.div_mod (PyFloat.ticks x) (PyFloat.ticks w) ltac:(lia)) as Hdm.
    pose proof (Z.mod_pos_bound (PyFloat.ticks x) (PyFloat.ticks w) HWt) as [Hr0 Hr1].
    pose proof (Z.div_pos (PyFloat.ticks x) (PyFloat.ticks w) ltac:(lia) HWt) as Hk0.
    set (n := PyFloat.ticks x) in *.
    set (k := n / PyFloat.ticks w) in *.
    set (r := n mod PyFloat.ticks w) in *.
    (* the quotient is below 2^53 *)
    assert (Hk53 : k < 2 ^ 53).
    { assert (k * PyFloat.tick <= n).
      { rewrite HW in Hdm. nia. }
      nia. }
    unfold PyFloat.floor_div. change (negb (PyFloat.nonzero w)) with false. cbv iota.
    destruct (fmod_finite mx mw ex ew Hx Hw) as [[Hr Hf] | (mr & Er & Hf & Hbr & Hvr)];
      fold x w in Hf; rewrite Hf.
    + (* the division leaves no remainder *)
      fold x w n r in Hr.
      assert (Hkpos : 0 < k) by nia.
      destruct k as [| kp | kp] eqn:Ek; try lia.
      destruct (whole_float kp Hk53) as (m & E & Hb & Hv).
      exists (S754_finite false m E). split; [ | exact (int_whole m kp E Hb Hv)].
      change (PyFloat.sub x (S754_zero false)) with x.
      pose proof (div_exact mx mw kp m ex ew E Hx Hw Hew ltac:(fold x w n; lia)
                            Hk53 Hb Hv) as Hdiv.
      fold x w in Hdiv. rewrite Hdiv.
      cbn [PyFloat.nonzero andb].
      cbv zeta. now rewrite (floor_div_snap m kp E Hb Hv).
    + fold x w n r in Hvr. cbn [PyFloat.nonzero andb].
      change (PyFloat.negative w) with false.
      change (PyFloat.negative (S754_finite false mr Er)) with false.
      cbn [xorb]. cbv iota.
      destruct k as [| kp | kp] eqn:Ek; try lia.
      * (* the dividend is smaller than the divisor *)
        assert (Hnr : PyFloat.ticks x = PyFloat.ticks (S754_finite false mr Er)).
        { fold n. lia. }
        pose proof (sub_same_ticks mx mr ex Er Hx Hbr Hnr) as Hsub.
        fold x in Hsub. rewrite Hsub.
        eexists. split; [reflexivity | ].
        rewrite int_nonneg by reflexivity. cbn [PyFloat.ticks]. now rewrite Zdiv_0_l.
      * assert (Ht : Zpos (kp * W) * 2 ^ 1074 = n - r).
        { rewrite Pos2Z.inj_mul. fold PyFloat.tick. rewrite HW in Hdm. lia. }
        assert (HkW : Zpos (kp * W) < 2 ^ 53).
        { fold PyFloat.tick in Ht. nia. }
        destruct (whole_float (kp * W)%positive HkW) as (mt & Et & Hbt & Hvt).
        destruct (whole_float kp Hk53) as (m & E & Hb & Hv).
        exists (S754_finite false m E). split; [ | exact (int_whole m kp E Hb Hv)].
        assert (Hsub : PyFloat.sub x (S754_finite false mr Er) = S754_finite false mt Et).
        { apply (sub_exact mx mr mt ex Er Et Hx Hbr Hbt).
          rewrite Hvt, Ht. fold x. fold n. now rewrite Hvr. }
        assert (Hdiv : PyFloat.div (S754_finite false mt Et) w = S754_finite false m E).
        { apply (div_exact mt mw kp m Et ew E Hbt Hw Hew); [ | exact Hk53 | exact Hb | exact Hv].
          rewrite ticks_finite, Hvt, Ht. fold w. rewrite HW.
          rewrite HW in Hdm. lia. }
        rewrite Hsub, Hdiv.
        cbn [PyFloat.nonzero].
        cbv zeta. now rewrite (floor_div_snap m kp E Hb Hv).
Qed.

(** *** Shifting a mantissa *)

Lemma shr_1_bounds (r : shr_record) :
  0 <= shr_m r -> 0 <= shr_m (shr_1 r) <= shr_m r.
Proof.
  destruct r as [m rr ss]. cbn [shr_m]. intros Hm.
  destruct m as [| [p | p | ] | p]; cbn [shr_1 shr_m]; lia.
Qed.

Lemma iter_shr_1_bounds (k : nat) (r : shr_record) :
  0 <= shr_m r -> 0 <= shr_m (Nat.iter k shr_1 r) <= shr_m r.
Proof.
  intros Hr. induction k as [| k IH]; [cbn; lia | ].
  change (Nat.iter (S k) shr_1 r) with (shr_1 (Nat.iter k shr_1 r)).
  pose proof (shr_1_bounds (Nat.iter k shr_1 r) ltac:(lia)). lia.
Qed.

Lemma Zdigits2_le (z d : Z) : 0 <= z < 2 ^ d -> 0 <= d -> Zdigits2 z <= d.
Proof.
  intros [Hz Hd] Hd0. destruct z as [| p | p]; cbn [Zdigits2]; try lia.
  pose proof (digits2_pos_bounds p) as [Hlo _].
  destruct (Z.le_gt_cases (Zpos (digits2_pos p)) d); [assumption | ].
  assert (2 ^ d <= 2 ^ (Zpos (digits2_pos p) - 1)) by (apply Z.pow_le_mono_r; lia). lia.
Qed.

(** *** The shifted mantissa and the rounding digit *)

Lemma shr_1_value (r : shr_record) :
  0 <= shr_m r ->
  shr_m (shr_1 r) = shr_m r / 2 /\ shr_r (shr_1 r) = Z.odd (shr_m r).
Proof.
  destruct r as [m rr ss]. cbn [shr_m]. intros Hm.
  destruct m as [| [p | p | ] | p]; cbn [shr_1 shr_m shr_r]; try lia;
    (split; [ | reflexivity]).
  - reflexivity.
  - apply (Z.div_unique _ 2 _ 1); lia.
  - apply (Z.div_unique _ 2 _ 0); lia.
  - reflexivity.
Qed.

Lemma iter_shr_1_value (k : nat) (r : shr_record) :
  0 <= shr_m r ->
  shr_m (Nat.iter k shr_1 r) = shr_m r / 2 ^ Z.of_nat k.
Proof.
  intros Hr. induction k as [| k IH]; [cbn; now rewrite Z.div_1_r | ].
  change (Nat.iter (S k) shr_1 r) with (shr_1 (Nat.iter k shr_1 r)).
  pose proof (iter_shr_1_bounds k r Hr) as Hb.
  destruct (shr_1_value (Nat.iter k shr_1 r) ltac:(lia)) as [Hv _].
  rewrite Hv, IH, Nat2Z.inj_succ, Z.pow_succ_r by lia.
  assert (0 < 2 ^ Z.of_nat k) by (apply Z.pow_pos_nonneg; lia).
  rewrite Z.div_div by lia. f_equal. lia.
Qed.

Lemma iter_shr_1_digit (k : nat) (r : shr_record) :
  0 <= shr_m r ->
  shr_r (Nat.iter (S k) shr_1 r) = Z.odd (shr_m r / 2 ^ Z.of_nat k).
Proof.
  intros Hr.
  change (Nat.iter (S k) shr_1 r) with (shr_1 (Nat.iter k shr_1 r)).
  pose proof (iter_shr_1_bounds k r Hr) as Hb.
  destruct (shr_1_value (Nat.iter k shr_1 r) ltac:(lia)) as [_ Hd].
  now rewrite Hd, iter_shr_1_value.
Qed.

Lemma shr_fexp_value (m e : Z) :
  0 <= m ->
  let '(mrs, e') := shr_fexp 53 1024 m e loc_Exact in
  e' = Z.max e (fexp 53 1024 (Zdigits2 m + e))
  /\ shr_m mrs = m / 2 ^ (e' - e)
  /\ (shr_r mrs = true -> e < e' /\ Z.odd (m / 2 ^ (e' - e - 1)) = true).
Proof.
  intros Hm. unfold shr_fexp, shr. cbn [shr_record_of_loc].
  destruct (fexp 53 1024 (Zdigits2 m + e) - e) as [| k | k] eqn:En.
  - cbn [shr_m shr_r]. replace (e - e) with 0 by lia.
    rewrite Z.div_1_r. repeat split; try lia; discriminate.
  - rewrite iter_pos_nat.
    replace (e + Zpos k - e) with (Z.of_nat (Pos.to_nat k)) by lia.
    rewrite iter_shr_1_value by (cbn [shr_m]; lia). cbn [shr_m].
    split; [lia | split; [reflexivity | ] ].
    intros Hr. split; [lia | ].
    destruct (Pos.to_nat k) as [| k'] eqn:Ek; [lia | ].
    rewrite iter_shr_1_digit in Hr by (cbn [shr_m]; lia). cbn [shr_m] in Hr.
    replace (Z.of_nat (S k') - 1) with (Z.of_nat k') by lia. exact Hr.
  - cbn [shr_m shr_r]. replace (e - e) with 0 by lia.
    rewrite Z.div_1_r. repeat split; try lia; discriminate.
Qed.

Lemma round_nearest_even_cases (mrs : shr_record) :
  round_nearest_even (shr_m mrs) (loc_of_shr_record mrs) = shr_m mrs
  \/ (shr_r mrs = true
      /\ round_nearest_even (shr_m mrs) (loc_of_shr_record mrs) = shr_m mrs + 1).
Proof.
  destruct mrs as [m [ | ] [ | ] ]; cbn [loc_of_shr_record round_nearest_even shr_m shr_r].
  - right. split; reflexivity.
  - destruct (Z.even m); [now left | right; split; reflexivity].
  - now left.
  - now left.
Qed.

(** Rounding up happens past the middle only: it adds at most half a unit
    of the last place. *)
Lemma round_up_half (m d : Z) :
  0 <= m -> 0 < d -> Z.odd (m / 2 ^ (d - 1)) = true ->
  (m / 2 ^ d + 1) * 2 ^ d <= m + 2 ^ d / 2.
Proof.
  intros Hm Hd Hodd.
  assert (Hp : 0 < 2 ^ (d - 1)) by (apply Z.pow_pos_nonneg; lia).
  assert (E : 2 ^ d = 2 ^ (d - 1) * 2).
  { replace d with (Z.succ (d - 1)) at 1 by lia. rewrite Z.pow_succ_r by lia. lia. }
  rewrite E. rewrite <- Z.div_div by lia. rewrite Z.div_mul by lia.
  set (a := m / 2 ^ (d - 1)) in *.
  assert (Ha : a * 2 ^ (d - 1) <= m).
  { unfold a. rewrite Z.mul_comm. apply Z.mul_div_le. lia. }
  assert (Ea : a = 2 * (a / 2) + 1).
  { pose proof (Z.div_mod a 2 ltac:(lia)) as Hdm. now rewrite Zmod_odd, Hodd in Hdm. }
  nia.
Qed.

(** What rounding a positive mantissa gives: the mantissa is cut at the
    exponent the format asks for, moved up by at most one there, and by no
    more than half a unit of the last place. *)
Lemma binary_round_aux_value (s : bool) (p : positive) (e : Z) :
  exists m1 e2,
    let e1 := Z.max e (fexp 53 1024 (Zdigits2 (Zpos p) + e)) in
    Zpos p / 2 ^ (e1 - e) <= m1
    /\ m1 * 2 ^ (e1 - e) <= Zpos p + 2 ^ (e1 - e) / 2
    /\ e2 = Z.max e1 (fexp 53 1024 (Zdigits2 m1 + e1))
    /\ binary_round_aux 53 1024 s (Zpos p) e loc_Exact =
       match m1 / 2 ^ (e2 - e1) with
       | 0 => S754_zero s
       | Zpos m => if e2 <=? 971 then S754_finite s m e2 else S754_infinity s
       | Zneg _ => S754_nan
       end.
Proof.
  unfold binary_round_aux.
  pose proof (shr_fexp_value (Zpos p) e ltac:(lia)) as H1.
  destruct (shr_fexp 53 1024 (Zpos p) e loc_Exact) as [mrs1 e1].
  destruct H1 as (He1 & Hm1 & Hr1).
  set (m1 := round_nearest_even (shr_m mrs1) (loc_of_shr_record mrs1)).
  assert (Hpow : 0 < 2 ^ (e1 - e)) by (apply Z.pow_pos_nonneg; lia).
  assert (Hlo : 0 <= shr_m mrs1) by (rewrite Hm1; apply Z.div_pos; lia).
  assert (Hm : Zpos p / 2 ^ (e1 - e) <= m1
               /\ m1 * 2 ^ (e1 - e) <= Zpos p + 2 ^ (e1 - e) / 2).
  { destruct (round_nearest_even_cases mrs1) as [Hsame | [Hr Hup] ]; fold m1 in Hsame || fold m1 in Hup.
    - rewrite Hsame, Hm1. split; [lia | ].
      pose proof (Z.mul_div_le (Zpos p) (2 ^ (e1 - e)) Hpow).
      assert (0 <= 2 ^ (e1 - e) / 2) by (apply Z.div_pos; lia). lia.
    - rewrite Hup, Hm1. split; [lia | ].
      destruct (Hr1 Hr) as [Hlt Hodd].
      apply round_up_half; [lia | lia | exact Hodd]. }
  pose proof (shr_fexp_value m1 e1 ltac:(lia)) as H2.
  destruct (shr_fexp 53 1024 m1 e1 loc_Exact) as [mrs2 e2].
  destruct H2 as (He2 & Hm2 & _).
  exists m1, e2. cbv zeta. rewrite <- He1.
  repeat split; try tauto. rewrite Hm2. reflexivity.
Qed.

(** *** Milliseconds *)

(** The arithmetic of [int(frac * 1000)] on a fraction [mx / A]: [c] is the
    mantissa of 1000.0, [Dd] the unit the product is rounded to and [B1] the
    number of such units in 1. *)
Lemma milliseconds_arith (mx m1 A Dd B1 c' : Z) :
  0 < A -> 0 < Dd -> 0 < B1 -> 0 < c' -> 0 < mx < A ->
  Dd * B1 = c' * A -> Dd / 2 < 1000 * c' ->
  mx * (1000 * c') / Dd <= m1 ->
  m1 * Dd <= mx * (1000 * c') + Dd / 2 ->
  1000 * mx / A <= m1 / B1 <= 1000 * mx / A + 1 /\ m1 / B1 <= 999.
Proof.
  intros HA HD HB Hc Hmx Hunit Hhalf Hlo Hhi.
  assert (HF : mx * (1000 * c') / Dd / B1 = 1000 * mx / A).
  { rewrite Z.div_div by lia. rewrite Hunit.
    replace (mx * (1000 * c')) with (1000 * mx * c') by lia.
    rewrite (Z.mul_comm c' A). apply Z.div_mul_cancel_r; lia. }
  rewrite <- HF. repeat split.
  - apply Z.div_le_mono; lia.
  - assert (Hm : m1 - 1 <= mx * (1000 * c') / Dd).
    { apply Z.div_le_lower_bound; [lia | ].
      assert (Dd / 2 < Dd) by (apply Z.div_lt; lia). lia. }
    transitivity ((mx * (1000 * c') / Dd + 1 * B1) / B1).
    + apply Z.div_le_mono; lia.
    + rewrite Z.div_add by lia. lia.
  - assert (m1 / B1 < 1000); [ | lia].
    apply Z.div_lt_upper_bound; [lia | ].
    apply (Z.mul_lt_mono_pos_r Dd); [lia | ].
    replace (B1 * 1000 * Dd) with (1000 * (Dd * B1)) by lia. rewrite Hunit. nia.
Qed.

Lemma pow2_pos (k : Z) : 0 <= k -> 0 < 2 ^ k.
Proof. intros Hk. apply Z.pow_pos_nonneg; lia. Qed.

Lemma pow2_split (a b : Z) : 0 <= a -> 0 <= b -> 2 ^ (a + b) = 2 ^ a * 2 ^ b.
Proof. intros Ha Hb. now apply Z.pow_add_r. Qed.

(** Whole ticks per tick, for a mantissa at a non-positive exponent. *)
Lemma ticks_div_tick (m e : Z) :
  -1074 <= e <= 0 -> m * 2 ^ (e + 1074) / PyFloat.tick = m / 2 ^ (- e).
Proof.
  intros He. unfold PyFloat.tick.
  assert (E : 2 ^ 1074 = 2 ^ (- e) * 2 ^ (e + 1074)).
  { rewrite <- pow2_split by lia. f_equal. lia. }
  rewrite E.
  apply Z.div_mul_cancel_r; apply Z.neq_sym, Z.lt_neq, pow2_pos; lia.
Qed.

Lemma mul_milliseconds (frac : spec_float) :
  nonneg_finite frac = true ->
  PyFloat.ticks frac < PyFloat.tick ->
  exists millis,
    PyFloat.int (PyFloat.mul frac SRTGenerator.float_1000) = Ok millis
    /\ 1000 * PyFloat.ticks frac / PyFloat.tick <= millis
       <= 1000 * PyFloat.ticks frac / PyFloat.tick + 1
    /\ millis <= 999.
Proof.
  intros Hf Hlt. destruct frac as [s | s | | [ | ] mx ex]; try discriminate.
  - exists 0. split; [reflexivity | ]. cbn [PyFloat.ticks].
    rewrite Z.mul_0_r, Z.div_0_l by (pose proof tick_pos; lia). lia.
  - cbn [nonneg_finite] in Hf. destruct (bounded_range _ _ Hf) as [Hex Hmx].
    rewrite ticks_finite in *.
    assert (Hex0 : ex < 0).
    { unfold PyFloat.tick in Hlt. destruct (Z.lt_ge_cases ex 0); [assumption | ].
      assert (2 ^ 1074 <= 2 ^ (ex + 1074)) by (apply Z.pow_le_mono_r; lia).
      assert (0 < 2 ^ 1074) by (apply pow2_pos; lia). nia. }
    assert (HA : Zpos mx < 2 ^ (- ex)).
    { apply (Z.mul_lt_mono_pos_r (2 ^ (ex + 1074))); [apply pow2_pos; lia | ].
      rewrite <- pow2_split by lia. replace (- ex + (ex + 1074)) with 1074 by lia.
      exact Hlt. }
    replace (1000 * (Zpos mx * 2 ^ (ex + 1074))) with (1000 * Zpos mx * 2 ^ (ex + 1074)) by lia.
    rewrite ticks_div_tick by lia.
    unfold PyFloat.mul, SRTGenerator.float_1000, SFmul. cbn [xorb].
    change PyFloat.prec with 53. change PyFloat.emax with 1024.
    set (c' := 2 ^ 43).
    assert (Hc' : 0 < c') by (apply pow2_pos; lia).
    set (e := ex + -43).
    destruct (binary_round_aux_value false (mx * 8796093022208000) e)
      as (m1 & e2 & Hlo & Hhi & He2 & Hres).
    rewrite Hres. clear Hres.
    set (M := Zpos (mx * 8796093022208000)) in *.
    assert (HM : M = Zpos mx * (1000 * c')) by (unfold M, c'; rewrite Pos2Z.inj_mul; reflexivity).
    set (e1 := Z.max e (fexp 53 1024 (Zdigits2 M + e))) in *.
    assert (Hd106 : Zdigits2 M <= 106).
    { apply Zdigits2_le; [ | lia]. rewrite HM.
      replace 106 with (53 + 53) by lia. rewrite pow2_split by lia.
      assert (1000 * c' < 2 ^ 53) by reflexivity. nia. }
    assert (Hd10 : Zdigits2 M <= 10 - e).
    { apply Zdigits2_le; [ | lia]. rewrite HM.
      replace (10 - e) with (- ex + 53) by lia. rewrite pow2_split by lia.
      assert (1000 * c' < 2 ^ 53) by reflexivity. nia. }
    assert (Ee1 : e1 = Z.max e (Z.max (Zdigits2 M + e - 53) (-1074))) by reflexivity.
    clearbody e1.
    assert (He1 : e <= e1 <= -43 /\ -1074 <= e1 /\ e1 - e <= 53) by lia.
    assert (HD : 0 < 2 ^ (e1 - e)) by (apply pow2_pos; lia).
    assert (HB : 0 < 2 ^ (- e1)) by (apply pow2_pos; lia).
    assert (Hunit : 2 ^ (e1 - e) * 2 ^ (- e1) = c' * 2 ^ (- ex)).
    { unfold c'. rewrite <- !pow2_split by lia. f_equal. lia. }
    assert (Hhalf : 2 ^ (e1 - e) / 2 < 1000 * c').
    { assert (2 ^ (e1 - e) <= 2 ^ 53) by (apply Z.pow_le_mono_r; lia).
      assert (2 ^ 53 / 2 < 1000 * c') by reflexivity.
      assert (2 ^ (e1 - e) / 2 <= 2 ^ 53 / 2) by (apply Z.div_le_mono; lia). lia. }
    rewrite HM in Hlo, Hhi.
    destruct (milliseconds_arith (Zpos mx) m1 (2 ^ (- ex)) (2 ^ (e1 - e)) (2 ^ (- e1)) c')
      as [Hrange H999]; try assumption; try lia.
    assert (Hm1 : 0 <= m1).
    { assert (0 <= Zpos mx * (1000 * c') / 2 ^ (e1 - e)) by (apply Z.div_pos; lia). lia. }
    assert (Hdm1 : Zdigits2 m1 <= 10 - e1).
    { apply Zdigits2_le; [ | lia]. split; [exact Hm1 | ].
      replace (10 - e1) with (10 + - e1) by lia. rewrite pow2_split by lia.
      assert (m1 < 2 ^ (- e1) * 1000).
      { destruct (Z.lt_ge_cases m1 (2 ^ (- e1) * 1000)) as [Hlt' | Hge]; [exact Hlt' | ].
        assert (1000 <= m1 / 2 ^ (- e1)) by (apply Z.div_le_lower_bound; lia). lia. }
      assert (1000 < 2 ^ 10) by reflexivity. nia. }
    rewrite fexp_eq in He2.
    assert (He2' : e1 <= e2 <= -43) by lia.
    assert (Hfinal : m1 / 2 ^ (e2 - e1) / 2 ^ (- e2) = m1 / 2 ^ (- e1)).
    { rewrite Z.div_div by (try apply pow2_pos; try apply Z.neq_sym, Z.lt_neq, pow2_pos; lia).
      rewrite <- pow2_split by lia. f_equal. f_equal. lia. }
    assert (Hm2 : 0 <= m1 / 2 ^ (e2 - e1)) by (apply Z.div_pos; [lia | apply pow2_pos; lia]).
    exists (m1 / 2 ^ (- e1)). split; [ | split; [exact Hrange | exact H999] ].
    rewrite <- Hfinal.
    destruct (m1 / 2 ^ (e2 - e1)) as [| m2 | m2] eqn:Em2.
    + rewrite Z.div_0_l by (apply Z.neq_sym, Z.lt_neq, pow2_pos; lia). reflexivity.
    + assert (Hle : (e2 <=? 971) = true) by (apply Z.leb_le; lia).
      rewrite Hle. unfold PyFloat.int. rewrite ticks_finite.
      rewrite Z.quot_div_nonneg.
      * now rewrite ticks_div_tick by lia.
      * assert (0 < 2 ^ (e2 + 1074)) by (apply pow2_pos; lia). lia.
      * exact tick_pos.
    + lia.
Qed.

(** *** Hours, minutes and seconds *)

Lemma floor_div_by (x w : spec_float) (W : positive) :
  nonneg_finite x = true -> whole_seconds w W = true ->
  PyFloat.ticks x < 2 ^ 53 * PyFloat.tick ->
  exists q, PyFloat.floor_div x w = Ok q
    /\ PyFloat.int q = Ok (PyFloat.ticks x / (Zpos W * PyFloat.tick)).
Proof.
  intros Hx Hw Hlt. destruct w as [s | s | | [ | ] mw ew]; try discriminate Hw.
  cbn [whole_seconds] in Hw.
  apply andb_prop in Hw as [Hw Ht]. apply andb_prop in Hw as [Hb He].
  apply Z.leb_le in He. apply Z.eqb_eq in Ht.
  destruct (floor_div_nonneg x mw W ew Hx Hb He Ht Hlt) as (q & Hq & Hi).
  exists q. now rewrite <- Ht.
Qed.

Lemma rem_by (x w : spec_float) (W : positive) :
  nonneg_finite x = true -> whole_seconds w W = true ->
  exists r, PyFloat.rem x w = Ok r
    /\ nonneg_finite r = true
    /\ PyFloat.ticks r = PyFloat.ticks x mod (Zpos W * PyFloat.tick).
Proof.
  intros Hx Hw. destruct w as [s | s | | [ | ] mw ew]; try discriminate Hw.
  cbn [whole_seconds] in Hw.
  apply andb_prop in Hw as [Hw Ht]. apply andb_prop in Hw as [Hb He].
  apply Z.eqb_eq in Ht.
  destruct (rem_nonneg x mw ew Hx Hb) as (r & Hr & Hn & Hv).
  exists r. now rewrite <- Ht.
Qed.

Lemma whole_3600 : whole_seconds SRTGenerator.float_3600 3600 = true.
Proof. vm_compute. reflexivity. Qed.

Lemma whole_60 : whole_seconds SRTGenerator.float_60 60 = true.
Proof. vm_compute. reflexivity. Qed.

Lemma whole_1 : whole_seconds PyFloat.one 1 = true.
Proof. vm_compute. reflexivity. Qed.

(** *** [format_timestamp] *)

Lemma format_timestamp_below_2_53 (seconds : spec_float) :
  nonneg_finite seconds = true ->
  PyFloat.ticks seconds < 2 ^ 53 * PyFloat.tick ->
  let n := PyFloat.ticks seconds in
  let tick := PyFloat.tick in
  exists millis,
    SRTGenerator.format_timestamp seconds =
      Ok (format_d 2 (n / (3600 * tick)) ++ ":"
          ++ format_d 2 (n mod (3600 * tick) / (60 * tick)) ++ ":"
          ++ format_d 2 (n mod (60 * tick) / tick) ++ ","
          ++ format_d 3 millis)
    /\ 1000 * (n mod tick) / tick <= millis <= 1000 * (n mod tick) / tick + 1
    /\ 0 <= millis <= 999.
Proof.
  intros Hx Hlt n tick. pose proof tick_pos as Htick. fold tick in Htick.
  destruct (floor_div_by seconds _ _ Hx whole_3600 Hlt) as (q & Hq & Hhours).
  destruct (rem_by seconds _ _ Hx whole_3600) as (r & Hr & Hrn & Hrv).
  assert (Hrlt : PyFloat.ticks r < 2 ^ 53 * PyFloat.tick).
  { rewrite Hrv. fold tick.
    pose proof (Z.mod_pos_bound (PyFloat.ticks seconds) (3600 * tick) ltac:(lia)).
    assert (3600 < 2 ^ 53) by reflexivity. nia. }
  destruct (floor_div_by r _ _ Hrn whole_60 Hrlt) as (q' & Hq' & Hminutes).
  destruct (rem_by seconds _ _ Hx whole_60) as (r' & Hr' & Hrn' & Hrv').
  destruct (rem_by seconds _ _ Hx whole_1) as (frac & Hfrac & Hfn & Hfv).
  replace (1 * PyFloat.tick) with tick in Hfv by (unfold tick; lia).
  fold n in Hfv.
  assert (Hflt : PyFloat.ticks frac < PyFloat.tick).
  { rewrite Hfv. apply Z.mod_pos_bound. exact Htick. }
  destruct (mul_milliseconds frac Hfn Hflt) as (millis & Hmillis & Hrange & H999).
  exists millis. split; [ | split; [ | split; [ | exact H999] ] ].
  - unfold SRTGenerator.format_timestamp.
    rewrite Hq. cbn [SRTGenerator.bind_r]. rewrite Hhours. cbn [SRTGenerator.bind_r].
    rewrite Hr. cbn [SRTGenerator.bind_r]. rewrite Hq'. cbn [SRTGenerator.bind_r].
    rewrite Hminutes. cbn [SRTGenerator.bind_r].
    rewrite Hr'. cbn [SRTGenerator.bind_r].
    rewrite (int_nonneg r' Hrn'). cbn [SRTGenerator.bind_r].
    rewrite Hfrac. cbn [SRTGenerator.bind_r]. rewrite Hmillis. cbn [SRTGenerator.bind_r].
    rewrite Hrv, Hrv'. reflexivity.
  - rewrite Hfv in Hrange. exact Hrange.
  - rewrite Hfv in Hrange. subst n tick.
    pose proof (Z.mod_pos_bound (PyFloat.ticks seconds) PyFloat.tick Htick) as Hmod.
    assert (0 <= 1000 * (PyFloat.ticks seconds mod PyFloat.tick) / PyFloat.tick)
      by (apply Z.div_pos; lia).
    lia.
Qed.

(** The widths of the fields. *)
Lemma below_by_cases (P : Z -> bool) (b : nat) :
  forallb (fun i => P (Z.of_nat i)) (seq 0 b) = true ->
  forall k, 0 <= k < Z.of_nat b -> P k = true.
Proof.
  intros H k Hk. rewrite forallb_forall in H.
  specialize (H (Z.to_nat k)). rewrite Z2Nat.id in H by lia.
  apply H, in_seq. lia.
Qed.

Lemma format_d_2_width (k : Z) :
  0 <= k <= 99 -> String.length (format_d 2 k) = 2%nat.
Proof.
  intros Hk. apply Nat.eqb_eq.
  apply (below_by_cases (fun k => Nat.eqb (String.length (format_d 2 k)) 2) 100);
    [vm_compute; reflexivity | lia].
Qed.

Lemma format_d_3_width (k : Z) :
  0 <= k <= 999 -> String.length (format_d 3 k) = 3%nat.
Proof.
  intros Hk. apply Nat.eqb_eq.
  apply (below_by_cases (fun k => Nat.eqb (String.length (format_d 3 k)) 3) 1000);
    [vm_compute; reflexivity | lia].
Qed.

Lemma minutes_and_seconds_below_60 (n : Z) :
  0 <= n ->
  0 <= n mod (3600 * PyFloat.tick) / (60 * PyFloat.tick) < 60
  /\ 0 <= n mod (60 * PyFloat.tick) / PyFloat.tick < 60.
Proof.
  intros Hn. pose proof tick_pos as Ht.
  pose proof (Z.mod_pos_bound n (3600 * PyFloat.tick) ltac:(lia)) as H1.
  pose proof (Z.mod_pos_bound n (60 * PyFloat.tick) ltac:(lia)) as H2.
  repeat split.
  - apply Z.div_pos; lia.
  - apply Z.div_lt_upper_bound; lia.
  - apply Z.div_pos; lia.
  - apply Z.div_lt_upper_bound; lia.
Qed.

(** Below a hundred hours the timestamp has twelve characters. *)
Lemma format_timestamp_length (seconds : spec_float) :
  nonneg_finite seconds = true ->
  PyFloat.ticks seconds < 360000 * PyFloat.tick ->
  exists stamp,
    SRTGenerator.format_timestamp seconds = Ok stamp
    /\ String.length stamp = 12%nat.
Proof.
  intros Hx Hlt. pose proof tick_pos as Ht. pose proof (ticks_nonneg seconds Hx) as Hn.
  assert (Hlt' : PyFloat.ticks seconds < 2 ^ 53 * PyFloat.tick).
  { assert (360000 < 2 ^ 53) by reflexivity. nia. }
  destruct (format_timestamp_below_2_53 seconds Hx Hlt') as (millis & Hfmt & _ & Hmillis).
  cbv zeta in Hfmt. rewrite Hfmt. eexists. split; [reflexivity | ].
  destruct (minutes_and_seconds_below_60 (PyFloat.ticks seconds) Hn) as [Hmin Hsec].
  assert (Hhours : 0 <= PyFloat.ticks seconds / (3600 * PyFloat.tick) <= 99).
  { split; [apply Z.div_pos; lia | ].
    assert (PyFloat.ticks seconds / (3600 * PyFloat.tick) < 100); [ | lia].
    apply Z.div_lt_upper_bound; lia. }
  rewrite !slength_app, !format_d_2_width, format_d_3_width by lia.
  reflexivity.
Qed.

(** Beyond 2^53 seconds the quotient [seconds // 3600] is a rounded one. *)
Lemma format_timestamp_huge :
  SRTGenerator.format_timestamp Samples.at_1e22 = Ok "2777777777777777664:46:40,000"
  /\ Claimed.format_timestamp Samples.at_1e22 = "2777777777777777777:46:40,000".
Proof. vm_compute. split; reflexivity. Qed.

Lemma format_timestamp_infinity :
  SRTGenerator.format_timestamp (S754_infinity false)
  = Err (ValueError "cannot convert float NaN to integer").
Proof. reflexivity. Qed.

Lemma format_timestamp_3665_123 :
  SRTGenerator.format_timestamp Samples.at_3665_123 = Ok "01:01:05,123".
Proof. vm_compute. reflexivity. Qed.

(** X26.  For every finite [seconds] that is zero or positive and below
    2^53, [format_timestamp] returns [HH:MM:SS,mmm] with
    [HH = floor(seconds / 3600)], [MM = floor((seconds mod 3600) / 60)] and
    [SS = floor(seconds mod 60)] exactly, each filled with zeros to two
    digits; the milliseconds [mmm], filled to three digits, are
    [floor((seconds mod 1) * 1000)] or one more, and never more than 999,
    so that they never run over into the seconds.  In particular 3661.5
    gives [01:01:01,500], 0.0 gives [00:00:00,000] and 65.123 gives
    [00:01:05,123]. *)
Theorem format_timestamp_spec :
  (forall seconds : spec_float,
     nonneg_finite seconds = true ->
     PyFloat.ticks seconds < 2 ^ 53 * PyFloat.tick ->
     let n := PyFloat.ticks seconds in
     let tick := PyFloat.tick in
     exists millis,
       SRTGenerator.format_timestamp seconds =
         Ok (format_d 2 (n / (3600 * tick)) ++ ":"
             ++ format_d 2 (n mod (3600 * tick) / (60 * tick)) ++ ":"
             ++ format_d 2 (n mod (60 * tick) / tick) ++ ","
             ++ format_d 3 millis)
       /\ 1000 * (n mod tick) / tick <= millis <= 1000 * (n mod tick) / tick + 1
       /\ 0 <= millis <= 999)
  /\ SRTGenerator.format_timestamp Samples.at_3661_5 = Ok "01:01:01,500"
  /\ SRTGenerator.format_timestamp Samples.at_0 = Ok "00:00:00,000"
  /\ SRTGenerator.format_timestamp Samples.at_65_123 = Ok "00:01:05,123".
Proof.
  split; [exact format_timestamp_below_2_53 | ].
  vm_compute. repeat split.
Qed.

Lemma format_timestamp_spec_witness :
  nonneg_finite Samples.at_65_123 = true
  /\ PyFloat.ticks Samples.at_65_123 < 2 ^ 53 * PyFloat.tick
  /\ exists millis,
       SRTGenerator.format_timestamp Samples.at_65_123 =
         Ok ("00:01:05," ++ format_d 3 millis)
       /\ 0 <= millis <= 999.
Proof.
  assert (H1 : nonneg_finite Samples.at_65_123 = true) by reflexivity.
  assert (H2 : PyFloat.ticks Samples.at_65_123 < 2 ^ 53 * PyFloat.tick)
    by (vm_compute; reflexivity).
  split; [exact H1 | split; [exact H2 | ] ].
  destruct (proj1 format_timestamp_spec Samples.at_65_123 H1 H2)
    as (millis & Hfmt & _ & Hrange).
  exists millis. split; [ | exact Hrange].
  rewrite Hfmt. vm_compute. reflexivity.
Defined.

(** C2.  The milliseconds are cut, not rounded.  The float nearest to 2.3
    is just below it: its fraction times 1000 is the float just below 300,
    which [int] cuts to 299, where [round] gives 300; in the same way 4.35
    gives 349 for 350, and 1.001 gives 000 for 001.  The four instants that
    the tests of the repository try (0.0, 2.5, 65.123 and 3661.5) come out
    the same under [int] and under [round]. *)
Theorem format_timestamp_truncates :
  (SRTGenerator.format_timestamp Samples.at_2_3 = Ok "00:00:02,299"
   /\ Claimed.format_timestamp Samples.at_2_3 = "00:00:02,300")
  /\ (SRTGenerator.format_timestamp Samples.at_4_35 = Ok "00:00:04,349"
      /\ Claimed.format_timestamp Samples.at_4_35 = "00:00:04,350")
  /\ (SRTGenerator.format_timestamp Samples.at_1_001 = Ok "00:00:01,000"
      /\ Claimed.format_timestamp Samples.at_1_001 = "00:00:01,001")
  /\ Forall (fun seconds =>
               nonneg_finite seconds = true
               /\ SRTGenerator.format_timestamp seconds
                  <> Ok (Claimed.format_timestamp seconds))
            [Samples.at_2_3; Samples.at_4_35; Samples.at_1_001]
  /\ Forall (fun seconds =>
               SRTGenerator.format_timestamp seconds
               = Ok (Claimed.format_timestamp seconds))
            [Samples.at_0; Samples.at_2_5; Samples.at_65_123; Samples.at_3661_5].
Proof.
  assert (H23 : SRTGenerator.format_timestamp Samples.at_2_3 = Ok "00:00:02,299")
    by (vm_compute; reflexivity).
  assert (C23 : Claimed.format_timestamp Samples.at_2_3 = "00:00:02,300")
    by (vm_compute; reflexivity).
  assert (H435 : SRTGenerator.format_timestamp Samples.at_4_35 = Ok "00:00:04,349")
    by (vm_compute; reflexivity).
  assert (C435 : Claimed.format_timestamp Samples.at_4_35 = "00:00:04,350")
    by (vm_compute; reflexivity).
  assert (H1001 : SRTGenerator.format_timestamp Samples.at_1_001 = Ok "00:00:01,000")
    by (vm_compute; reflexivity).
  assert (C1001 : Claimed.format_timestamp Samples.at_1_001 = "00:00:01,001")
    by (vm_compute; reflexivity).
  split; [now split | ]. split; [now split | ]. split; [now split | ]. split.
  - repeat (apply Forall_cons || apply Forall_nil); (split; [reflexivity | ]).
    + rewrite H23, C23. discriminate.
    + rewrite H435, C435. discriminate.
    + rewrite H1001, C1001. discriminate.
  - repeat (apply Forall_cons || apply Forall_nil); vm_compute; reflexivity.
Qed.

End Timestamps.

(** ** File names and configuration *)

Section FileNames.

Lemma lower_char_idem (c : ascii) :
  PyStrOps.lower_char (PyStrOps.lower_char c) = PyStrOps.lower_char c.
Proof. destruct c as [[] [] [] [] [] [] [] []]; reflexivity. Qed.

Lemma lower_char_dot (c : ascii) :
  Ascii.eqb (PyStrOps.lower_char c) "."%char = Ascii.eqb c "."%char.
Proof. destruct c as [[] [] [] [] [] [] [] []]; reflexivity. Qed.

Lemma lower_idem (s : string) : PyStrOps.lower (PyStrOps.lower s) = PyStrOps.lower s.
Proof.
  induction s as [| c s IH]; [reflexivity | ].
  cbn [PyStrOps.lower]. now rewrite lower_char_idem, IH.
Qed.

Lemma lower_lacks_dot (s : string) :
  lacks "."%char (PyStrOps.lower s) = lacks "."%char s.
Proof.
  induction s as [| c s IH]; [reflexivity | ].
  cbn [PyStrOps.lower lacks]. now rewrite lower_char_dot, IH.
Qed.

Lemma lacks_app (sep : ascii) (a b : string) :
  lacks sep (a ++ b) = lacks sep a && lacks sep b.
Proof.
  induction a as [| c a IH]; [reflexivity | ].
  cbn [append lacks]. rewrite IH. now rewrite andb_assoc.
Qed.

(** Without separator there is one piece. *)
Lemma split_sep_lacks (sep : ascii) (s cur : string) :
  lacks sep s = true -> PyStrOps.split_sep_aux sep s cur = [cur ++ s].
Proof.
  revert cur. induction s as [| c s IH]; intros cur Hs.
  - cbn. now rewrite sapp_nil_r.
  - cbn [lacks] in Hs. apply andb_prop in Hs as [Hc Hs].
    cbn [PyStrOps.split_sep_aux]. apply negb_true_iff in Hc. rewrite Hc.
    rewrite IH by exact Hs. now rewrite sapp_assoc.
Qed.

Lemma split_sep_nonempty (sep : ascii) (s cur : string) :
  PyStrOps.split_sep_aux sep s cur <> [].
Proof.
  revert cur. induction s as [| c s IH]; intros cur; cbn [PyStrOps.split_sep_aux].
  - discriminate.
  - destruct (Ascii.eqb c sep); [discriminate | apply IH].
Qed.

Lemma last_cons_nonempty (x : string) (l : list string) :
  l <> [] -> List.last (x :: l) EmptyString = List.last l EmptyString.
Proof. destruct l; [congruence | reflexivity]. Qed.

(** The last piece is what follows the last separator. *)
Lemma last_piece_after (sep : ascii) (a ext cur : string) :
  lacks sep ext = true ->
  PyStrOps.last_piece (PyStrOps.split_sep_aux sep (a ++ String sep ext) cur) = ext.
Proof.
  intros Hext. revert cur. unfold PyStrOps.last_piece.
  induction a as [| c a IH]; intros cur; cbn [append PyStrOps.split_sep_aux].
  - rewrite Ascii.eqb_refl, split_sep_lacks by exact Hext. reflexivity.
  - destruct (Ascii.eqb c sep).
    + rewrite last_cons_nonempty by apply split_sep_nonempty. apply IH.
    + apply IH.
Qed.

Lemma last_piece_lacks (sep : ascii) (s cur : string) :
  lacks sep cur = true ->
  lacks sep (PyStrOps.last_piece (PyStrOps.split_sep_aux sep s cur)) = true.
Proof.
  revert cur. unfold PyStrOps.last_piece.
  induction s as [| c s IH]; intros cur Hcur; cbn [PyStrOps.split_sep_aux].
  - exact Hcur.
  - destruct (Ascii.eqb c sep) eqn:Ec.
    + rewrite last_cons_nonempty by apply split_sep_nonempty. now apply IH.
    + apply IH. rewrite lacks_app, Hcur. cbn [lacks]. now rewrite Ec.
Qed.

End FileNames.

(** X1.  The extension of a file name is what follows its last dot, in
    lower case, and the whole name in lower case when it has no dot; the
    type of a file is accepted when that extension is an allowed format,
    so in either case of letters, and for a name that is just a format. *)
Theorem file_extension_after_last_dot
        (storage : StorageSettings) (stem ext : string) :
  lacks "."%char ext = true ->
  FileOps.get_file_extension (stem ++ "." ++ ext) = PyStrOps.lower ext
  /\ FileOps.get_file_extension ext = PyStrOps.lower ext
  /\ FileOps.validate_file_type storage (stem ++ "." ++ ext)
     = PyStr.mem (PyStrOps.lower ext) (ALLOWED_VIDEO_FORMATS storage)
  /\ FileOps.validate_file_type storage ext
     = PyStr.mem (PyStrOps.lower ext) (ALLOWED_VIDEO_FORMATS storage).
Proof.
  intros Hext.
  assert (H1 : PyStrOps.last_piece (PyStrOps.split_sep "."%char (stem ++ "." ++ ext)) = ext).
  { unfold PyStrOps.split_sep. apply (last_piece_after "."%char stem ext EmptyString Hext). }
  assert (H2 : PyStrOps.last_piece (PyStrOps.split_sep "."%char ext) = ext).
  { unfold PyStrOps.split_sep. now rewrite split_sep_lacks by exact Hext. }
  unfold FileOps.get_file_extension, FileOps.validate_file_type.
  rewrite H1, H2. repeat split.
Qed.

Lemma file_extension_after_last_dot_witness :
  lacks "."%char "MP4" = true
  /\ FileOps.get_file_extension "Holiday.Clip.MP4" = "mp4"
  /\ FileOps.validate_file_type MoreFixtures.storage "Holiday.Clip.MP4" = true
  /\ FileOps.validate_file_type MoreFixtures.storage "MP4" = true.
Proof.
  assert (H : lacks "."%char "MP4" = true) by reflexivity.
  destruct (file_extension_after_last_dot MoreFixtures.storage "Holiday.Clip" "MP4" H)
    as (H1 & _ & H3 & H4).
  split; [exact H | split; [exact H1 | split; [exact H3 | exact H4] ] ].
Defined.

(** X2.  An extension has no dot in it and is its own extension: taking
    the extension twice changes nothing. *)
Theorem file_extension_idempotent (filename : string) :
  lacks "."%char (FileOps.get_file_extension filename) = true
  /\ FileOps.get_file_extension (FileOps.get_file_extension filename)
     = FileOps.get_file_extension filename.
Proof.
  assert (Hl : lacks "."%char (FileOps.get_file_extension filename) = true).
  { unfold FileOps.get_file_extension, PyStrOps.split_sep.
    rewrite lower_lacks_dot. now apply last_piece_lacks. }
  split; [exact Hl | ].
  unfold FileOps.get_file_extension at 1. unfold PyStrOps.split_sep.
  rewrite split_sep_lacks by exact Hl. unfold PyStrOps.last_piece. cbn [List.last append].
  unfold FileOps.get_file_extension. apply lower_idem.
Qed.

(** X3.  [validate] accepts a configuration exactly when the default
    provider is one of the two known ones and the API key of that provider
    is set; otherwise it raises a [ValueError] that lists what is wrong. *)
Theorem validate_passes_iff (settings : Settings) (w : World) :
  (Config.validate settings w = (Ok tt, w)
   <-> (DEFAULT_LLM_PROVIDER settings = "openai" /\ OPENAI_API_KEY settings <> EmptyString)
       \/ (DEFAULT_LLM_PROVIDER settings = "gemini"
           /\ GEMINI_API_KEY settings <> EmptyString))
  /\ (Config.validate settings w = (Ok tt, w)
      \/ exists report,
           Config.validate settings w
           = (Err (ValueError ("Configuration validation failed:" ++ PyStr.NL ++ report)),
              w)).
Proof.
  unfold Config.validate, Config.validation_errors, PyStr.mem. cbn [existsb].
  destruct (String.eqb_spec (DEFAULT_LLM_PROVIDER settings) "openai") as [Ho | Ho];
    destruct (String.eqb_spec (DEFAULT_LLM_PROVIDER settings) "gemini") as [Hg | Hg];
    destruct (String.eqb_spec (OPENAI_API_KEY settings) EmptyString) as [Hk | Hk];
    destruct (String.eqb_spec (GEMINI_API_KEY settings) EmptyString) as [Hk' | Hk'];
    cbn [andb orb negb app];
    try (rewrite Ho in Hg; discriminate Hg);
    (split; [split; [intros H; try discriminate H; tauto
                    | intros [[? ?] | [? ?]]; try contradiction; try reflexivity]
            | first [left; reflexivity | right; eexists; reflexivity] ]).
Qed.

(** ** Provider gateway: what comes back *)

Section Strip.

Lemma rstrip_idem (s : string) : PyStr.rstrip (PyStr.rstrip s) = PyStr.rstrip s.
Proof.
  induction s as [| c s IH]; [reflexivity | ].
  cbn [PyStr.rstrip]. destruct (PyStr.rstrip s) as [| d r] eqn:Er.
  - destruct (PyStr.isspace c) eqn:Ec; [reflexivity | ].
    cbn [PyStr.rstrip]. now rewrite Ec.
  - change (PyStr.rstrip (String c (String d r)))
      with (match PyStr.rstrip (String d r) with
            | EmptyString =>
                if PyStr.isspace c then EmptyString else String c EmptyString
            | r' => String c r'
            end).
    now rewrite IH.
Qed.

Lemma lstrip_head (s : string) :
  PyStr.lstrip s = EmptyString
  \/ exists c r, PyStr.lstrip s = String c r /\ PyStr.isspace c = false.
Proof.
  induction s as [| c s IH]; [now left | ].
  cbn [PyStr.lstrip]. destruct (PyStr.isspace c) eqn:Ec; [exact IH | ].
  right. now exists c, s.
Qed.

Lemma rstrip_keeps_head (c : ascii) (r : string) :
  PyStr.isspace c = false -> exists r', PyStr.rstrip (String c r) = String c r'.
Proof.
  intros Hc. cbn [PyStr.rstrip]. destruct (PyStr.rstrip r) as [| d r''].
  - rewrite Hc. now exists EmptyString.
  - now exists (String d r'').
Qed.

Lemma strip_idem (s : string) : PyStr.strip (PyStr.strip s) = PyStr.strip s.
Proof.
  unfold PyStr.strip.
  destruct (lstrip_head s) as [E | (c & r & E & Hc)]; rewrite E.
  - reflexivity.
  - destruct (rstrip_keeps_head c r Hc) as [r' E'].
    assert (Hl : PyStr.lstrip (PyStr.rstrip (String c r)) = PyStr.rstrip (String c r)).
    { rewrite E'. cbn [PyStr.lstrip]. now rewrite Hc. }
    rewrite Hl. apply rstrip_idem.
Qed.

End Strip.

Section GatewayAnswers.

Variable settings : Settings.
Variable sdk : ProviderSDK.
Variable json_loads : string -> result (list Segment).

Lemma translate_with_openai_cases (text source target context : string) (w : World) :
  (LLMClient._translate_with_openai settings sdk text source target context w
   = (Err (ValueError "OpenAI API key not configured"), w))
  \/ (exists w', one_request_sent w w'
      /\ ((exists content,
             LLMClient._translate_with_openai settings sdk text source target context w
             = (Ok (PyStr.strip content), w'))
          \/ (exists e,
                LLMClient._translate_with_openai settings sdk text source target context w
                = (Err (Exception ("OpenAI translation failed: " ++ str_exn e)), w')))).
Proof.
  unfold LLMClient._translate_with_openai.
  destruct (LLMClient.openai_client settings); cbn [negb]; [right | now left].
  unfold try_except, bind, send, ret, raise.
  eexists {| requests := _; files := _ |}.
  split; [split; [eexists; reflexivity | reflexivity] | ].
  destruct (chat_completions_create sdk (requests w) (OPENAI_MODEL settings)
              "You are a professional translator."
              (LLMClient.translation_prompt text source target context)) as [content | e].
  - left. now exists content.
  - right. now exists e.
Qed.

Lemma translate_with_gemini_cases (text source target context : string) (w : World) :
  (LLMClient._translate_with_gemini settings sdk text source target context w
   = (Err (ValueError "Gemini API key not configured"), w))
  \/ (exists w', one_request_sent w w'
      /\ ((exists content,
             LLMClient._translate_with_gemini settings sdk text source target context w
             = (Ok (PyStr.strip content), w'))
          \/ (exists e,
                LLMClient._translate_with_gemini settings sdk text source target context w
                = (Err (Exception ("Gemini translation failed: " ++ str_exn e)), w')))).
Proof.
  unfold LLMClient._translate_with_gemini.
  destruct (LLMClient.gemini_client settings); cbn [negb]; [right | now left].
  unfold try_except, bind, send, ret, raise.
  eexists {| requests := _; files := _ |}.
  split; [split; [eexists; reflexivity | reflexivity] | ].
  destruct (generate_content sdk (requests w) (GEMINI_MODEL settings)
              (LLMClient.translation_prompt text source target context)) as [content | e].
  - left. now exists content.
  - right. now exists e.
Qed.

End GatewayAnswers.

(** X4.  A translation that the gateway returns has no white space around
    it, and it has cost exactly one request, whatever the provider argument
    was. *)
Theorem translation_comes_back_stripped
        (settings : Settings) (sdk : ProviderSDK)
        (text source target context : string) (provider : option string)
        (out : string) (w w' : World) :
  LLMClient.translate_with_context settings sdk text source target context provider w
  = (Ok out, w') ->
  PyStr.strip out = out /\ one_request_sent w w'.
Proof.
  unfold LLMClient.translate_with_context.
  destruct (String.eqb _ "openai"); [ | destruct (String.eqb _ "gemini")].
  - destruct (translate_with_openai_cases settings sdk text source target context w)
      as [E | (w1 & Hsent & [[content E] | [e E] ])]; rewrite E; intros H;
      inversion H; subst.
    split; [apply strip_idem | exact Hsent].
  - destruct (translate_with_gemini_cases settings sdk text source target context w)
      as [E | (w1 & Hsent & [[content E] | [e E] ])]; rewrite E; intros H;
      inversion H; subst.
    split; [apply strip_idem | exact Hsent].
  - discriminate.
Qed.

Lemma translation_comes_back_stripped_witness :
  LLMClient.translate_with_context
    Fixtures.settings Fixtures.answering_sdk "Hello" "en" "es" "greeting" None
    Fixtures.world
  = (Ok "Hola",
     {| requests :=
          [GenerateContent "gemini-2.0-flash-exp"
             (LLMClient.translation_prompt "Hello" "en" "es" "greeting")];
        files := files Fixtures.world |})
  /\ PyStr.strip "Hola" = "Hola"
  /\ one_request_sent
       Fixtures.world
       {| requests :=
            [GenerateContent "gemini-2.0-flash-exp"
               (LLMClient.translation_prompt "Hello" "en" "es" "greeting")];
          files := files Fixtures.world |}.
Proof.
  assert (H : LLMClient.translate_with_context
                Fixtures.settings Fixtures.answering_sdk "Hello" "en" "es" "greeting" None
                Fixtures.world
              = (Ok "Hola",
                 {| requests :=
                      [GenerateContent "gemini-2.0-flash-exp"
                         (LLMClient.translation_prompt "Hello" "en" "es" "greeting")];
                    files := files Fixtures.world |})) by reflexivity.
  split; [exact H | ].
  exact (translation_comes_back_stripped _ _ _ _ _ _ _ _ _ _ H).
Defined.



Section Transcription.

Variable settings : Settings.
Variable sdk : ProviderSDK.
Variable json_loads : string -> result (list Segment).

Lemma open_rb_missing (audio : string) (w : World) :
  files w audio = None ->
  LLMClient.open_rb audio w
  = (Err (FileNotFoundError ("[Errno 2] No such file or directory: "
                             ++ PyStr.SQUOTE ++ audio ++ PyStr.SQUOTE)), w).
Proof. intros H. unfold LLMClient.open_rb. now rewrite H. Qed.

Lemma open_rb_found (audio data : string) (w : World) :
  files w audio = Some data -> LLMClient.open_rb audio w = (Ok data, w).
Proof. intros H. unfold LLMClient.open_rb. now rewrite H. Qed.

Lemma transcribe_missing_openai (audio language : string) (w : World) :
  files w audio = None ->
  exists e, LLMClient._transcribe_with_openai settings sdk audio language w = (Err e, w).
Proof.
  intros H. unfold LLMClient._transcribe_with_openai.
  destruct (LLMClient.openai_client settings); cbn [negb]; [ | now eexists].
  unfold try_except, bind. rewrite (open_rb_missing audio w H). now eexists.
Qed.

Lemma transcribe_missing_gemini (audio language : string) (w : World) :
  files w audio = None ->
  exists e,
    LLMClient._transcribe_with_gemini settings sdk json_loads audio language w = (Err e, w).
Proof.
  intros H. unfold LLMClient._transcribe_with_gemini.
  destruct (LLMClient.gemini_client settings); cbn [negb]; [ | now eexists].
  unfold try_except, bind. rewrite (open_rb_missing audio w H). now eexists.
Qed.

End Transcription.

(** X6.  The gateway never sends anything for an audio file that is not
    there: the transcription fails and the world is as before, whatever
    the provider argument and the configuration. *)
Theorem missing_audio_never_sent
        (settings : Settings) (sdk : ProviderSDK)
        (json_loads : string -> result (list Segment))
        (audio language : string) (provider : option string) (w : World) :
  files w audio = None ->
  exists e,
    LLMClient.transcribe_audio settings sdk json_loads audio language provider w
    = (Err e, w).
Proof.
  intros H. unfold LLMClient.transcribe_audio.
  destruct (String.eqb _ "openai"); [ | destruct (String.eqb _ "gemini")].
  - now apply transcribe_missing_openai.
  - now apply transcribe_missing_gemini.
  - now eexists.
Qed.

Lemma missing_audio_never_sent_witness :
  files Fixtures.world "lecture.wav" = None
  /\ exists e,
       LLMClient.transcribe_audio
         Fixtures.settings Fixtures.answering_sdk Fixtures.json_loads
         "lecture.wav" "en" (Some "openai") Fixtures.world
       = (Err e, Fixtures.world).
Proof.
  assert (H : files Fixtures.world "lecture.wav" = None) by reflexivity.
  split; [exact H | ].
  exact (missing_audio_never_sent Fixtures.settings Fixtures.answering_sdk
           Fixtures.json_loads "lecture.wav" "en" (Some "openai") Fixtures.world H).
Defined.

(** X7.  A transcription that comes back from OpenAI is never the empty
    list, whatever the service answered; the audio file was there and
    exactly one request was sent. *)
Theorem openai_transcription_never_empty
        (settings : Settings) (sdk : ProviderSDK)
        (json_loads : string -> result (list Segment))
        (audio language : string) (segments : list Segment) (w w' : World) :
  LLMClient.transcribe_audio settings sdk json_loads audio language (Some "openai") w
  = (Ok segments, w') ->
  segments <> [] /\ one_request_sent w w' /\ files w audio <> None.
Proof.
  rewrite transcribe_audio_openai. unfold LLMClient._transcribe_with_openai.
  destruct (LLMClient.openai_client settings); cbn [negb]; [ | discriminate].
  unfold try_except, bind.
  destruct (files w audio) as [data | ] eqn:Ef.
  - rewrite (open_rb_found audio data w Ef). unfold send, ret, raise.
    destruct (audio_transcriptions_create sdk (requests w) (OPENAI_MODEL settings)
                data language) as [response | e]; [ | discriminate].
    intros H. inversion H; subst. clear H.
    split; [ | split; [split; [eexists; reflexivity | reflexivity] | discriminate] ].
    destruct (resp_segments response) as [[| s l] | ]; discriminate.
  - rewrite (open_rb_missing audio w Ef). discriminate.
Qed.

Lemma openai_transcription_never_empty_witness :
  exists segments w',
    LLMClient.transcribe_audio
      Fixtures.settings Fixtures.empty_array_sdk Fixtures.json_loads
      "audio.wav" "en" (Some "openai") Fixtures.world
    = (Ok segments, w')
    /\ segments <> [].
Proof.
  eexists. eexists.
  assert (H : LLMClient.transcribe_audio
                Fixtures.settings Fixtures.empty_array_sdk Fixtures.json_loads
                "audio.wav" "en" (Some "openai") Fixtures.world
              = (Ok [mkSegment (S754_zero false) (S754_zero false) "hello there" None],
                 {| requests :=
                      [AudioTranscriptionsCreate "gpt-4o-audio-preview" "RIFF" "en"];
                    files := files Fixtures.world |})) by reflexivity.
  split; [exact H | ].
  exact (proj1 (openai_transcription_never_empty _ _ _ _ _ _ _ _ H)).
Defined.

Lemma validate_ok_cases (settings : Settings) (w w' : World) :
  Config.validate settings w = (Ok tt, w') ->
  (DEFAULT_LLM_PROVIDER settings = "openai" /\ LLMClient.openai_client settings = true)
  \/ (DEFAULT_LLM_PROVIDER settings = "gemini" /\ LLMClient.gemini_client settings = true).
Proof.
  unfold Config.validate, Config.validation_errors, PyStr.mem,
    LLMClient.openai_client, LLMClient.gemini_client.
  cbn [existsb].
  destruct (String.eqb_spec (DEFAULT_LLM_PROVIDER settings) "openai") as [Ho | Ho];
    destruct (String.eqb_spec (DEFAULT_LLM_PROVIDER settings) "gemini") as [Hg | Hg];
    destruct (String.eqb (OPENAI_API_KEY settings) EmptyString);
    destruct (String.eqb (GEMINI_API_KEY settings) EmptyString);
    cbn [andb orb negb app]; intros H; try discriminate H; tauto.
Qed.

(** X8.  With a configuration that [validate] accepts, a call that leaves
    the provider out is never refused by the gateway: a translation sends
    exactly one request, and so does the transcription of a file that is
    there. *)
Theorem validated_default_reaches_provider
        (settings : Settings) (sdk : ProviderSDK)
        (json_loads : string -> result (list Segment))
        (text source target context audio language data : string) (w0 w : World) :
  Config.validate settings w0 = (Ok tt, w0) ->
  files w audio = Some data ->
  (exists r w',
     LLMClient.translate_with_context settings sdk text source target context None w
     = (r, w')
     /\ one_request_sent w w')
  /\ (exists r w',
        LLMClient.transcribe_audio settings sdk json_loads audio language None w
        = (r, w')
        /\ one_request_sent w w').
Proof.
  intros Hv Hf. unfold LLMClient.translate_with_context, LLMClient.transcribe_audio.
  rewrite py_or_none.
  destruct (validate_ok_cases settings w0 w0 Hv) as [[Hd Hc] | [Hd Hc] ]; rewrite Hd;
    cbn [String.eqb Ascii.eqb Bool.eqb].
  - unfold LLMClient._translate_with_openai, LLMClient._transcribe_with_openai.
    rewrite Hc. cbn [negb]. unfold try_except, bind.
    rewrite (open_rb_found audio data w Hf). unfold send, ret, raise. split.
    + destruct (chat_completions_create sdk (requests w) _ _ _);
        eexists; eexists; (split; [reflexivity | ]);
        (split; [eexists; reflexivity | reflexivity]).
    + destruct (audio_transcriptions_create sdk (requests w) _ _ _);
        eexists; eexists; (split; [reflexivity | ]);
        (split; [eexists; reflexivity | reflexivity]).
  - unfold LLMClient._translate_with_gemini, LLMClient._transcribe_with_gemini.
    rewrite Hc. cbn [negb]. unfold try_except, bind.
    rewrite (open_rb_found audio data w Hf). unfold send, ret, raise, lift. split.
    + destruct (generate_content sdk (requests w) _ _);
        eexists; eexists; (split; [reflexivity | ]);
        (split; [eexists; reflexivity | reflexivity]).
    + destruct (generate_content_audio sdk (requests w) _ _ _) as [t | e];
        [destruct (json_loads t) | ];
        eexists; eexists; (split; [reflexivity | ]);
        (split; [eexists; reflexivity | reflexivity]).
Qed.

Lemma validated_default_reaches_provider_witness :
  Config.validate Fixtures.settings Fixtures.world = (Ok tt, Fixtures.world)
  /\ files Fixtures.world "audio.wav" = Some "RIFF"
  /\ (exists r w',
        LLMClient.translate_with_context
          Fixtures.settings Fixtures.failing_sdk "Hello" "en" "es" "greeting" None
          Fixtures.world
        = (r, w')
        /\ one_request_sent Fixtures.world w').
Proof.
  assert (H1 : Config.validate Fixtures.settings Fixtures.world = (Ok tt, Fixtures.world))
    by reflexivity.
  assert (H2 : files Fixtures.world "audio.wav" = Some "RIFF") by reflexivity.
  split; [exact H1 | split; [exact H2 | ] ].
  exact (proj1 (validated_default_reaches_provider
                  Fixtures.settings Fixtures.failing_sdk Fixtures.json_loads
                  "Hello" "en" "es" "greeting" "audio.wav" "en" "RIFF"
                  Fixtures.world Fixtures.world H1 H2)).
Defined.

(** ** Translator: the loop over the segments *)

Section TranslateLoop.

Variable settings : Settings.
Variable backend : string -> string -> string -> string -> option string -> M string.
Variables source target context : string.
Variable provider : option string.

Local Abbreviation loop := (Translator.translate_loop settings backend).
Local Abbreviation translate_segment := (Translator.translate_segment settings backend).

Lemma translate_loop_step (s : Segment) (rest done : list Segment) (w : World) :
  loop (s :: rest) done source target context provider w
  = match translate_segment (text s) source target context provider w with
    | (Ok t, w1) =>
        loop rest (done ++ [ {| start := start s; end_ := end_ s; text := text s;
                                translated_text := Some t |} ])%list
             source target context provider w1
    | (Err e, w1) => (Err e, w1)
    end.
Proof. reflexivity. Qed.

(** Whatever the backend does, a list that comes out of the loop is the
    list built so far followed by one translated segment for each input. *)
Lemma translate_loop_shape (segments : list Segment) :
  forall done out w w',
    loop segments done source target context provider w = (Ok out, w') ->
    exists tail, out = (done ++ tail)%list /\ Forall2 translated_from segments tail.
Proof.
  induction segments as [| s rest IH]; intros done out w w' H.
  - cbn in H. inversion H; subst. exists []. split; [now rewrite app_nil_r | constructor].
  - rewrite translate_loop_step in H.
    destruct (translate_segment (text s) source target context provider w)
      as [[t | e] w1]; [ | discriminate H].
    destruct (IH _ _ _ _ H) as (tail & Hout & Htail).
    eexists (_ :: tail). split.
    + rewrite Hout, <- app_assoc. reflexivity.
    + constructor; [ | exact Htail]. repeat split. discriminate.
Qed.

(** A segment on which the translation fails in every world. *)
Variable bad : Segment.
Hypothesis bad_fails :
  forall w, exists e w', translate_segment (text bad) source target context provider w
                         = (Err e, w').

Lemma translate_loop_cut (before after : list Segment) :
  forall done w,
    loop (before ++ bad :: after) done source target context provider w
    = loop (before ++ [bad]) done source target context provider w
    /\ exists e w',
         loop (before ++ bad :: after) done source target context provider w = (Err e, w').
Proof.
  induction before as [| s before IH]; intros done w; cbn [app];
    rewrite !translate_loop_step.
  - destruct (bad_fails w) as (e & w' & E). rewrite E.
    split; [reflexivity | now exists e, w'].
  - destruct (translate_segment (text s) source target context provider w)
      as [[t | e] w1].
    + apply IH.
    + split; [reflexivity | now exists e, w1].
Qed.

End TranslateLoop.

(** X9.  Whatever the backend answers, a list returned by
    [translate_segments] has one segment for each input segment, in the
    same order, with the same start, end and text, and with a translation
    set. *)
Theorem translated_segments_shape
        (settings : Settings)
        (backend : string -> string -> string -> string -> option string -> M string)
        (segments out : list Segment)
        (source target context : string) (provider : option string) (w w' : World) :
  Translator.translate_segments settings backend segments
                                source target context provider w
  = (Ok out, w') ->
  List.length out = List.length segments
  /\ Forall2 translated_from segments out.
Proof.
  intros H. unfold Translator.translate_segments in H.
  destruct segments as [| s rest]; [discriminate H | ].
  destruct (translate_loop_shape settings backend source target context provider
              (s :: rest) [] out w w' H) as (tail & Hout & Htail).
  cbn [app] in Hout. subst out.
  split; [symmetry; exact (Forall2_length Htail) | exact Htail].
Qed.

Lemma translated_segments_shape_witness :
  exists out w',
    Translator.translate_segments Fixtures.settings Fixtures.stub_translate
                                  Fixtures.hello_world "en" "es" "greeting" None
                                  Fixtures.world
    = (Ok out, w')
    /\ List.length out = 2
    /\ Forall2 translated_from Fixtures.hello_world out.
Proof.
  eexists. eexists.
  assert (H : Translator.translate_segments Fixtures.settings Fixtures.stub_translate
                Fixtures.hello_world "en" "es" "greeting" None Fixtures.world
              = (Ok (map (with_translation (fun t => t ++ "-ES")) Fixtures.hello_world),
                 Fixtures.world)) by reflexivity.
  split; [exact H | ].
  exact (translated_segments_shape _ _ _ _ _ _ _ _ _ _ H).
Defined.

(** X10.  When the translation of one segment fails in every world, the
    whole call fails, and the segments after that one are never looked at:
    the outcome and the world are those of the list cut after the failing
    segment. *)
Theorem translation_stops_at_first_failure
        (settings : Settings)
        (backend : string -> string -> string -> string -> option string -> M string)
        (before after : list Segment) (bad : Segment)
        (source target context : string) (provider : option string) (w : World) :
  (forall w0, exists e w1,
     Translator.translate_segment settings backend
                                  (text bad) source target context provider w0
     = (Err e, w1)) ->
  Translator.translate_segments settings backend (before ++ bad :: after)
                                source target context provider w
  = Translator.translate_segments settings backend (before ++ [bad])
                                  source target context provider w
  /\ exists e w',
       Translator.translate_segments settings backend (before ++ bad :: after)
                                     source target context provider w
       = (Err e, w').
Proof.
  intros Hbad.
  assert (E : forall l : list Segment,
             Translator.translate_segments settings backend (before ++ bad :: l)
                                           source target context provider w
             = Translator.translate_loop settings backend (before ++ bad :: l) []
                                         source target context provider w).
  { intros l. unfold Translator.translate_segments. now destruct before. }
  rewrite (E after), (E []).
  apply (translate_loop_cut settings backend source target context provider bad Hbad).
Qed.

Lemma translation_stops_at_first_failure_witness :
  (forall w0, exists e w1,
     Translator.translate_segment Fixtures.settings (MoreFixtures.down_for "World")
                                  (text Fixtures.world_) "en" "es" "greeting" None w0
     = (Err e, w1))
  /\ exists e w',
       Translator.translate_segments
         Fixtures.settings (MoreFixtures.down_for "World")
         ([Fixtures.hello] ++ Fixtures.world_ :: Samples.tutorial)
         "en" "es" "greeting" None Fixtures.world
       = (Err e, w').
Proof.
  assert (H : forall w0, exists e w1,
             Translator.translate_segment Fixtures.settings (MoreFixtures.down_for "World")
                                          (text Fixtures.world_) "en" "es" "greeting" None w0
             = (Err e, w1)).
  { intros w0. eexists. eexists. reflexivity. }
  split; [exact H | ].
  exact (proj2 (translation_stops_at_first_failure
                  Fixtures.settings (MoreFixtures.down_for "World")
                  [Fixtures.hello] Samples.tutorial Fixtures.world_
                  "en" "es" "greeting" None Fixtures.world H)).
Defined.

(** ** The services that go through a transcript file *)

Lemma bind_ret {A} (m : M A) (w : World) : bind m (fun a => ret a) w = m w.
Proof. unfold bind, ret. now destruct (m w) as [[a | e] w']. Qed.

Section ThroughTheFile.

Variable settings : Settings.
Variable backend : string -> string -> string -> string -> option string -> M string.
Variable py_str : spec_float -> string.
Variable py_float : string -> option spec_float.




(** What saving leaves behind. *)
Lemma saved_file (segments : list Segment) (path : string) (w : World) :
  segments <> [] ->
  exists w1,
    Transcriber.save_transcript_to_csv py_str segments path w = (Ok path, w1)
    /\ files w1 path = Some (Transcriber.written py_str segments).
Proof.
  intros Hne. destruct segments as [| first rest]; [contradiction | ].
  eexists. split; [apply save_writes | ].
  cbn [files]. now rewrite String.eqb_refl.
Qed.

End ThroughTheFile.


Lemma hello_world_survives :
  Forall (survives Fixtures.py_str Fixtures.py_float) Fixtures.hello_world.
Proof.
  assert (fits : forall t, (Z.of_nat (String.length t) <=? Csv.field_limit)%Z = true ->
                 (Z.of_nat (String.length t) <= Csv.field_limit)%Z)
    by (intros t; apply Z.leb_le).
  repeat (apply Forall_cons || apply Forall_nil);
    (split; [ | split]);
    unfold prints_back, storable;
    repeat split; try reflexivity; apply fits; reflexivity.
Qed.




Section TranscribeAndSave.

Variable settings : Settings.
Variable storage : StorageSettings.
Variable joinpath : string -> string -> string.
Variable gateway : string -> string -> option string -> M (list Segment).
Variable py_str : spec_float -> string.

Lemma transcribe_audio_passes (audio data language : string) (provider : option string)
      (w : World) :
  files w audio = Some data ->
  PyStr.mem language (SUPPORTED_LANGUAGES settings) = true ->
  Transcriber.transcribe_audio settings gateway audio language provider w
  = gateway audio language provider w.
Proof.
  intros Hf Hl. unfold Transcriber.transcribe_audio, FileHandler.file_exists.
  unfold bind at 1. rewrite Hf. cbn [negb]. rewrite Hl. cbn [negb].
  apply bind_ret.
Qed.

End TranscribeAndSave.

(** X13.  [transcribe_and_save] asks the provider first and looks at its
    destination afterwards: called without an output path and without a file
    id, it raises [ValueError] in the world the transcription has left, the
    transcript being lost; and an empty transcription makes it raise
    [ValueError] as well, nothing being saved. *)
Theorem transcribe_and_save_fails_after_the_call
        (settings : Settings) (storage : StorageSettings)
        (joinpath : string -> string -> string)
        (gateway : string -> string -> option string -> M (list Segment))
        (py_str : spec_float -> string)
        (audio data language path : string) (provider file_id : option string)
        (segments : list Segment) (w w1 : World) :
  files w audio = Some data ->
  PyStr.mem language (SUPPORTED_LANGUAGES settings) = true ->
  gateway audio language provider w = (Ok segments, w1) ->
  TranscriberIO.transcribe_and_save settings storage joinpath gateway py_str
                                    audio None None language provider w
  = (Err (ValueError "Either output_csv_path or file_id must be provided"), w1)
  /\ (segments = [] ->
      TranscriberIO.transcribe_and_save settings storage joinpath gateway py_str
                                        audio (Some path) file_id language provider w
      = (Err (ValueError "Cannot save empty transcript"), w1)).
Proof.
  intros Hf Hl Hg.
  assert (Ht : Transcriber.transcribe_audio settings gateway audio language provider w
               = (Ok segments, w1)).
  { now rewrite (transcribe_audio_passes settings gateway audio data language provider w). }
  unfold TranscriberIO.transcribe_and_save.
  rewrite !(bind_ok _ _ _ _ _ Ht). split; [reflexivity | ].
  intros ->. reflexivity.
Qed.

Lemma transcribe_and_save_fails_after_the_call_witness :
  files Fixtures.world "audio.wav" = Some "RIFF"
  /\ PyStr.mem "en" (SUPPORTED_LANGUAGES Fixtures.settings) = true
  /\ TranscriberIO.transcribe_and_save
       Fixtures.settings MoreFixtures.storage MoreFixtures.joinpath
       (LLMClient.transcribe_audio Fixtures.settings Fixtures.empty_array_sdk
                                   Fixtures.json_loads)
       Fixtures.py_str "audio.wav" None None "en" (Some "gemini") Fixtures.world
     = (Err (ValueError "Either output_csv_path or file_id must be provided"),
        {| requests :=
             [GenerateContentAudio "gemini-2.0-flash-exp"
                                   (LLMClient.transcription_prompt "en") "RIFF"];
           files := files Fixtures.world |}).
Proof.
  assert (H1 : files Fixtures.world "audio.wav" = Some "RIFF") by reflexivity.
  assert (H2 : PyStr.mem "en" (SUPPORTED_LANGUAGES Fixtures.settings) = true)
    by reflexivity.
  split; [exact H1 | split; [exact H2 | ] ].
  refine (proj1 (transcribe_and_save_fails_after_the_call
                   Fixtures.settings MoreFixtures.storage MoreFixtures.joinpath
                   (LLMClient.transcribe_audio Fixtures.settings Fixtures.empty_array_sdk
                                               Fixtures.json_loads)
                   Fixtures.py_str "audio.wav" "RIFF" "en" "out.csv" (Some "gemini") None
                   [] Fixtures.world _ H1 H2 _)).
  reflexivity.
Defined.

(** X14.  When the provider returns segments that survive the file,
    [transcribe_and_save] returns them with the path of the transcript, which
    for a file id is the id with the extension [csv] in the transcript
    directory, and loading that file gives the segments back. *)
Theorem transcribe_and_save_persists
        (settings : Settings) (storage : StorageSettings)
        (joinpath : string -> string -> string)
        (gateway : string -> string -> option string -> M (list Segment))
        (py_str : spec_float -> string) (py_float : string -> option spec_float)
        (audio data language id : string) (provider : option string)
        (first : Segment) (rest : list Segment) (w w1 : World) :
  files w audio = Some data ->
  PyStr.mem language (SUPPORTED_LANGUAGES settings) = true ->
  gateway audio language provider w = (Ok (first :: rest), w1) ->
  Forall (survives py_str py_float) (first :: rest) ->
  let csv_path := joinpath (TRANSCRIPT_DIR storage) (id ++ ".csv") in
  exists w2,
    TranscriberIO.transcribe_and_save settings storage joinpath gateway py_str
                                      audio None (Some id) language provider w
    = (Ok (first :: rest, csv_path), w2)
    /\ requests w2 = requests w1
    /\ Transcriber.load_transcript_from_csv py_float csv_path w2
       = (Ok (map as_loaded (first :: rest)), w2).
Proof.
  intros Hf Hl Hg Hall csv_path.
  assert (Ht : Transcriber.transcribe_audio settings gateway audio language provider w
               = (Ok (first :: rest), w1)).
  { now rewrite (transcribe_audio_passes settings gateway audio data language provider w). }
  destruct (saved_file py_str (first :: rest) csv_path w1) as (w2 & Hsave & Hfile);
    [discriminate | ].
  exists w2. unfold TranscriberIO.transcribe_and_save.
  rewrite (bind_ok _ _ _ _ _ Ht).
  unfold FileOps.get_file_path, Config.get_storage_path. cbn [String.eqb Ascii.eqb Bool.eqb].
  unfold lift. unfold bind at 1. fold csv_path.
  rewrite (bind_ok _ _ _ _ _ Hsave). split; [reflexivity | split].
  - rewrite save_writes in Hsave. inversion Hsave. reflexivity.
  - exact (load_reads py_str py_float (first :: rest) csv_path w2 Hall Hfile).
Qed.

Lemma transcribe_and_save_persists_witness :
  exists w2,
    TranscriberIO.transcribe_and_save
      Fixtures.settings MoreFixtures.storage MoreFixtures.joinpath
      (fun _ _ _ => ret Fixtures.hello_world)
      Fixtures.py_str "audio.wav" None (Some "job-1") "en" None Fixtures.world
    = (Ok (Fixtures.hello_world, "/srv/app/storage/transcripts/job-1.csv"), w2)
    /\ Transcriber.load_transcript_from_csv
         Fixtures.py_float "/srv/app/storage/transcripts/job-1.csv" w2
       = (Ok Fixtures.hello_world, w2).
Proof.
  assert (H1 : files Fixtures.world "audio.wav" = Some "RIFF") by reflexivity.
  assert (H2 : PyStr.mem "en" (SUPPORTED_LANGUAGES Fixtures.settings) = true)
    by reflexivity.
  destruct (transcribe_and_save_persists
              Fixtures.settings MoreFixtures.storage MoreFixtures.joinpath
              (fun _ _ _ => ret Fixtures.hello_world)
              Fixtures.py_str Fixtures.py_float "audio.wav" "RIFF" "en" "job-1" None
              Fixtures.hello [Fixtures.world_] Fixtures.world Fixtures.world
              H1 H2 eq_refl hello_world_survives)
    as (w2 & Hsave & _ & Hload).
  exists w2. split; [exact Hsave | exact Hload].
Defined.

(** ** The file of translations *)





Section TranslatedRoundTrip.

Variable py_str : spec_float -> string.
Variable py_float : string -> option spec_float.






End TranslatedRoundTrip.


Section TranslatedFile.

Variable storage : StorageSettings.
Variable joinpath : string -> string -> string.
Variable py_str : spec_float -> string.
Variable py_float : string -> option spec_float.
Variable timedelta : Type.
Variable timedelta_seconds : spec_float -> result timedelta.
Variable srt_compose : list (SRTGeneratorIO.Subtitle timedelta) -> result string.


(** What [save_translated_segments_to_csv] writes for segments that all
    have a translation. *)
Let written (segments : list Segment) : string :=
  Csv.writerow TranslatorIO.fieldnames
  ++ String.concat EmptyString
       (map (fun s => Csv.writerow [py_str (start s); py_str (end_ s); text s;
                                    translation_of s])
            segments).





End TranslatedFile.




Section WrongLayout.

Variable storage : StorageSettings.
Variable joinpath : string -> string -> string.
Variable py_str : spec_float -> string.
Variable py_float : string -> option spec_float.
Variable timedelta : Type.
Variable timedelta_seconds : spec_float -> result timedelta.
Variable srt_compose : list (SRTGeneratorIO.Subtitle timedelta) -> result string.



End WrongLayout.



(** ** Segments without a translation *)

Section Untranslated.

Variable py_str : spec_float -> string.


End Untranslated.



Section SubtitleFields.

Variable timedelta : Type.
Variable timedelta_seconds : spec_float -> result timedelta.
Variable srt_compose : list (SRTGeneratorIO.Subtitle timedelta) -> result string.

Lemma validate_fields_stops (before after : list Segment) (bad : Segment) :
  Forall (fun s => translated_text s <> None) before ->
  translated_text bad = None ->
  forall i,
    SRTGeneratorIO.validate_fields true (before ++ bad :: after) i
    = Err (ValueError ("Segment " ++ PyStr.of_nat (i + List.length before)
                       ++ " missing 'translated_text' field")).
Proof.
  intros Hbefore Hbad. induction Hbefore as [| s rest Hs Hrest IH]; intros i.
  - cbn [app SRTGeneratorIO.validate_fields SRTGeneratorIO.text_field List.length].
    rewrite Hbad, Nat.add_0_r. reflexivity.
  - cbn [app SRTGeneratorIO.validate_fields SRTGeneratorIO.text_field List.length].
    destruct (translated_text s) as [t | ]; [ | contradiction].
    rewrite IH. now rewrite Nat.add_succ_r.
Qed.

Lemma validate_fields_passes (segments : list Segment) :
  Forall (fun s => translated_text s <> None) segments ->
  forall i, SRTGeneratorIO.validate_fields true segments i = Ok tt.
Proof.
  induction 1 as [| s rest Hs Hrest IH]; intros i; [reflexivity | ].
  cbn [SRTGeneratorIO.validate_fields SRTGeneratorIO.text_field].
  destruct (translated_text s) as [t | ]; [apply IH | contradiction].
Qed.

End SubtitleFields.

(** X18.  Asked for translated subtitles, [save_srt] refuses a list in
    which a segment has no translation: it raises a [ValueError] that gives
    the position, counted from 0, of the first such segment, before anything
    is asked of the libraries and before the file is opened, so that nothing
    is written. *)
Theorem save_srt_rejects_untranslated
        (timedelta : Type) (timedelta_seconds : spec_float -> result timedelta)
        (srt_compose : list (SRTGeneratorIO.Subtitle timedelta) -> result string)
        (before after : list Segment) (bad : Segment) (path : string) (w : World) :
  Forall (fun s => translated_text s <> None) before ->
  translated_text bad = None ->
  SRTGeneratorIO.save_srt timedelta timedelta_seconds srt_compose
                          (before ++ bad :: after) path true w
  = (Err (ValueError ("Segment " ++ PyStr.of_nat (List.length before)
                      ++ " missing 'translated_text' field")), w).
Proof.
  intros Hbefore Hbad. unfold SRTGeneratorIO.save_srt. apply bind_err. unfold lift.
  unfold SRTGeneratorIO.generate_srt_from_segments.
  destruct (before ++ bad :: after)%list as [| s l] eqn:E;
    [destruct before; discriminate E | ].
  rewrite <- E.
  now rewrite (validate_fields_stops before after bad Hbefore Hbad 0).
Qed.

Lemma save_srt_rejects_untranslated_witness :
  translated_text Fixtures.world_ = None
  /\ SRTGeneratorIO.save_srt
       SrtFixtures.timedelta SrtFixtures.timedelta_seconds SrtFixtures.srt_compose
       ([SrtFixtures.hola] ++ Fixtures.world_ :: [SrtFixtures.adios])
       "film.srt" true Fixtures.world
     = (Err (ValueError "Segment 1 missing 'translated_text' field"), Fixtures.world).
Proof.
  assert (H1 : Forall (fun s => translated_text s <> None) [SrtFixtures.hola]).
  { repeat constructor. discriminate. }
  assert (H2 : translated_text Fixtures.world_ = None) by reflexivity.
  split; [exact H2 | ].
  exact (save_srt_rejects_untranslated
           SrtFixtures.timedelta SrtFixtures.timedelta_seconds SrtFixtures.srt_compose
           [SrtFixtures.hola] [SrtFixtures.adios] Fixtures.world_
           "film.srt" Fixtures.world H1 H2).
Defined.

(** ** From translated segments to subtitles *)

Lemma Forall2_nth_error_l {A B} (R : A -> B -> Prop) (l : list A) (l' : list B) :
  Forall2 R l l' ->
  forall k a, nth_error l k = Some a -> exists b, nth_error l' k = Some b /\ R a b.
Proof.
  induction 1 as [| x y l l' Hxy Hl IH]; intros k a Hk.
  - destruct k; discriminate Hk.
  - destruct k as [| k]; cbn in Hk |- *.
    + injection Hk as <-. now exists y.
    + now apply IH.
Qed.

Section Subtitles.

Variable timedelta : Type.
Variable timedelta_seconds : spec_float -> result timedelta.
Variable srt_compose : list (SRTGeneratorIO.Subtitle timedelta) -> result string.

(** A segment that can be made a subtitle of translated text. *)
Let ready (o : Segment) : Prop :=
  translated_text o <> None
  /\ exists a b, timedelta_seconds (start o) = Ok a /\ timedelta_seconds (end_ o) = Ok b.

(** The subtitle made of a segment. *)
Let made_of (o : Segment) (number : nat) (sub : SRTGeneratorIO.Subtitle timedelta) : Prop :=
  SRTGeneratorIO.index timedelta sub = number
  /\ translated_text o = Some (SRTGeneratorIO.content timedelta sub)
  /\ timedelta_seconds (start o) = Ok (SRTGeneratorIO.sub_start timedelta sub)
  /\ timedelta_seconds (end_ o) = Ok (SRTGeneratorIO.sub_end timedelta sub).

Lemma create_subtitles_all (out : list Segment) :
  Forall ready out ->
  forall i subs,
  exists more,
    SRTGeneratorIO.create_subtitles timedelta timedelta_seconds true out i subs
    = Ok (subs ++ more)%list
    /\ List.length more = List.length out
    /\ forall k o, nth_error out k = Some o ->
         exists sub, nth_error more k = Some sub /\ made_of o (i + k) sub.
Proof.
  induction 1 as [| o rest Ho Hrest IH]; intros i subs.
  - exists []. cbn. rewrite app_nil_r. repeat split. intros [| k] o H; discriminate H.
  - destruct Ho as (Ht & a & b & Ea & Eb).
    destruct (translated_text o) as [t | ] eqn:Et; [ | contradiction].
    cbn [SRTGeneratorIO.create_subtitles SRTGeneratorIO.text_field].
    rewrite Et. unfold SRTGeneratorIO.create_subtitle. rewrite Ea, Eb.
    destruct (IH (S i)
                 (subs ++ [ {| SRTGeneratorIO.index := i;
                               SRTGeneratorIO.sub_start := a;
                               SRTGeneratorIO.sub_end := b;
                               SRTGeneratorIO.content := t |} ])%list)
      as (more & Hmore & Hlen & Hnth).
    eexists (_ :: more). split; [ | split].
    + rewrite Hmore, <- app_assoc. reflexivity.
    + cbn [List.length]. now rewrite Hlen.
    + intros [| k] o' Hk; cbn in Hk |- *.
      * injection Hk as <-. eexists. split; [reflexivity | ].
        unfold made_of. cbn. rewrite Nat.add_0_r, Et, Ea, Eb. now repeat split.
      * destruct (Hnth k o' Hk) as (sub & Hsub & Hmade).
        exists sub. split; [exact Hsub | ]. now rewrite Nat.add_succ_r.
Qed.

End Subtitles.

(** X19.  What [translate_segments] returns is accepted by
    [generate_srt_from_segments] asked for translated subtitles: when the
    times of the segments are durations, the library is given one subtitle
    for each segment, in the same order and numbered from 1, with the times
    of the segment and its translation as content. *)
Theorem translated_segments_become_subtitles
        (settings : Settings)
        (backend : string -> string -> string -> string -> option string -> M string)
        (timedelta : Type) (timedelta_seconds : spec_float -> result timedelta)
        (srt_compose : list (SRTGeneratorIO.Subtitle timedelta) -> result string)
        (segments out : list Segment)
        (source target context : string) (provider : option string) (w w' : World) :
  Translator.translate_segments settings backend segments
                                source target context provider w
  = (Ok out, w') ->
  (forall s, In s segments ->
     exists a b, timedelta_seconds (start s) = Ok a /\ timedelta_seconds (end_ s) = Ok b) ->
  exists subtitles,
    SRTGeneratorIO.generate_srt_from_segments timedelta timedelta_seconds srt_compose
                                              out true
    = srt_compose subtitles
    /\ List.length subtitles = List.length segments
    /\ forall k s, nth_error segments k = Some s ->
         exists sub o,
           nth_error subtitles k = Some sub /\ nth_error out k = Some o
           /\ SRTGeneratorIO.index timedelta sub = S k
           /\ translated_text o = Some (SRTGeneratorIO.content timedelta sub)
           /\ timedelta_seconds (start s) = Ok (SRTGeneratorIO.sub_start timedelta sub)
           /\ timedelta_seconds (end_ s) = Ok (SRTGeneratorIO.sub_end timedelta sub).
Proof.
  intros Htr Htimes. unfold Translator.translate_segments in Htr.
  destruct segments as [| s0 rest]; [discriminate Htr | ].
  destruct (translate_loop_shape settings backend source target context provider
              (s0 :: rest) [] out w w' Htr) as (tail & Hout & Hshape).
  cbn [app] in Hout. subst tail.
  assert (Hready : Forall (fun o => translated_text o <> None
                                    /\ exists a b, timedelta_seconds (start o) = Ok a
                                                   /\ timedelta_seconds (end_ o) = Ok b)
                          out).
  { clear Htr. revert Htimes. induction Hshape as [| s o l l' Hso Hl IH]; intros Htimes.
    - constructor.
    - constructor.
      + destruct Hso as (Es & Ee & _ & Ht). rewrite Es, Ee.
        split; [exact Ht | apply Htimes; now left].
      + apply IH. intros s' Hin. apply Htimes. now right. }
  destruct (create_subtitles_all timedelta timedelta_seconds out Hready 1 [])
    as (subtitles & Hcreate & Hlen & Hnth).
  cbn [app] in Hcreate.
  exists subtitles. split; [ | split].
  - unfold SRTGeneratorIO.generate_srt_from_segments.
    destruct out as [| o0 out']; [inversion Hshape | ].
    rewrite (validate_fields_passes (o0 :: out')), Hcreate; [reflexivity | ].
    eapply Forall_impl; [ | exact Hready]. now intros o [Ht _].
  - rewrite Hlen. symmetry. exact (Forall2_length Hshape).
  - intros k s Hk.
    destruct (Forall2_nth_error_l _ _ _ Hshape k s Hk) as (o & Ho & Hso).
    destruct (Hnth k o Ho) as (sub & Hsub & Hi & Hc & Ha & Hb).
    destruct Hso as (Es & Ee & _ & _).
    exists sub, o. rewrite <- Es, <- Ee. now repeat split.
Qed.

Lemma translated_segments_become_subtitles_witness :
  exists subtitles,
    SRTGeneratorIO.generate_srt_from_segments
      SrtFixtures.timedelta SrtFixtures.timedelta_seconds SrtFixtures.srt_compose
      (map (with_translation (fun t => t ++ "-ES")) Fixtures.hello_world) true
    = SrtFixtures.srt_compose subtitles
    /\ List.length subtitles = 2.
Proof.
  assert (H : Translator.translate_segments Fixtures.settings Fixtures.stub_translate
                Fixtures.hello_world "en" "es" "greeting" None Fixtures.world
              = (Ok (map (with_translation (fun t => t ++ "-ES")) Fixtures.hello_world),
                 Fixtures.world)) by reflexivity.
  destruct (translated_segments_become_subtitles
              Fixtures.settings Fixtures.stub_translate
              SrtFixtures.timedelta SrtFixtures.timedelta_seconds SrtFixtures.srt_compose
              Fixtures.hello_world _ "en" "es" "greeting" None
              Fixtures.world Fixtures.world H)
    as (subtitles & Hgen & Hlen & _).
  - intros s _. exists (start s), (end_ s). split; reflexivity.
  - exists subtitles. split; [exact Hgen | exact Hlen].
Defined.

(** ** Subtitles read back *)

Section LoadSrt.

Variable timedelta : Type.
Variable timedelta_seconds : spec_float -> result timedelta.
Variable total_seconds : timedelta -> spec_float.
Variable srt_compose : list (SRTGeneratorIO.Subtitle timedelta) -> result string.
Variable srt_parse : string -> result (list (SRTGeneratorIO.Subtitle timedelta)).

Lemma load_srt_cases (path : string) (w : World) :
  forall segments w',
    SRTGeneratorIO.load_srt timedelta total_seconds srt_parse path w = (Ok segments, w') ->
    w' = w
    /\ exists subtitles,
         segments = map (SRTGeneratorIO.segment_of timedelta total_seconds) subtitles.
Proof.
  intros segments w'. unfold SRTGeneratorIO.load_srt.
  unfold bind at 1. unfold FileHandler.file_exists.
  destruct (files w path) as [data | ] eqn:Ef; cbn [negb]; [ | discriminate].
  unfold try_except, bind, TextIO.read_text, lift, ret, raise, SRTGeneratorIO.parse_srt.
  rewrite Ef.
  destruct (srt_parse (TextIO.universal_newlines data)) as [subtitles | e];
    [ | discriminate].
  intros H. inversion H; subst. split; [reflexivity | now exists subtitles].
Qed.

Lemma untranslated_first (first : Segment) (rest : list Segment) (path : string)
      (w : World) :
  translated_text first = None ->
  SRTGeneratorIO.save_srt timedelta timedelta_seconds srt_compose
                          (first :: rest) path true w
  = (Err (ValueError "Segment 0 missing 'translated_text' field"), w).
Proof.
  intros H. unfold SRTGeneratorIO.save_srt. apply bind_err. unfold lift.
  unfold SRTGeneratorIO.generate_srt_from_segments.
  cbn [SRTGeneratorIO.validate_fields SRTGeneratorIO.text_field]. now rewrite H.
Qed.

End LoadSrt.

(** X20.  Loading a subtitle file changes nothing in the world, and the
    segments it returns carry no translation: handed back to [save_srt] with
    its default setting, which asks for translated text, they are refused
    with a [ValueError], and nothing is written. *)
Theorem loaded_subtitles_carry_no_translation
        (timedelta : Type) (timedelta_seconds : spec_float -> result timedelta)
        (total_seconds : timedelta -> spec_float)
        (srt_compose : list (SRTGeneratorIO.Subtitle timedelta) -> result string)
        (srt_parse : string -> result (list (SRTGeneratorIO.Subtitle timedelta)))
        (path out : string) (segments : list Segment) (w w' w'' : World) :
  SRTGeneratorIO.load_srt timedelta total_seconds srt_parse path w = (Ok segments, w') ->
  w' = w
  /\ Forall (fun s => translated_text s = None) segments
  /\ SRTGeneratorIO.save_srt timedelta timedelta_seconds srt_compose
                             segments out true w''
     = (Err (ValueError
               match segments with
               | [] => "Cannot generate SRT from empty segments"
               | _ :: _ => "Segment 0 missing 'translated_text' field"
               end), w'').
Proof.
  intros H.
  destruct (load_srt_cases timedelta total_seconds srt_parse path w segments w' H)
    as (Hw & subtitles & ->).
  split; [exact Hw | split].
  - apply Forall_forall. intros s Hin. apply in_map_iff in Hin as (sub & <- & _).
    reflexivity.
  - destruct subtitles as [| sub subs]; cbn [map]; [reflexivity | ].
    now apply untranslated_first.
Qed.

Lemma loaded_subtitles_carry_no_translation_witness :
  exists segments,
    SRTGeneratorIO.load_srt SrtFixtures.timedelta SrtFixtures.total_seconds
                            SrtFixtures.srt_parse_whole "film.srt"
                            SrtFixtures.world_with_srt
    = (Ok segments, SrtFixtures.world_with_srt)
    /\ SRTGeneratorIO.save_srt
         SrtFixtures.timedelta SrtFixtures.timedelta_seconds SrtFixtures.srt_compose
         segments "copy.srt" true SrtFixtures.world_with_srt
       = (Err (ValueError "Segment 0 missing 'translated_text' field"),
          SrtFixtures.world_with_srt).
Proof.
  eexists.
  assert (H : SRTGeneratorIO.load_srt SrtFixtures.timedelta SrtFixtures.total_seconds
                SrtFixtures.srt_parse_whole "film.srt" SrtFixtures.world_with_srt
              = (Ok [ {| start := Prim2SF 0.0; end_ := Prim2SF 2.5; text := "Hello";
                         translated_text := None |} ],
                 SrtFixtures.world_with_srt)) by reflexivity.
  split; [exact H | ].
  exact (proj2 (proj2 (loaded_subtitles_carry_no_translation
                         SrtFixtures.timedelta SrtFixtures.timedelta_seconds
                         SrtFixtures.total_seconds SrtFixtures.srt_compose
                         SrtFixtures.srt_parse_whole "film.srt" "copy.srt" _
                         SrtFixtures.world_with_srt SrtFixtures.world_with_srt
                         SrtFixtures.world_with_srt H))).
Defined.

(** ** Words and contexts *)

Section Words.

Lemma split_aux_flush (cur : list ascii) (k k' : list string) :
  (match cur with
   | [] => k
   | _ => string_of_list_ascii (List.rev cur) :: k
   end ++ k')%list
  = match cur with
    | [] => (k ++ k')%list
    | _ => string_of_list_ascii (List.rev cur) :: (k ++ k')%list
    end.
Proof. now destruct cur. Qed.

(** A space between two texts separates their words. *)
Lemma split_aux_space (a b : string) :
  forall cur,
    PyStr.split_aux (a ++ " " ++ b) cur
    = (PyStr.split_aux a cur ++ PyStr.split b)%list.
Proof.
  induction a as [| c a IH]; intros cur.
  - cbn [append PyStr.split_aux]. change (PyStr.isspace " ") with true. cbv iota.
    rewrite split_aux_flush. reflexivity.
  - cbn [append PyStr.split_aux]. destruct (PyStr.isspace c).
    + rewrite IH, split_aux_flush. reflexivity.
    + apply IH.
Qed.

Lemma split_join (texts : list string) :
  PyStr.split (PyStr.join " " texts) = concat (map PyStr.split texts).
Proof.
  induction texts as [| x rest IH]; [reflexivity | ].
  destruct rest as [| y rest].
  - cbn [PyStr.join map concat]. now rewrite app_nil_r.
  - change (PyStr.join " " (x :: y :: rest)) with (x ++ " " ++ PyStr.join " " (y :: rest)).
    unfold PyStr.split at 1. rewrite split_aux_space, IH. reflexivity.
Qed.

Lemma length_concat_sum {A} (l : list (list A)) :
  List.length (concat l) = list_sum (map (@List.length A) l).
Proof.
  induction l as [| x l IH]; [reflexivity | ].
  cbn [concat map list_sum]. now rewrite length_app, IH.
Qed.

End Words.

(** X21.  The words of the full transcript are the words of the segments,
    in order: joining the texts with a space neither glues two words nor
    cuts one.  So the word count that [build_simple_context] reports is the
    sum of the word counts of the segments, and its duration is the end of
    the last segment less the start of the first. *)
Theorem transcript_words_are_segment_words
        (format_1f : spec_float -> string)
        (first : Segment) (rest : list Segment) (source_language : string) :
  PyStr.split (Transcriber.get_full_transcript_text (first :: rest))
  = concat (map (fun s => PyStr.split (text s)) (first :: rest))
  /\ ContextBuilderIO.build_simple_context format_1f (first :: rest) source_language
     = "Video transcript in " ++ source_language ++ " language. "
       ++ "Duration: "
       ++ format_1f (PyFloat.sub (end_ (List.last (first :: rest) first)) (start first))
       ++ " seconds. "
       ++ "Approximate word count: "
       ++ PyStr.of_nat
            (list_sum (map (fun s => List.length (PyStr.split (text s))) (first :: rest)))
       ++ " words."
  /\ ContextBuilderIO.build_simple_context format_1f [] source_language
     = "Empty transcript.".
Proof.
  assert (H : PyStr.split (PyStr.join " " (map text (first :: rest)))
              = concat (map (fun s => PyStr.split (text s)) (first :: rest))).
  { rewrite split_join, map_map. reflexivity. }
  split; [exact H | split; [ | reflexivity] ].
  unfold ContextBuilderIO.build_simple_context. rewrite H.
  rewrite length_concat_sum, map_map. reflexivity.
Qed.

Section Stripped.

Lemma rstrip_keeps_last (s : string) (c : ascii) :
  PyStr.isspace c = false ->
  PyStr.rstrip (s ++ String c EmptyString) = s ++ String c EmptyString.
Proof.
  intros Hc. induction s as [| d s IH].
  - cbn. now rewrite Hc.
  - cbn [append PyStr.rstrip]. rewrite IH.
    destruct (s ++ String c EmptyString) eqn:E; [destruct s; discriminate E | reflexivity].
Qed.

(** A string that begins and ends with characters that are not spaces. *)
Lemma strip_framed (c d : ascii) (s : string) :
  PyStr.isspace c = false -> PyStr.isspace d = false ->
  PyStr.strip (String c (s ++ String d EmptyString)) = String c (s ++ String d EmptyString).
Proof.
  intros Hc Hd. unfold PyStr.strip. cbn [PyStr.lstrip]. rewrite Hc.
  apply (rstrip_keeps_last (String c s) d Hd).
Qed.

Lemma fallback_context_stripped (full_text source : string) :
  PyStr.strip (ContextBuilder.fallback_context full_text source)
  = ContextBuilder.fallback_context full_text source.
Proof.
  unfold ContextBuilder.fallback_context.
  set (n := PyStr.of_nat (List.length (PyStr.split full_text))).
  replace ("Content in " ++ source ++ " language. Length: approximately " ++ n ++ " words.")
    with (String "C" (("ontent in " ++ source ++ " language. Length: approximately "
                       ++ n ++ " words") ++ "."))
    by (rewrite !sapp_assoc; reflexivity).
  now apply strip_framed.
Qed.

Variable settings : Settings.
Variables gateway_openai gateway_gemini : string -> string -> string -> string -> M string.

Lemma generate_context_total (full_text source : string) (provider : option string)
      (w : World) :
  exists context w',
    ContextBuilder._generate_context_with_llm settings gateway_openai gateway_gemini
                                              full_text source provider w
    = (Ok context, w')
    /\ PyStr.strip context = context.
Proof.
  unfold ContextBuilder._generate_context_with_llm, try_except, bind, ret.
  set (attempt := if String.eqb _ "openai" then _ else _).
  destruct (attempt w) as [[context | e] w1].
  - eexists. eexists. split; [reflexivity | apply strip_idem].
  - eexists. eexists. split; [reflexivity | apply fallback_context_stripped].
Qed.

End Stripped.

(** X22.  On a list that is not empty [build_context] never raises,
    whatever the gateway does, be it an error of any kind or an answer of
    any shape; and the context it returns has no white space around it. *)
Theorem build_context_always_answers
        (settings : Settings)
        (gateway_openai gateway_gemini : string -> string -> string -> string -> M string)
        (first : Segment) (rest : list Segment)
        (source : string) (provider : option string) (w : World) :
  exists context w',
    ContextBuilder.build_context settings gateway_openai gateway_gemini
                                 (first :: rest) source provider w
    = (Ok context, w')
    /\ PyStr.strip context = context.
Proof.
  unfold ContextBuilder.build_context.
  destruct (String.length _ <? 10)%nat.
  - exists ContextBuilder.short_context, w. split; reflexivity.
  - rewrite bind_ret. apply generate_context_total.
Qed.

(** ** Audio extraction *)

Section ExtractAudio.

Variable storage : StorageSettings.
Variable joinpath : string -> string -> string.
Variable py_float : string -> option spec_float.
Variable subprocess_run : list string -> World -> ProcessOutcome * World.

Local Abbreviation extract_audio :=
  (AudioExtractor.extract_audio storage joinpath subprocess_run).

(** With the video there and the output path given, the outcome is decided
    by FFmpeg and by the presence of the output file afterwards. *)
Lemma extract_audio_eq (video data path : string) (file_id : option string)
      (w : World) :
  files w video = Some data ->
  extract_audio video (Some path) file_id w
  = match subprocess_run (AudioExtractor.ffmpeg_command video path) w with
    | (Completed _, w') =>
        match files w' path with
        | Some _ => (Ok path, w')
        | None =>
            (Err (RuntimeError
                    ("Unexpected error during audio extraction: "
                     ++ "FFmpeg completed but output file was not created")), w')
        end
    | (CalledProcessError stderr, w') =>
        (Err (RuntimeError ("FFmpeg failed to extract audio: " ++ stderr)), w')
    | (ProcessFailure e, w') =>
        (Err (RuntimeError
                ("Unexpected error during audio extraction: " ++ str_exn e)), w')
    end.
Proof.
  intros Hf. unfold AudioExtractor.extract_audio.
  unfold bind, FileHandler.file_exists, ret. rewrite Hf. cbn [negb].
  destruct (subprocess_run (AudioExtractor.ffmpeg_command video path) w)
    as [[stdout | stderr | e] w']; try reflexivity.
  now destruct (files w' path).
Qed.

Lemma extract_audio_runs (video data path : string) (file_id : option string)
      (w : World) :
  files w video = Some data ->
  exists w',
    snd (subprocess_run (AudioExtractor.ffmpeg_command video path) w) = w'
    /\ ((extract_audio video (Some path) file_id w = (Ok path, w')
         /\ files w' path <> None)
        \/ exists msg, extract_audio video (Some path) file_id w
                       = (Err (RuntimeError msg), w')).
Proof.
  intros Hf. rewrite (extract_audio_eq video data path file_id w Hf).
  destruct (subprocess_run (AudioExtractor.ffmpeg_command video path) w)
    as [[stdout | stderr | e] w'] eqn:E; cbn [snd]; exists w'; (split; [reflexivity | ]).
  - destruct (files w' path) eqn:Ep.
    + left. split; [reflexivity | discriminate].
    + right. eexists. reflexivity.
  - right. eexists. reflexivity.
  - right. eexists. reflexivity.
Qed.

End ExtractAudio.

(** X23.  [extract_audio] checks before it runs anything: when the video
    is missing it raises [FileNotFoundError], and when neither an output
    path nor a file id is given it raises [ValueError]; in both cases the
    world is untouched, so FFmpeg was not started. *)
Theorem extract_audio_checks_first
        (storage : StorageSettings) (joinpath : string -> string -> string)
        (subprocess_run : list string -> World -> ProcessOutcome * World)
        (video : string) (output_path file_id : option string) (w : World) :
  (files w video = None ->
   AudioExtractor.extract_audio storage joinpath subprocess_run
                                video output_path file_id w
   = (Err (FileNotFoundError ("Video file not found: " ++ video)), w))
  /\ (files w video <> None ->
      AudioExtractor.extract_audio storage joinpath subprocess_run video None None w
      = (Err (ValueError "Either output_path or file_id must be provided"), w)).
Proof.
  split; intros Hf; unfold AudioExtractor.extract_audio;
    unfold bind at 1; unfold FileHandler.file_exists.
  - now rewrite Hf.
  - destruct (files w video); [reflexivity | contradiction].
Qed.

Lemma extract_audio_checks_first_witness :
  files AudioFixtures.world "absent.mp4" = None
  /\ AudioExtractor.extract_audio MoreFixtures.storage MoreFixtures.joinpath
                                  AudioFixtures.subprocess_run
                                  "absent.mp4" (Some "talk.wav") None AudioFixtures.world
     = (Err (FileNotFoundError "Video file not found: absent.mp4"), AudioFixtures.world)
  /\ files AudioFixtures.world "talk.mp4" <> None
  /\ AudioExtractor.extract_audio MoreFixtures.storage MoreFixtures.joinpath
                                  AudioFixtures.subprocess_run
                                  "talk.mp4" None None AudioFixtures.world
     = (Err (ValueError "Either output_path or file_id must be provided"),
        AudioFixtures.world).
Proof.
  assert (H1 : files AudioFixtures.world "absent.mp4" = None) by reflexivity.
  assert (H2 : files AudioFixtures.world "talk.mp4" <> None) by discriminate.
  split; [exact H1 | split; [ | split; [exact H2 | ] ] ].
  - exact (proj1 (extract_audio_checks_first
                    MoreFixtures.storage MoreFixtures.joinpath AudioFixtures.subprocess_run
                    "absent.mp4" (Some "talk.wav") None AudioFixtures.world) H1).
  - exact (proj2 (extract_audio_checks_first
                    MoreFixtures.storage MoreFixtures.joinpath AudioFixtures.subprocess_run
                    "talk.mp4" None None AudioFixtures.world) H2).
Defined.

(** X24.  When [extract_audio] returns, the path it returns is the output
    path it was given and a file is there; and when it fails after its
    checks, whatever went wrong with FFmpeg, the error is a [RuntimeError]. *)
Theorem extract_audio_outcomes
        (storage : StorageSettings) (joinpath : string -> string -> string)
        (subprocess_run : list string -> World -> ProcessOutcome * World)
        (video data path : string) (file_id : option string)
        (r : result string) (w w' : World) :
  files w video = Some data ->
  AudioExtractor.extract_audio storage joinpath subprocess_run
                               video (Some path) file_id w = (r, w') ->
  match r with
  | Ok audio => audio = path /\ files w' path <> None
  | Err e => exists msg, e = RuntimeError msg
  end.
Proof.
  intros Hf H.
  destruct (extract_audio_runs storage joinpath subprocess_run video data path file_id w Hf)
    as (w1 & _ & [[E Hp] | [msg E] ]); rewrite E in H; inversion H; subst.
  - now split.
  - now exists msg.
Qed.

Lemma extract_audio_outcomes_witness :
  files AudioFixtures.world "talk.mp4" = Some "ftyp"
  /\ exists w',
       AudioExtractor.extract_audio MoreFixtures.storage MoreFixtures.joinpath
                                    AudioFixtures.subprocess_run
                                    "talk.mp4" (Some "talk.wav") None AudioFixtures.world
       = (Ok "talk.wav", w')
       /\ files w' "talk.wav" <> None.
Proof.
  assert (H1 : files AudioFixtures.world "talk.mp4" = Some "ftyp") by reflexivity.
  split; [exact H1 | ]. eexists.
  assert (H : AudioExtractor.extract_audio MoreFixtures.storage MoreFixtures.joinpath
                AudioFixtures.subprocess_run
                "talk.mp4" (Some "talk.wav") None AudioFixtures.world
              = (Ok "talk.wav",
                 {| requests := [];
                    files := fun p => if String.eqb p "talk.wav" then Some "RIFF"
                                      else files AudioFixtures.world p |}))
    by reflexivity.
  split; [exact H | ].
  exact (proj2 (extract_audio_outcomes MoreFixtures.storage MoreFixtures.joinpath
                  AudioFixtures.subprocess_run "talk.mp4" "ftyp" "talk.wav" None
                  _ AudioFixtures.world _ H1 H)).
Defined.

(** X25.  Extraction followed by the measure of the duration, for a video
    that exists and a given output path.  The duration is never refused for
    a missing file, since the audio file asked about is the one the
    extraction has just found in place.  A failure is a [RuntimeError], with
    one exception: when the FFprobe call itself raises a [ValueError] (for
    output that cannot be decoded), the clause [except ValueError] reads
    [result] before it was assigned and an [UnboundLocalError] reaches the
    caller; and this does happen whenever FFmpeg succeeds and the FFprobe
    call raises so. *)
Theorem extract_with_timestamps_errors
        (storage : StorageSettings) (joinpath : string -> string -> string)
        (py_float : string -> option spec_float)
        (subprocess_run : list string -> World -> ProcessOutcome * World)
        (unbound_local : string -> string)
        (video data path : string) (file_id : option string) (w : World) :
  files w video = Some data ->
  (forall (e : exn) (w' : World),
     AudioExtractor.extract_audio_with_timestamps
       storage joinpath py_float subprocess_run unbound_local
       video (Some path) file_id w
     = (Err e, w') ->
     (exists msg, e = RuntimeError msg)
     \/ (e = OtherError "UnboundLocalError" (unbound_local "result")
         /\ exists (w1 : World) (raised : exn),
              subprocess_run (AudioExtractor.ffprobe_command path) w1
              = (ProcessFailure raised, w')
              /\ isinstance_ValueError raised = true))
  /\ (forall (stdout : string) (raised : exn) (w1 w2 : World),
        subprocess_run (AudioExtractor.ffmpeg_command video path) w
        = (Completed stdout, w1) ->
        files w1 path <> None ->
        subprocess_run (AudioExtractor.ffprobe_command path) w1
        = (ProcessFailure raised, w2) ->
        isinstance_ValueError raised = true ->
        AudioExtractor.extract_audio_with_timestamps
          storage joinpath py_float subprocess_run unbound_local
          video (Some path) file_id w
        = (Err (OtherError "UnboundLocalError" (unbound_local "result")), w2)).
Proof.
  intros Hf. split.
  - intros e w' H. unfold AudioExtractor.extract_audio_with_timestamps in H.
    unfold bind at 1 in H.
    destruct (extract_audio_runs storage joinpath subprocess_run video data path file_id w Hf)
      as (w1 & _ & [[E Hp] | [msg E] ]); rewrite E in H.
    + unfold bind at 1 in H. unfold AudioExtractor.get_audio_duration in H.
      unfold bind at 1 in H. unfold FileHandler.file_exists in H.
      destruct (files w1 path) as [audio | ]; [ | contradiction]. cbn [negb] in H.
      destruct (subprocess_run (AudioExtractor.ffprobe_command path) w1)
        as [[stdout | stderr | raised] w2] eqn:Eprobe.
      * destruct (py_float (PyStr.strip stdout)).
        -- discriminate H.
        -- inversion H. left. now eexists.
      * inversion H. left. now eexists.
      * destruct (isinstance_ValueError raised) eqn:Eclass; inversion H; subst.
        -- right. split; [reflexivity | ]. now exists w1, raised.
        -- left. now eexists.
    + inversion H. left. now exists msg.
  - intros stdout raised w1 w2 Hmpeg Hp Hprobe Hclass.
    unfold AudioExtractor.extract_audio_with_timestamps. unfold bind at 1.
    rewrite (extract_audio_eq storage joinpath subprocess_run video data path file_id w Hf).
    rewrite Hmpeg. destruct (files w1 path) as [audio | ] eqn:Ep; [ | contradiction].
    unfold bind at 1. unfold AudioExtractor.get_audio_duration.
    unfold bind at 1. unfold FileHandler.file_exists. rewrite Ep. cbn [negb].
    rewrite Hprobe, Hclass. reflexivity.
Qed.

Lemma extract_with_timestamps_errors_witness :
  files AudioFixtures.world "talk.mp4" = Some "ftyp"
  /\ exists w2,
       AudioExtractor.extract_audio_with_timestamps
         MoreFixtures.storage MoreFixtures.joinpath AudioFixtures.py_float
         AudioFixtures.subprocess_run_undecodable AudioFixtures.unbound_local
         "talk.mp4" (Some "talk.wav") None AudioFixtures.world
       = (Err (OtherError "UnboundLocalError"
                 "cannot access local variable 'result' where it is not associated with a value"),
          w2).
Proof.
  assert (H1 : files AudioFixtures.world "talk.mp4" = Some "ftyp") by reflexivity.
  split; [exact H1 | ]. eexists.
  refine (proj2 (extract_with_timestamps_errors
                   MoreFixtures.storage MoreFixtures.joinpath AudioFixtures.py_float
                   AudioFixtures.subprocess_run_undecodable AudioFixtures.unbound_local
                   "talk.mp4" "ftyp" "talk.wav" None AudioFixtures.world H1)
                EmptyString
                (OtherError "UnicodeDecodeError"
                   "'utf-8' codec can't decode byte 0xff in position 0: invalid start byte")
                {| requests := [];
                   files := fun p => if String.eqb p "talk.wav" then Some "RIFF"
                                     else files AudioFixtures.world p |}
                _ _ _ _ _).
  - reflexivity.
  - discriminate.
  - reflexivity.
  - reflexivity.
Defined.
